(** * The directory tree of the S3 filesystem (src/src/dir_tree.c)

    A shallow embedding of the inode-indexed directory tree: the entry
    record, the inode index, the per-directory children tables, the
    directory-listing cache with its generation counter, and the callback
    pipeline of lookup, readdir, create, mkdir, unlink and rename.

    Entries live in an arena keyed by inode number: the C code stores
    [DirEntry *] pointers both in [h_inodes] and in the parent's
    [h_dir_tree]; here [h_inodes] holds the records and a children table
    holds inode numbers, so that a mutation through either pointer is one
    update of the arena.  An entry's address is the key it is stored under,
    which is its [ino] (never changed after [dir_tree_add_entry]). *)

From Stdlib Require Import ZArith List String Bool Lia.
From stdpp Require Import base gmap strings list.
Open Scope Z_scope.

(** ** Constants

    The headers that define them are not among the sources: [FUSE_ROOT_ID]
    is the reserved root inode of the filesystem interface, the [S_IF*]
    bits are those of POSIX, and [FIVEG] is the 5 GiB single-copy limit of
    the store. *)

Definition FUSE_ROOT_ID : Z := 1.
Definition S_IFDIR : Z := 16384.   (* 0040000 *)
Definition S_IFREG : Z := 32768.   (* 0100000 *)
Definition S_IFLNK : Z := 40960.   (* 0120000 *)
Definition DIR_DEFAULT_MODE : Z := Z.lor S_IFDIR 493.   (* S_IFDIR | 0755 *)
Definition FILE_DEFAULT_MODE : Z := Z.lor S_IFREG 420.  (* S_IFREG | 0644 *)
Definition FIVEG : Z := 5368709120.

(** [guint64] and [fuse_ino_t] counters wrap around. *)
Definition wrap64 (z : Z) : Z := z mod 2 ^ 64.
(** The [(guint32)] cast of the sweep. *)
Definition wrap32 (z : Z) : Z := z mod 2 ^ 32.
(** The [gint32] that a [long] is narrowed to. *)
Definition to_gint32 (z : Z) : Z := (z + 2 ^ 31) mod 2 ^ 32 - 2 ^ 31.

(** ** struct _DirEntry *)

Inductive DirEntryType := DET_dir | DET_file.

Definition DirEntryType_eqb (a b : DirEntryType) : bool :=
  match a, b with
  | DET_dir, DET_dir | DET_file, DET_file => true
  | _, _ => false
  end.

Record DirEntry := mkDirEntry {
  ino : Z;
  parent_ino : Z;
  basename : string;
  fullpath : string;
  type : DirEntryType;
  age : Z;
  removed : bool;
  is_modified : bool;
  size : Z;
  mode : Z;
  ctime : Z;
  dir_cache : option (list Byte.byte);      (* NULL or the cached blob *)
  dir_cache_size : Z;
  dir_cache_created : Z;
  dir_cache_updating : bool;
  h_dir_tree : option (list (string * Z));  (* NULL or name -> child, in iteration order *)
  is_updating : bool;
  updated_time : Z;
  access_time : Z;
  etag : option string;
  version_id : option string;
  content_type : option string;
  xattr_time : Z
}.

Definition set_type (v : DirEntryType) (e : DirEntry) : DirEntry :=
  mkDirEntry (ino e) (parent_ino e) (basename e) (fullpath e) v (age e) (removed e)
    (is_modified e) (size e) (mode e) (ctime e) (dir_cache e) (dir_cache_size e)
    (dir_cache_created e) (dir_cache_updating e) (h_dir_tree e) (is_updating e)
    (updated_time e) (access_time e) (etag e) (version_id e) (content_type e) (xattr_time e).
Definition set_age (v : Z) (e : DirEntry) : DirEntry :=
  mkDirEntry (ino e) (parent_ino e) (basename e) (fullpath e) (type e) v (removed e)
    (is_modified e) (size e) (mode e) (ctime e) (dir_cache e) (dir_cache_size e)
    (dir_cache_created e) (dir_cache_updating e) (h_dir_tree e) (is_updating e)
    (updated_time e) (access_time e) (etag e) (version_id e) (content_type e) (xattr_time e).
Definition set_removed (v : bool) (e : DirEntry) : DirEntry :=
  mkDirEntry (ino e) (parent_ino e) (basename e) (fullpath e) (type e) (age e) v
    (is_modified e) (size e) (mode e) (ctime e) (dir_cache e) (dir_cache_size e)
    (dir_cache_created e) (dir_cache_updating e) (h_dir_tree e) (is_updating e)
    (updated_time e) (access_time e) (etag e) (version_id e) (content_type e) (xattr_time e).
Definition set_is_modified (v : bool) (e : DirEntry) : DirEntry :=
  mkDirEntry (ino e) (parent_ino e) (basename e) (fullpath e) (type e) (age e) (removed e)
    v (size e) (mode e) (ctime e) (dir_cache e) (dir_cache_size e) (dir_cache_created e)
    (dir_cache_updating e) (h_dir_tree e) (is_updating e) (updated_time e) (access_time e)
    (etag e) (version_id e) (content_type e) (xattr_time e).
Definition set_size (v : Z) (e : DirEntry) : DirEntry :=
  mkDirEntry (ino e) (parent_ino e) (basename e) (fullpath e) (type e) (age e) (removed e)
    (is_modified e) v (mode e) (ctime e) (dir_cache e) (dir_cache_size e) (dir_cache_created
    e) (dir_cache_updating e) (h_dir_tree e) (is_updating e) (updated_time e) (access_time
    e) (etag e) (version_id e) (content_type e) (xattr_time e).
Definition set_mode (v : Z) (e : DirEntry) : DirEntry :=
  mkDirEntry (ino e) (parent_ino e) (basename e) (fullpath e) (type e) (age e) (removed e)
    (is_modified e) (size e) v (ctime e) (dir_cache e) (dir_cache_size e) (dir_cache_created
    e) (dir_cache_updating e) (h_dir_tree e) (is_updating e) (updated_time e) (access_time
    e) (etag e) (version_id e) (content_type e) (xattr_time e).
Definition set_ctime (v : Z) (e : DirEntry) : DirEntry :=
  mkDirEntry (ino e) (parent_ino e) (basename e) (fullpath e) (type e) (age e) (removed e)
    (is_modified e) (size e) (mode e) v (dir_cache e) (dir_cache_size e) (dir_cache_created
    e) (dir_cache_updating e) (h_dir_tree e) (is_updating e) (updated_time e) (access_time
    e) (etag e) (version_id e) (content_type e) (xattr_time e).
Definition set_dir_cache (v : option (list Byte.byte)) (e : DirEntry) : DirEntry :=
  mkDirEntry (ino e) (parent_ino e) (basename e) (fullpath e) (type e) (age e) (removed e)
    (is_modified e) (size e) (mode e) (ctime e) v (dir_cache_size e) (dir_cache_created e)
    (dir_cache_updating e) (h_dir_tree e) (is_updating e) (updated_time e) (access_time e)
    (etag e) (version_id e) (content_type e) (xattr_time e).
Definition set_dir_cache_size (v : Z) (e : DirEntry) : DirEntry :=
  mkDirEntry (ino e) (parent_ino e) (basename e) (fullpath e) (type e) (age e) (removed e)
    (is_modified e) (size e) (mode e) (ctime e) (dir_cache e) v (dir_cache_created e)
    (dir_cache_updating e) (h_dir_tree e) (is_updating e) (updated_time e) (access_time e)
    (etag e) (version_id e) (content_type e) (xattr_time e).
Definition set_dir_cache_created (v : Z) (e : DirEntry) : DirEntry :=
  mkDirEntry (ino e) (parent_ino e) (basename e) (fullpath e) (type e) (age e) (removed e)
    (is_modified e) (size e) (mode e) (ctime e) (dir_cache e) (dir_cache_size e) v
    (dir_cache_updating e) (h_dir_tree e) (is_updating e) (updated_time e) (access_time e)
    (etag e) (version_id e) (content_type e) (xattr_time e).
Definition set_dir_cache_updating (v : bool) (e : DirEntry) : DirEntry :=
  mkDirEntry (ino e) (parent_ino e) (basename e) (fullpath e) (type e) (age e) (removed e)
    (is_modified e) (size e) (mode e) (ctime e) (dir_cache e) (dir_cache_size e)
    (dir_cache_created e) v (h_dir_tree e) (is_updating e) (updated_time e) (access_time e)
    (etag e) (version_id e) (content_type e) (xattr_time e).
Definition set_h_dir_tree (v : option (list (string * Z))) (e : DirEntry) : DirEntry :=
  mkDirEntry (ino e) (parent_ino e) (basename e) (fullpath e) (type e) (age e) (removed e)
    (is_modified e) (size e) (mode e) (ctime e) (dir_cache e) (dir_cache_size e)
    (dir_cache_created e) (dir_cache_updating e) v (is_updating e) (updated_time e)
    (access_time e) (etag e) (version_id e) (content_type e) (xattr_time e).
Definition set_is_updating (v : bool) (e : DirEntry) : DirEntry :=
  mkDirEntry (ino e) (parent_ino e) (basename e) (fullpath e) (type e) (age e) (removed e)
    (is_modified e) (size e) (mode e) (ctime e) (dir_cache e) (dir_cache_size e)
    (dir_cache_created e) (dir_cache_updating e) (h_dir_tree e) v (updated_time e)
    (access_time e) (etag e) (version_id e) (content_type e) (xattr_time e).
Definition set_updated_time (v : Z) (e : DirEntry) : DirEntry :=
  mkDirEntry (ino e) (parent_ino e) (basename e) (fullpath e) (type e) (age e) (removed e)
    (is_modified e) (size e) (mode e) (ctime e) (dir_cache e) (dir_cache_size e)
    (dir_cache_created e) (dir_cache_updating e) (h_dir_tree e) (is_updating e) v
    (access_time e) (etag e) (version_id e) (content_type e) (xattr_time e).
Definition set_access_time (v : Z) (e : DirEntry) : DirEntry :=
  mkDirEntry (ino e) (parent_ino e) (basename e) (fullpath e) (type e) (age e) (removed e)
    (is_modified e) (size e) (mode e) (ctime e) (dir_cache e) (dir_cache_size e)
    (dir_cache_created e) (dir_cache_updating e) (h_dir_tree e) (is_updating e)
    (updated_time e) v (etag e) (version_id e) (content_type e) (xattr_time e).
Definition set_etag (v : option string) (e : DirEntry) : DirEntry :=
  mkDirEntry (ino e) (parent_ino e) (basename e) (fullpath e) (type e) (age e) (removed e)
    (is_modified e) (size e) (mode e) (ctime e) (dir_cache e) (dir_cache_size e)
    (dir_cache_created e) (dir_cache_updating e) (h_dir_tree e) (is_updating e)
    (updated_time e) (access_time e) v (version_id e) (content_type e) (xattr_time e).
Definition set_version_id (v : option string) (e : DirEntry) : DirEntry :=
  mkDirEntry (ino e) (parent_ino e) (basename e) (fullpath e) (type e) (age e) (removed e)
    (is_modified e) (size e) (mode e) (ctime e) (dir_cache e) (dir_cache_size e)
    (dir_cache_created e) (dir_cache_updating e) (h_dir_tree e) (is_updating e)
    (updated_time e) (access_time e) (etag e) v (content_type e) (xattr_time e).
Definition set_content_type (v : option string) (e : DirEntry) : DirEntry :=
  mkDirEntry (ino e) (parent_ino e) (basename e) (fullpath e) (type e) (age e) (removed e)
    (is_modified e) (size e) (mode e) (ctime e) (dir_cache e) (dir_cache_size e)
    (dir_cache_created e) (dir_cache_updating e) (h_dir_tree e) (is_updating e)
    (updated_time e) (access_time e) (etag e) (version_id e) v (xattr_time e).
Definition set_xattr_time (v : Z) (e : DirEntry) : DirEntry :=
  mkDirEntry (ino e) (parent_ino e) (basename e) (fullpath e) (type e) (age e) (removed e)
    (is_modified e) (size e) (mode e) (ctime e) (dir_cache e) (dir_cache_size e)
    (dir_cache_created e) (dir_cache_updating e) (h_dir_tree e) (is_updating e)
    (updated_time e) (access_time e) (etag e) (version_id e) (content_type e) v.

(** ** GHashTable with string keys: the children table of a directory

    Iteration order is the list order.  GLib's functions return NULL (and do
    nothing) when handed a NULL table. *)

Fixpoint children_find (name : string) (l : list (string * Z)) : option Z :=
  match l with
  | [] => None
  | (k, v) :: l' => if String.eqb k name then Some v else children_find name l'
  end.

Fixpoint children_replace (name : string) (v : Z) (l : list (string * Z))
  : list (string * Z) :=
  match l with
  | [] => [(name, v)]
  | (k, v') :: l' =>
      if String.eqb k name then (k, v) :: l' else (k, v') :: children_replace name v l'
  end.

Definition g_hash_table_lookup (t : option (list (string * Z))) (name : string)
  : option Z :=
  match t with
  | None => None
  | Some l => children_find name l
  end.

Definition g_hash_table_insert (t : option (list (string * Z))) (name : string) (v : Z)
  : option (list (string * Z)) :=
  match t with
  | None => None
  | Some l => Some (children_replace name v l)
  end.

Definition g_hash_table_new_full : option (list (string * Z)) := Some [].

(** ** Configuration, struct _DirTree *)

Record Conf := mkConf {
  filesystem_file_mode : Z;
  filesystem_dir_mode : Z;
  filesystem_dir_cache_max_time : Z;
  filesystem_file_cache_max_time : Z;
  s3_check_empty_files : bool;
  s3_force_head_requests_on_lookup : bool;
  s3_bucket_name : string;
  s3_key_prefix : string;
  s3_storage_type : string
}.

(** [destroyed] is not a field of the C struct: it lists the addresses of
    the entries that a replacing [g_hash_table_insert] has handed to
    [dir_entry_destroy] while [h_inodes] still holds them (see
    [dir_tree_add_entry]).  [dir_entry_destroy] frees such an entry and,
    through its children table, every entry below it; [h_inodes] then holds
    dangling pointers.  The arena keeps the last contents of these entries,
    which the program must not read any more: what it does when it reads
    them is undefined, and no operation of the tree looks at [destroyed]. *)
Record DirTree := mkDirTree {
  root : option Z;
  h_inodes : gmap Z DirEntry;
  app : Conf;
  max_ino : Z;
  current_write_ops : Z;
  fmode : Z;
  dmode : Z;
  destroyed : list Z
}.

Definition set_h_inodes (h : gmap Z DirEntry) (t : DirTree) : DirTree :=
  mkDirTree (root t) h (app t) (max_ino t) (current_write_ops t) (fmode t) (dmode t)
    (destroyed t).
Definition set_max_ino (v : Z) (t : DirTree) : DirTree :=
  mkDirTree (root t) (h_inodes t) (app t) v (current_write_ops t) (fmode t) (dmode t)
    (destroyed t).
Definition set_root (v : option Z) (t : DirTree) : DirTree :=
  mkDirTree v (h_inodes t) (app t) (max_ino t) (current_write_ops t) (fmode t) (dmode t)
    (destroyed t).
Definition set_destroyed (v : list Z) (t : DirTree) : DirTree :=
  mkDirTree (root t) (h_inodes t) (app t) (max_ino t) (current_write_ops t) (fmode t)
    (dmode t) v.

(** [*en = e]: write an entry back to the arena. *)
Definition store (e : DirEntry) (t : DirTree) : DirTree :=
  set_h_inodes (<[ino e := e]> (h_inodes t)) t.

(** The child of [dir_en] called [name]: the pointer held by the children
    table and the entry it points to. *)
Definition child (t : DirTree) (dir_en : DirEntry) (name : string)
  : option (Z * DirEntry) :=
  match g_hash_table_lookup (h_dir_tree dir_en) name with
  | None => None
  | Some p =>
      match h_inodes t !! p with
      | Some en => Some (p, en)
      | None => None
      end
  end.

(** [p->field = v] for a pointer [p] into the arena. *)
Definition modify (p : Z) (f : DirEntry -> DirEntry) (t : DirTree) : DirTree :=
  match h_inodes t !! p with
  | Some e => set_h_inodes (<[p := f e]> (h_inodes t)) t
  | None => t
  end.

(** ** Per-operation context records and callbacks *)

Record DirOpData := mkDirOpData {
  dop_buf : option (list Byte.byte);
  dop_size : Z
}.

Record LookupOpData := mkLookupOpData {
  lo_req : Z;
  lo_ino : Z;
  lo_not_found : bool;
  lo_name : string;
  lo_parent_ino : Z
}.

(** The [readdir_cb] function pointer together with its [ctx]: either the
    callback of the filesystem adapter or [dir_tree_on_lookup_read]. *)
Inductive ReaddirCb :=
| cb_fuse_readdir (ctx : Z)
| cb_dir_tree_on_lookup_read (op_data : LookupOpData).

Record DirTreeFillDirData := mkDirTreeFillDirData {
  fd_ino : Z;
  fd_size : Z;
  fd_off : Z;
  fd_readdir_cb : ReaddirCb;
  fd_req : Z;
  fd_dop : Z          (* address of the DirOpData, 0 for NULL *)
}.

Record FileRemoveData := mkFileRemoveData {
  fr_ino : Z;
  fr_req : Z
}.

Record RenameData := mkRenameData {
  rd_parent_ino : Z;
  rd_name : string;
  rd_newparent_ino : Z;
  rd_newname : string;
  rd_req : Z
}.

(** Response headers, as read by [http_find_header] and parsed by the C
    library ([strtoll], [strtol], [strptime]); [None] is an absent header. *)
Record Headers := mkHeaders {
  hd_content_length : option Z;
  hd_content_type : option string;
  hd_last_modified : option (option Z);  (* present; parsed by strptime or not *)
  hd_etag : option string;               (* after str_remove_quotes *)
  hd_version_id : option string;
  hd_meta_mode : option Z;
  hd_meta_date : option (option Z)
}.

(** Callbacks handed to the connection pool and to the HTTP connection. *)
Inductive ClientCb :=
| cb_fill_dir_on_http_ready (d : DirTreeFillDirData)
| cb_on_lookup_con (op : LookupOpData)
| cb_on_lookup_not_found_con (op : LookupOpData)
| cb_file_remove_on_con (d : FileRemoveData)
| cb_on_rename_copy_con (r : RenameData)
| cb_on_rename_delete_con (r : RenameData).

Inductive HttpCb :=
| cb_on_lookup (op : LookupOpData)
| cb_on_lookup_not_found (op : LookupOpData)
| cb_file_remove_on_con_data (d : FileRemoveData)
| cb_on_rename_copy (r : RenameData)
| cb_on_rename_delete (r : RenameData).

(** Calls that leave the tree: completions reported to the adapter and
    requests handed to the collaborators, in the order they are made. *)
Inductive Action :=
| readdir_cb (cb : ReaddirCb) (req : Z) (success : bool) (max_size off : Z)
    (buf : option (list Byte.byte)) (buf_size : Z)
| lookup_cb (req : Z) (success : bool) (i m s c : Z)
| file_create_cb (req : Z) (success : bool) (i m s : Z)
| file_remove_cb (req : Z) (success : bool)
| mkdir_cb (req : Z) (success : bool) (i m s c : Z)
| rename_cb (req : Z) (success : bool)
| client_pool_get_client (cb : ClientCb) (res : bool)
| http_connection_make_request (path method : string) (cb : HttpCb) (res : bool)
| http_connection_add_output_header (key value : string)
| http_connection_get_directory_listing (path : string) (i : Z) (d : DirTreeFillDirData)
| http_connection_acquire
| http_connection_release
| cache_mng_remove_file (i : Z)
| fileio_create (path : string) (i : Z) (is_new : bool).

(** ** The state of the process

    The tree, the heap of open-directory handles, and the collaborators the
    tree calls: the wall clock (one reading per [time (NULL)] call), the
    connection pool, the HTTP connection and the directory-buffer formatter
    of the filesystem adapter. *)
Record World := mkWorld {
  dtree : DirTree;
  dir_ops : gmap Z DirOpData;
  next_fh : Z;
  clock : nat -> Z;
  ticks : nat;
  pool_ok : bool;        (* what client_pool_get_client returns *)
  request_ok : bool;     (* what http_connection_make_request returns *)
  rfuse_add_dirbuf : list Byte.byte -> string -> Z -> Z -> list Byte.byte;
  trace : list Action
}.

Definition set_dtree (t : DirTree) (w : World) : World :=
  mkWorld t (dir_ops w) (next_fh w) (clock w) (ticks w) (pool_ok w) (request_ok w)
    (rfuse_add_dirbuf w) (trace w).
Definition set_dir_ops (d : gmap Z DirOpData) (w : World) : World :=
  mkWorld (dtree w) d (next_fh w) (clock w) (ticks w) (pool_ok w) (request_ok w)
    (rfuse_add_dirbuf w) (trace w).
Definition set_next_fh (v : Z) (w : World) : World :=
  mkWorld (dtree w) (dir_ops w) v (clock w) (ticks w) (pool_ok w) (request_ok w)
    (rfuse_add_dirbuf w) (trace w).
Definition set_ticks (n : nat) (w : World) : World :=
  mkWorld (dtree w) (dir_ops w) (next_fh w) (clock w) n (pool_ok w) (request_ok w)
    (rfuse_add_dirbuf w) (trace w).
Definition set_trace (l : list Action) (w : World) : World :=
  mkWorld (dtree w) (dir_ops w) (next_fh w) (clock w) (ticks w) (pool_ok w) (request_ok w)
    (rfuse_add_dirbuf w) l.

Definition emit (a : Action) (w : World) : World := set_trace (trace w ++ [a]) w.
Definition on_tree (f : DirTree -> DirTree) (w : World) : World := set_dtree (f (dtree w)) w.
Definition entry (w : World) (p : Z) : option DirEntry := h_inodes (dtree w) !! p.

(** [time (NULL)] *)
Definition time_NULL (w : World) : Z * World :=
  (clock w (ticks w), set_ticks (S (ticks w)) w).

(** ** dir_entry operations *)

(** The body shared by the cache resets: free [dir_cache], set it to NULL
    and its size to 0; [dir_cache_created] is kept. *)
Definition reset_dir_cache (e : DirEntry) : DirEntry :=
  set_dir_cache_size 0 (set_dir_cache None e).

(** [dir_tree_entry_modified]: for a directory, drop its listing cache; for
    a file, do so for its parent (the recursive call of the source sees a
    directory, so it is unfolded once). *)
Definition dir_tree_entry_modified (t : DirTree) (en : Z) : DirTree :=
  match h_inodes t !! en with
  | None => t
  | Some e =>
      match type e with
      | DET_dir => modify en reset_dir_cache t
      | DET_file =>
          match h_inodes t !! parent_ino e with
          | None => t
          | Some parent_en =>
              match type parent_en with
              | DET_dir => modify (parent_ino e) reset_dir_cache t
              | DET_file => t
              end
          end
      end
  end.

(** What [g_hash_table_insert] does with the value it replaces in a table
    whose value-destroy function is [dir_entry_destroy]: [r] is the address
    that the table held under the key, NULL when it held none. *)
Definition mark_destroyed (r : option Z) (t : DirTree) : DirTree :=
  match r with
  | Some p => set_destroyed (destroyed t ++ [p]) t
  | None => t
  end.

(** [dir_tree_add_entry]: returns the new entry (its address) or NULL.
    The [off_t] size is stored in the [guint64] field [size], hence modulo
    2^64.  When the parent already holds an entry of the same type under
    the name, [g_hash_table_insert] replaces it in the parent's table and
    hands it to [dir_entry_destroy], the value-destroy function of the
    table; the source leaves the pointer to it in [h_inodes], so the arena
    keeps the record and its address is added to [destroyed]. *)
Definition dir_tree_add_entry (w : World) (name : string) (md : Z)
    (ty : DirEntryType) (parent : Z) (sz ct : Z) : option Z * World :=
  let t := dtree w in
  let parent_en := if parent =? 0 then None else h_inodes t !! parent in
  if negb (parent =? 0) && bool_decide (parent_en = None) then (None, w)
  else
    let clash :=
      match parent_en with
      | Some pe =>
          match child t pe name with
          | Some (_, en) => negb (DirEntryType_eqb (type en) ty)
          | None => false
          end
      | None => false
      end in
    if clash then (None, w)
    else
      let t1 := if parent =? 0 then t else dir_tree_entry_modified t parent in
      let current_age :=
        match parent_en with Some pe => age pe | None => 0 end in
      let path :=
        match parent_en with
        | Some pe =>
            if parent =? FUSE_ROOT_ID then name
            else (fullpath pe ++ "/" ++ name)%string
        | None => ""%string
        end in
      let '(now, w1) := time_NULL w in
      let i := max_ino t1 in
      let en :=
        mkDirEntry i parent name path ty current_age false false (wrap64 sz) md ct
          None 0 0 false
          (match ty with DET_dir => g_hash_table_new_full | DET_file => None end)
          false 0 now None None None 0 in
      let t2 := set_max_ino (wrap64 (i + 1)) t1 in
      let t3 := set_h_inodes (<[i := en]> (h_inodes t2)) t2 in
      (* the entry that g_hash_table_insert replaces and destroys *)
      let replaced :=
        match parent_en with
        | Some pe => g_hash_table_lookup (h_dir_tree pe) name
        | None => None
        end in
      let t4 :=
        if parent =? 0 then t3
        else
          dir_tree_entry_modified
            (modify parent
               (fun pe => set_h_dir_tree (g_hash_table_insert (h_dir_tree pe) name i) pe)
               (mark_destroyed replaced t3))
            parent in
      (Some i, set_dtree t4 w1).

(** [dir_tree_create] *)
Definition dir_tree_create (c : Conf) (w : World) : World :=
  let fm :=
    if filesystem_file_mode c <? 0 then FILE_DEFAULT_MODE
    else Z.lor (filesystem_file_mode c) S_IFREG in
  let dm :=
    if filesystem_dir_mode c <? 0 then DIR_DEFAULT_MODE
    else Z.lor (filesystem_dir_mode c) S_IFDIR in
  let t := mkDirTree None ∅ c FUSE_ROOT_ID 0 fm dm [] in
  let '(now, w1) := time_NULL (set_dtree t w) in
  let '(r, w2) := dir_tree_add_entry w1 "/" dm DET_dir 0 0 now in
  on_tree (set_root r) w2.

(** [dir_tree_is_cache_expired] *)
Definition dir_tree_is_cache_expired (w : World) (en : DirEntry) : bool * World :=
  if (dir_cache_size en =? 0) || (dir_cache_created en =? 0) then (true, w)
  else
    let '(t, w1) := time_NULL w in
    if t <? dir_cache_created en then (false, w1)
    else if t - dir_cache_created en >? filesystem_dir_cache_max_time (app (dtree w))
    then (true, w1)
    else if is_modified en then (true, w1)
    else (false, w1).

(** [dir_tree_start_update]: increase the age of the directory. *)
Definition dir_tree_start_update (t : DirTree) (en : Z) : DirTree :=
  modify en (fun e => set_age (wrap64 (age e + 1)) e) t.

(** [dir_tree_stop_update_on_remove_child_cb]: TRUE when the child is to be
    removed from the table; it is then already gone from the inode index. *)
Definition dir_tree_stop_update_on_remove_child_cb (w : World) (value : Z)
  : bool * World :=
  let '(now, w1) := time_NULL w in
  match entry w1 value with
  | None => (false, w1)
  | Some en =>
      match entry w1 (parent_ino en) with
      | None => (false, w1)
      | Some parent_en =>
          if (age en <? age parent_en)
             && negb (is_modified en)
             && (now >? access_time en)
             && (wrap32 (now - access_time en)
                 >=? filesystem_dir_cache_max_time (app (dtree w1)))
             && negb (DirEntryType_eqb (type en) DET_dir)
          then
            (true,
             on_tree (fun t => set_h_inodes (delete (ino en) (h_inodes t)) t) w1)
          else (false, w1)
      end
  end.

(** [g_hash_table_foreach_remove] with the callback above. *)
Fixpoint foreach_remove (w : World) (l : list (string * Z))
  : list (string * Z) * World :=
  match l with
  | [] => ([], w)
  | (k, v) :: l' =>
      let '(rm, w1) := dir_tree_stop_update_on_remove_child_cb w v in
      let '(rest, w2) := foreach_remove w1 l' in
      (if rm then rest else (k, v) :: rest, w2)
  end.

(** [dir_tree_stop_update] *)
Definition dir_tree_stop_update (w : World) (parent : Z) : World :=
  match entry w parent with
  | None => w
  | Some parent_en =>
      match type parent_en, h_dir_tree parent_en with
      | DET_dir, Some l =>
          let '(kept, w1) := foreach_remove w l in
          on_tree (modify parent (set_h_dir_tree (Some kept))) w1
      | _, _ => w
      end
  end.

(** [dir_tree_update_entry]: the [long long] size is stored in the
    [guint64] field [size], hence modulo 2^64. *)
Definition dir_tree_update_entry (w : World) (ty : DirEntryType) (parent : Z)
    (entry_name : string) (sz last_modified : Z) : option Z * World :=
  match entry w parent with
  | None => (None, w)
  | Some parent_en =>
      match type parent_en with
      | DET_file => (None, w)
      | DET_dir =>
          match child (dtree w) parent_en entry_name with
          | Some (p, _) =>
              (Some p,
               on_tree
                 (modify p
                    (fun e =>
                       set_removed false (set_size (wrap64 sz) (set_age (age parent_en) e))))
                 w)
          | None =>
              let md :=
                match ty with
                | DET_file => fmode (dtree w)
                | DET_dir => dmode (dtree w)
                end in
              dir_tree_add_entry w entry_name md ty parent sz last_modified
          end
      end
  end.

(** ** dir_tree_fill_dir_buf *)

(** [g_malloc0 (n)] followed by [memcpy (dst, src, n)]: NULL when [n] is 0. *)
Definition copy_buf (src : list Byte.byte) (n : Z) : option (list Byte.byte) :=
  if n =? 0 then None else Some (firstn (Z.to_nat n) src).

Definition buf_size (b : list Byte.byte) : Z := Z.of_nat (length b).

(** The handle behind [fi->fh], NULL when [fi] or [fi->fh] is. *)
Definition dop_of (w : World) (dop : Z) : option DirOpData :=
  if dop =? 0 then None else dir_ops w !! dop.

(** The loop over the children of [en]: add the entries that are up to date
    and not removed. *)
Fixpoint add_children (w : World) (parent_age : Z) (l : list (string * Z))
    (b : list Byte.byte) : list Byte.byte :=
  match l with
  | [] => b
  | (_, v) :: l' =>
      match entry w v with
      | Some tmp_en =>
          if (age tmp_en >=? parent_age) && negb (removed tmp_en)
          then
            add_children w parent_age l'
              (rfuse_add_dirbuf w b (basename tmp_en) (ino tmp_en) (size tmp_en))
          else add_children w parent_age l' b
      | None => add_children w parent_age l' b
      end
  end.

(** The directory buffer built from the tree for directory [i]. *)
Definition build_dirbuf (w : World) (i : Z) (en : DirEntry) : list Byte.byte :=
  let b1 := rfuse_add_dirbuf w [] "." i 0 in
  let b2 := rfuse_add_dirbuf w b1 ".." i 0 in
  add_children w (age en) (default [] (h_dir_tree en)) b2.

(** [dir_tree_fill_on_dir_buf_cb]: the completion of a listing. *)
Definition dir_tree_fill_on_dir_buf_cb (w : World) (d : DirTreeFillDirData)
    (success : bool) : World :=
  let failed :=
    readdir_cb (fd_readdir_cb d) (fd_req d) false (fd_size d) (fd_off d) None 0 in
  match entry w (fd_ino d) with
  | None => emit failed w
  | Some _ =>
      let w1 :=
        on_tree
          (modify (fd_ino d)
             (fun e => set_is_modified false (set_dir_cache_updating false e)))
          w in
      if negb success then emit failed w1
      else
        match entry w1 (fd_ino d) with
        | None => emit failed w1
        | Some en =>
            let b := build_dirbuf w1 (fd_ino d) en in
            let cache := copy_buf b (buf_size b) in
            (* 1. update the directory cache *)
            let w2 :=
              on_tree
                (modify (fd_ino d)
                   (fun e => set_dir_cache cache (set_dir_cache_size (buf_size b) e)))
                w1 in
            (* 2. update the request buffer *)
            let w3 :=
              match dop_of w2 (fd_dop d) with
              | Some _ =>
                  set_dir_ops
                    (<[fd_dop d := mkDirOpData (copy_buf b (buf_size b)) (buf_size b)]>
                       (dir_ops w2))
                    w2
              | None => w2
              end in
            let '(now, w4) := time_NULL w3 in
            let w5 := on_tree (modify (fd_ino d) (set_dir_cache_created now)) w4 in
            emit
              (readdir_cb (fd_readdir_cb d) (fd_req d) true (fd_size d) (fd_off d)
                 cache (buf_size b))
              w5
        end
  end.

(** [dir_tree_fill_dir_on_http_ready]: the pool has a connection. *)
Definition dir_tree_fill_dir_on_http_ready (w : World) (d : DirTreeFillDirData)
  : World :=
  match entry w (fd_ino d) with
  | None =>
      emit (readdir_cb (fd_readdir_cb d) (fd_req d) false (fd_size d) (fd_off d) None 0) w
  | Some _ =>
      let w1 := on_tree (fun t => dir_tree_start_update t (fd_ino d)) w in
      match entry w1 (fd_ino d) with
      | Some en => emit (http_connection_get_directory_listing (fullpath en) (fd_ino d) d) w1
      | None => w1
      end
  end.

(** [dir_tree_opendir]: the result and the value left in [fi->fh]. *)
Definition dir_tree_opendir (w : World) (i : Z) (fh : Z) : bool * Z * World :=
  match entry w i with
  | None => (false, fh, w)
  | Some _ =>
      let a := next_fh w in
      (true, a,
       set_next_fh (a + 1) (set_dir_ops (<[a := mkDirOpData None 0]> (dir_ops w)) w))
  end.

(** [dir_tree_releasedir] *)
Definition dir_tree_releasedir (w : World) (fh : Z) : bool * World :=
  (true, if fh =? 0 then w else set_dir_ops (delete fh (dir_ops w)) w).

(** [dir_tree_fill_dir_buf]: [fi] is NULL ([None]) or holds [fi->fh]. *)
Definition dir_tree_fill_dir_buf (w : World) (i : Z) (sz off : Z) (cb : ReaddirCb)
    (req : Z) (fi : option Z) : World :=
  let failed := readdir_cb cb req false sz off None 0 in
  match entry w i with
  | None => emit failed w
  | Some en =>
      match type en with
      | DET_file => emit failed w
      | DET_dir =>
          let dop := default 0 fi in
          match dop_of w dop with
          | Some (mkDirOpData (Some b) n) =>
              (* the request buffer is set: return it right away *)
              emit (readdir_cb cb req true sz off (Some b) n) w
          | dopv =>
              let '(expired, w1) := dir_tree_is_cache_expired w en in
              if negb expired then
                match dopv with
                | Some _ =>
                    let b := copy_buf (default [] (dir_cache en)) (dir_cache_size en) in
                    let w2 :=
                      set_dir_ops
                        (<[dop := mkDirOpData b (dir_cache_size en)]> (dir_ops w1)) w1 in
                    emit (readdir_cb cb req true sz off b (dir_cache_size en)) w2
                | None =>
                    emit (readdir_cb cb req true sz off (dir_cache en) (dir_cache_size en)) w1
                end
              else if off >? 0 then emit failed w1
              else
                let w2 := on_tree (modify i reset_dir_cache) w1 in
                let d := mkDirTreeFillDirData i sz off cb req dop in
                let '(stale, w3) :=
                  if dir_cache_updating en then (false, w2)
                  else if dir_cache_created en =? 0 then (true, w2)
                  else
                    let '(now, w') := time_NULL w2 in
                    (now - dir_cache_created en
                       >? filesystem_dir_cache_max_time (app (dtree w2)), w') in
                if stale then
                  let w4 := on_tree (modify i (set_dir_cache_updating true)) w3 in
                  let w5 :=
                    emit (client_pool_get_client (cb_fill_dir_on_http_ready d) (pool_ok w4))
                      w4 in
                  if pool_ok w4 then w5
                  else
                    on_tree (modify i (set_dir_cache_updating false)) (emit failed w5)
                else dir_tree_fill_on_dir_buf_cb w3 d true
          end
      end
  end.

(** ** dir_tree_lookup *)

(** [dir_tree_entry_update_xattrs] *)
Definition dir_tree_entry_update_xattrs (w : World) (en : Z) (headers : Headers) : World :=
  let upd (h : option string) (old : option string) : option string :=
    match h with Some v => Some v | None => old end in
  let w1 :=
    on_tree
      (modify en
         (fun e =>
            set_content_type (upd (hd_content_type headers) (content_type e))
              (set_version_id (upd (hd_version_id headers) (version_id e))
                 (set_etag (upd (hd_etag headers) (etag e)) e))))
      w in
  let '(now, w2) := time_NULL w1 in
  on_tree (modify en (set_xattr_time now)) w2.

Definition is_directory_content_type (headers : Headers) : bool :=
  match hd_content_type headers with
  | Some ct => String.prefix "application/x-directory" ct
  | None => false
  end.

(** [dir_tree_on_lookup_cb]: completion of the HEAD sent for a known entry.
    The [gint64] length is stored in the [guint64] field [size]; the value
    of x-amz-meta-mode is narrowed from [long] to [gint32] before it is
    tested and stored. *)
Definition dir_tree_on_lookup_cb (w : World) (op_data : LookupOpData) (success : bool)
    (headers : Headers) : World :=
  let w0 := emit http_connection_release w in
  let i := lo_ino op_data in
  match entry w0 i with
  | None => emit (lookup_cb (lo_req op_data) false 0 0 0 0) w0
  | Some _ =>
      if negb success then
        on_tree (modify i (set_is_updating false))
          (emit (lookup_cb (lo_req op_data) false 0 0 0 0) w0)
      else
        let w1 :=
          match hd_content_length headers with
          | Some sz => on_tree (modify i (set_size (wrap64 (if sz <? 0 then 0 else sz)))) w0
          | None => w0
          end in
        let w2 := dir_tree_entry_update_xattrs w1 i headers in
        let w3 :=
          if is_directory_content_type headers then
            on_tree
              (modify i
                 (fun e =>
                    reset_dir_cache
                      (set_h_dir_tree
                         (match h_dir_tree e with
                          | None => g_hash_table_new_full
                          | Some l => Some l
                          end)
                         (set_mode (dmode (dtree w2)) (set_type DET_dir e)))))
              w2
          else w2 in
        let w4 :=
          match hd_meta_mode headers with
          | Some v =>
              (* gint32 val = strtol (...) *)
              let val := to_gint32 v in
              if val >? 0 then on_tree (modify i (set_mode val)) w3 else w3
          | None => w3
          end in
        let w5 :=
          match hd_meta_date headers with
          | Some (Some tm) => on_tree (modify i (set_ctime tm)) w4
          | _ => w4
          end in
        let w6 := on_tree (modify i (set_is_updating false)) w5 in
        let '(now, w7) := time_NULL w6 in
        let w8 := on_tree (modify i (set_updated_time now)) w7 in
        match entry w8 i with
        | Some en =>
            emit (lookup_cb (lo_req op_data) true (ino en) (mode en) (size en) (ctime en)) w8
        | None => w8
        end
  end.

(** [dir_tree_on_lookup_con_cb]: send the HEAD request. *)
Definition dir_tree_on_lookup_con_cb (w : World) (op_data : LookupOpData) : World :=
  match entry w (lo_ino op_data) with
  | None => emit (lookup_cb (lo_req op_data) false 0 0 0 0) w
  | Some en =>
      let w1 := emit http_connection_acquire w in
      let w2 :=
        emit
          (http_connection_make_request ("/" ++ fullpath en) "HEAD"
             (cb_on_lookup op_data) (request_ok w1))
          w1 in
      if request_ok w1 then w2
      else
        emit (lookup_cb (lo_req op_data) false 0 0 0 0)
          (on_tree (modify (lo_ino op_data) (set_is_updating false))
             (emit http_connection_release w2))
  end.

(** [dir_tree_on_lookup_not_found_cb]: completion of the HEAD sent for a
    name the parent does not hold. *)
Definition dir_tree_on_lookup_not_found_cb (w : World) (op_data : LookupOpData)
    (success : bool) (headers : Headers) : World :=
  let '(now, w0) := time_NULL w in
  let w1 := emit http_connection_release w0 in
  let failed := lookup_cb (lo_req op_data) false 0 0 0 0 in
  match entry w1 (lo_parent_ino op_data) with
  | None => emit failed w1
  | Some _ =>
      if negb success then
        (* a temporary entry, to avoid further HEAD requests *)
        let '(ct, w2) := time_NULL w1 in
        let '(en, w3) :=
          dir_tree_add_entry w2 (lo_name op_data) (fmode (dtree w2)) DET_file
            (lo_parent_ino op_data) 0 ct in
        let w4 :=
          match en with
          | Some p => on_tree (modify p (set_removed true)) w3
          | None => w3
          end in
        emit failed w4
      else
        let sz :=
          match hd_content_length headers with
          | Some s => if s <? 0 then 0 else s
          | None => 0
          end in
        let last_modified :=
          match hd_last_modified headers with
          | Some (Some tm) => tm
          | _ => now
          end in
        let '(en, w2) :=
          dir_tree_update_entry w1 DET_file (lo_parent_ino op_data) (lo_name op_data)
            sz last_modified in
        match en with
        | None => emit failed w2
        | Some p =>
            let w3 := dir_tree_entry_update_xattrs w2 p headers in
            match entry w3 p with
            | Some e =>
                emit (lookup_cb (lo_req op_data) true (ino e) (mode e) (size e) (ctime e)) w3
            | None => w3
            end
        end
  end.

(** [dir_tree_on_lookup_not_found_con_cb] *)
Definition dir_tree_on_lookup_not_found_con_cb (w : World) (op_data : LookupOpData)
  : World :=
  match entry w (lo_parent_ino op_data) with
  | None => emit (lookup_cb (lo_req op_data) false 0 0 0 0) w
  | Some parent_en =>
      let w1 := emit http_connection_acquire w in
      let path :=
        if lo_parent_ino op_data =? FUSE_ROOT_ID then lo_name op_data
        else (fullpath parent_en ++ "/" ++ lo_name op_data)%string in
      let w2 :=
        emit
          (http_connection_make_request ("/" ++ path) "HEAD"
             (cb_on_lookup_not_found op_data) (request_ok w1))
          w1 in
      if request_ok w1 then w2
      else emit (lookup_cb (lo_req op_data) false 0 0 0 0) (emit http_connection_release w2)
  end.

(** The tombstone test of [dir_tree_lookup]. *)
Definition tombstone_is_recent (t fcmt access : Z) : bool :=
  (t - fcmt <? access) || (t - access <? fcmt).

(** [dir_tree_lookup] *)
Definition dir_tree_lookup (w : World) (parent : Z) (name : string) (req : Z) : World :=
  let failed := lookup_cb req false 0 0 0 0 in
  let conf := app (dtree w) in
  match entry w parent with
  | None => emit failed w
  | Some dir_en =>
      match type dir_en with
      | DET_file => emit failed w
      | DET_dir =>
          let '(expired, w1) := dir_tree_is_cache_expired w dir_en in
          if expired then
            let op_data := mkLookupOpData req 0 true name parent in
            dir_tree_fill_dir_buf w1 (ino dir_en) (1024 * 1024 * 1) 0
              (cb_dir_tree_on_lookup_read op_data) req None
          else
            match child (dtree w1) dir_en name with
            | None =>
                let op_data := mkLookupOpData req 0 true name parent in
                let w2 :=
                  emit (client_pool_get_client (cb_on_lookup_not_found_con op_data)
                          (pool_ok w1)) w1 in
                if pool_ok w1 then w2 else emit failed w2
            | Some (p, en) =>
                let '(t, w2) := time_NULL w1 in
                if removed en
                   && tombstone_is_recent t (filesystem_file_cache_max_time conf)
                        (access_time en)
                then emit failed w2
                else
                  let '(now, w3) := time_NULL w2 in
                  let w4 := on_tree (modify p (set_access_time now)) w3 in
                  let op_data := mkLookupOpData req (ino en) false "" 0 in
                  let head_refresh :=
                    let w5 := on_tree (modify p (set_is_updating true)) w4 in
                    let w6 :=
                      emit (client_pool_get_client (cb_on_lookup_con op_data) (pool_ok w5))
                        w5 in
                    if pool_ok w5 then w6
                    else
                      emit failed (on_tree (modify p (set_is_updating false)) w6) in
                  if is_modified en && negb (is_updating en)
                     && negb (DirEntryType_eqb (type en) DET_dir)
                  then head_refresh
                  else if negb (is_updating en)
                          && DirEntryType_eqb (type en) DET_file
                          && (t >=? updated_time en)
                          && (t - updated_time en >=? filesystem_dir_cache_max_time conf)
                          && ((s3_check_empty_files conf && (size en =? 0))
                              || s3_force_head_requests_on_lookup conf)
                  then head_refresh
                  else emit (lookup_cb req true (ino en) (mode en) (size en) (ctime en)) w4
            end
      end
  end.

(** [dir_tree_on_lookup_read]: the listing asked for by a lookup is there;
    repeat the search. *)
Definition dir_tree_on_lookup_read (w : World) (op_data : LookupOpData) (success : bool)
  : World :=
  if negb success then emit (lookup_cb (lo_req op_data) false 0 0 0 0) w
  else dir_tree_lookup w (lo_parent_ino op_data) (lo_name op_data) (lo_req op_data).

(** ** dir_tree_file_create *)

Definition dir_tree_file_create (w : World) (parent : Z) (name : string) (md : Z)
    (req : Z) : World :=
  let failed := file_create_cb req false 0 0 0 in
  match entry w parent with
  | None => emit failed w
  | Some dir_en =>
      match type dir_en with
      | DET_file => emit failed w
      | DET_dir =>
          let '(en, w1) :=
            match child (dtree w) dir_en name with
            | None =>
                (* create a new entry *)
                let '(ct, w') := time_NULL w in
                dir_tree_add_entry w' name md DET_file parent 0 ct
            | Some (p, _) =>
                (* update *)
                let '(now, w') := time_NULL w in
                (Some p,
                 on_tree
                   (fun t =>
                      dir_tree_entry_modified
                        (modify p
                           (fun x =>
                              set_age (age dir_en)
                                (set_access_time now (set_removed false x)))
                           t)
                        parent)
                   w')
            end in
          match en with
          | None => emit failed w1
          | Some p =>
              let w2 := on_tree (modify p (set_is_modified true)) w1 in
              match entry w2 p with
              | Some e =>
                  emit (file_create_cb req true (ino e) (mode e) (size e))
                    (emit (fileio_create (fullpath e) (ino e) true) w2)
              | None => w2
              end
          end
      end
  end.

(** ** dir_tree_file_remove *)

(** [dir_tree_file_remove_on_con_data_cb]: the DELETE has completed. *)
Definition dir_tree_file_remove_on_con_data_cb (w : World) (data : FileRemoveData)
    (success : bool) : World :=
  let w0 := emit http_connection_release w in
  match entry w0 (fr_ino data) with
  | None => emit (file_remove_cb (fr_req data) false) w0
  | Some _ =>
      let w1 :=
        on_tree
          (fun t =>
             dir_tree_entry_modified
               (modify (fr_ino data) (fun e => set_age 0 (set_removed true e)) t)
               (fr_ino data))
          w0 in
      emit (file_remove_cb (fr_req data) success) w1
  end.

(** [dir_tree_file_remove_on_con_cb]: send the DELETE request. *)
Definition dir_tree_file_remove_on_con_cb (w : World) (data : FileRemoveData) : World :=
  match entry w (fr_ino data) with
  | None => emit (file_remove_cb (fr_req data) false) w
  | Some en =>
      let w1 := emit http_connection_acquire w in
      let w2 :=
        emit
          (http_connection_make_request ("/" ++ fullpath en) "DELETE"
             (cb_file_remove_on_con_data data) (request_ok w1))
          w1 in
      if request_ok w1 then w2
      else emit http_connection_release (emit (file_remove_cb (fr_req data) false) w2)
  end.

(** [dir_tree_file_remove] *)
Definition dir_tree_file_remove (w : World) (i : Z) (req : Z) : World :=
  match entry w i with
  | None => emit (file_remove_cb req false) w
  | Some en =>
      match type en with
      | DET_dir => emit (file_remove_cb req false) w
      | DET_file =>
          let w1 := emit (cache_mng_remove_file i) w in
          let data := mkFileRemoveData i req in
          let w2 :=
            emit (client_pool_get_client (cb_file_remove_on_con data) (pool_ok w1)) w1 in
          if pool_ok w1 then w2 else emit (file_remove_cb req false) w2
      end
  end.

(** [dir_tree_file_unlink] *)
Definition dir_tree_file_unlink (w : World) (parent : Z) (name : string) (req : Z)
  : World :=
  match entry w parent with
  | None => emit (file_remove_cb req false) w
  | Some parent_en =>
      match child (dtree w) parent_en name with
      | None => emit (file_remove_cb req false) w
      | Some (_, en) => dir_tree_file_remove w (ino en) req
      end
  end.

(** ** dir_tree_dir_remove *)

(** The loop of [dir_tree_dir_remove]: every entry of the table is removed. *)
Definition entries_removed (w : World) (l : list (string * Z)) : bool :=
  forallb
    (fun kv => match entry w (snd kv) with Some e => removed e | None => true end) l.

Definition dir_tree_dir_remove (w : World) (parent : Z) (name : string) : bool * World :=
  match entry w parent with
  | None => (false, w)
  | Some parent_en =>
      match type parent_en with
      | DET_file => (false, w)
      | DET_dir =>
          match child (dtree w) parent_en name with
          | None => (false, w)
          | Some (p, en) =>
              match type en, h_dir_tree en with
              | DET_dir, Some l =>
                  if entries_removed w l then
                    (true,
                     on_tree
                       (fun t =>
                          dir_tree_entry_modified
                            (modify p (fun e => set_age 0 (set_removed true e)) t)
                            parent)
                       w)
                  else (false, w)
              | _, _ => (false, w)
              end
          end
      end
  end.

(** ** dir_tree_dir_create *)

Definition dir_tree_dir_create (w : World) (parent : Z) (name : string) (md : Z)
    (req : Z) : World :=
  let failed := mkdir_cb req false 0 0 0 0 in
  match entry w parent with
  | None => emit failed w
  | Some dir_en =>
      match type dir_en with
      | DET_file => emit failed w
      | DET_dir =>
          let '(en, w1) :=
            match child (dtree w) dir_en name with
            | None =>
                (* create a new entry *)
                let '(ct, w') := time_NULL w in
                dir_tree_add_entry w' name md DET_dir parent 10 ct
            | Some (p, _) =>
                (* lookup has created a default "file type" entry *)
                let '(now, w') := time_NULL w in
                (Some p,
                 on_tree
                   (modify p
                      (fun x =>
                         reset_dir_cache
                           (set_access_time now
                              (set_removed false
                                 (set_h_dir_tree
                                    (match h_dir_tree x with
                                     | None => g_hash_table_new_full
                                     | Some l => Some l
                                     end)
                                    (set_type DET_dir x))))))
                   w')
            end in
          match en with
          | None => emit failed w1
          | Some p =>
              (* inform parent that directory listing is no longer valid *)
              let w2 := on_tree (modify parent (set_is_modified true)) w1 in
              let parent_age :=
                match entry w2 parent with Some d => age d | None => 0 end in
              let w3 :=
                on_tree
                  (modify p
                     (fun x =>
                        set_age parent_age
                          (set_mode (dmode (dtree w2))
                             (set_removed false (set_is_modified false x)))))
                  w2 in
              match entry w3 p with
              | Some e => emit (mkdir_cb req true (ino e) (mode e) (size e) (ctime e)) w3
              | None => w3
              end
          end
      end
  end.

(** ** dir_tree_rename *)

(** [dir_tree_on_rename_delete_cb]: the DELETE of the source has completed. *)
Definition dir_tree_on_rename_delete_cb (w : World) (rdata : RenameData) (success : bool)
  : World :=
  let w0 := emit http_connection_release w in
  let failed := rename_cb (rd_req rdata) false in
  if negb success then emit failed w0
  else
    match entry w0 (rd_parent_ino rdata) with
    | None => emit failed w0
    | Some parent_en =>
        match type parent_en with
        | DET_file => emit failed w0
        | DET_dir =>
            match child (dtree w0) parent_en (rd_name rdata) with
            | None => emit failed w0
            | Some (p, _) =>
                match entry w0 (rd_newparent_ino rdata) with
                | None => emit failed w0
                | Some newparent_en =>
                    match type newparent_en with
                    | DET_file => emit failed w0
                    | DET_dir =>
                        let w1 :=
                          on_tree
                            (fun t =>
                               dir_tree_entry_modified
                                 (dir_tree_entry_modified
                                    (modify p (set_removed true) t) p)
                                 (rd_newparent_ino rdata))
                            w0 in
                        emit (rename_cb (rd_req rdata) true) w1
                    end
                end
            end
        end
    end.

(** [dir_tree_on_rename_delete_con_cb]: send the DELETE of the source. *)
Definition dir_tree_on_rename_delete_con_cb (w : World) (rdata : RenameData) : World :=
  let failed := rename_cb (rd_req rdata) false in
  match entry w (rd_parent_ino rdata) with
  | None => emit failed w
  | Some parent_en =>
      match type parent_en with
      | DET_file => emit failed w
      | DET_dir =>
          match child (dtree w) parent_en (rd_name rdata) with
          | None => emit failed w
          | Some (_, en) =>
              let w1 := emit http_connection_acquire w in
              let w2 :=
                emit
                  (http_connection_make_request ("/" ++ fullpath en) "DELETE"
                     (cb_on_rename_delete rdata) (request_ok w1))
                  w1 in
              if request_ok w1 then w2
              else emit http_connection_release (emit failed w2)
          end
      end
  end.

(** [dir_tree_on_rename_copy_cb]: the PUT with the copy source has completed. *)
Definition dir_tree_on_rename_copy_cb (w : World) (rdata : RenameData) (success : bool)
  : World :=
  let w0 := emit http_connection_release w in
  let failed := rename_cb (rd_req rdata) false in
  if negb success then emit failed w0
  else
    match entry w0 (rd_newparent_ino rdata) with
    | None => emit failed w0
    | Some newparent_en =>
        match type newparent_en with
        | DET_file => emit failed w0
        | DET_dir =>
            match child (dtree w0) newparent_en (rd_newname rdata) with
            | None => emit failed w0
            | Some (p, _) =>
                let '(now, w1) := time_NULL w0 in
                let w2 :=
                  on_tree
                    (fun t =>
                       dir_tree_entry_modified
                         (modify p
                            (fun e => set_access_time now (set_removed false e)) t)
                         (rd_newparent_ino rdata))
                    w1 in
                let w3 :=
                  emit (client_pool_get_client (cb_on_rename_delete_con rdata) (pool_ok w2))
                    w2 in
                if pool_ok w2 then w3 else emit failed w3
            end
        end
    end.

(** [dir_tree_on_rename_copy_con_cb]: send the PUT with the copy source. *)
Definition dir_tree_on_rename_copy_con_cb (w : World) (rdata : RenameData) : World :=
  let failed := rename_cb (rd_req rdata) false in
  let conf := app (dtree w) in
  match entry w (rd_parent_ino rdata) with
  | None => emit failed w
  | Some parent_en =>
      match type parent_en with
      | DET_file => emit failed w
      | DET_dir =>
          match child (dtree w) parent_en (rd_name rdata) with
          | None => emit failed w
          | Some (_, en) =>
              match entry w (rd_newparent_ino rdata) with
              | None => emit failed w
              | Some newparent_en =>
                  match type newparent_en with
                  | DET_file => emit failed w
                  | DET_dir =>
                      let src_path :=
                        if (String.length (s3_key_prefix conf) =? 0)%nat
                        then (s3_bucket_name conf ++ "/" ++ fullpath en)%string
                        else (s3_bucket_name conf ++ s3_key_prefix conf ++ fullpath en)%string in
                      let dst_path :=
                        if rd_newparent_ino rdata =? FUSE_ROOT_ID
                        then (fullpath newparent_en ++ "/" ++ rd_newname rdata)%string
                        else ("/" ++ fullpath newparent_en ++ "/" ++ rd_newname rdata)%string in
                      let w1 := emit http_connection_acquire w in
                      let w2 :=
                        emit (http_connection_add_output_header "x-amz-copy-source" src_path)
                          w1 in
                      let w3 :=
                        emit
                          (http_connection_add_output_header "x-amz-storage-class"
                             (s3_storage_type conf))
                          w2 in
                      let w4 :=
                        emit
                          (http_connection_make_request dst_path "PUT"
                             (cb_on_rename_copy rdata) (request_ok w3))
                          w3 in
                      if request_ok w3 then w4
                      else emit http_connection_release (emit failed w4)
                  end
              end
          end
      end
  end.

(** [dir_tree_rename] *)
Definition dir_tree_rename (w : World) (parent : Z) (name : string) (newparent : Z)
    (newname : string) (req : Z) : World :=
  let failed := rename_cb req false in
  match entry w parent with
  | None => emit failed w
  | Some parent_en =>
      match type parent_en with
      | DET_file => emit failed w
      | DET_dir =>
          match entry w newparent with
          | None => emit failed w
          | Some newparent_en =>
              match type newparent_en with
              | DET_file => emit failed w
              | DET_dir =>
                  match child (dtree w) parent_en name with
                  | None => emit failed w
                  | Some (_, en) =>
                      if DirEntryType_eqb (type en) DET_dir then emit failed w
                      else if size en >=? FIVEG then emit failed w
                      else
                        let rdata := mkRenameData parent name newparent newname req in
                        let w1 :=
                          emit
                            (client_pool_get_client (cb_on_rename_copy_con rdata) (pool_ok w))
                            w in
                        if pool_ok w then w1 else emit failed w1
                  end
              end
          end
      end
  end.

(** ** The event loop

    The pool and the HTTP connection call back later with the callback and
    context they were given; a [readdir_cb] aimed at
    [dir_tree_on_lookup_read] is a call inside the tree (a tail call of the
    function that makes it), run by [run_readdir_cb]. *)

Definition deliver_client (w : World) (cb : ClientCb) : World :=
  match cb with
  | cb_fill_dir_on_http_ready d => dir_tree_fill_dir_on_http_ready w d
  | cb_on_lookup_con op => dir_tree_on_lookup_con_cb w op
  | cb_on_lookup_not_found_con op => dir_tree_on_lookup_not_found_con_cb w op
  | cb_file_remove_on_con d => dir_tree_file_remove_on_con_cb w d
  | cb_on_rename_copy_con r => dir_tree_on_rename_copy_con_cb w r
  | cb_on_rename_delete_con r => dir_tree_on_rename_delete_con_cb w r
  end.

Definition deliver_http (w : World) (cb : HttpCb) (success : bool) (headers : Headers)
  : World :=
  match cb with
  | cb_on_lookup op => dir_tree_on_lookup_cb w op success headers
  | cb_on_lookup_not_found op => dir_tree_on_lookup_not_found_cb w op success headers
  | cb_file_remove_on_con_data d => dir_tree_file_remove_on_con_data_cb w d success
  | cb_on_rename_copy r => dir_tree_on_rename_copy_cb w r success
  | cb_on_rename_delete r => dir_tree_on_rename_delete_cb w r success
  end.

(** The last call made, if it is a [readdir_cb] into the tree. *)
Definition pending_lookup_read (w : World) : option (LookupOpData * bool) :=
  match last (trace w) with
  | Some (readdir_cb (cb_dir_tree_on_lookup_read op) _ success _ _ _ _) => Some (op, success)
  | _ => None
  end.

Fixpoint run_readdir_cb (fuel : nat) (w : World) : option World :=
  match pending_lookup_read w with
  | None => Some w
  | Some (op, success) =>
      match fuel with
      | O => None
      | S fuel' => run_readdir_cb fuel' (dir_tree_on_lookup_read w op success)
      end
  end.

(** Modelled from the spec: [http_connection_get_directory_listing] is not
    in the sources; by sections 4.2 and 6.2 it emits one
    (basename, size, last_modified, type) tuple per object through
    [dir_tree_update_entry], runs the sweep [dir_tree_stop_update], and then
    invokes the terminal completion; a failed listing invokes the completion
    with failure. *)
Definition listing_item : Type := (string * Z * Z * DirEntryType)%type.

Definition apply_listing (w : World) (parent : Z) (items : list listing_item) : World :=
  fold_left
    (fun w' '(name, sz, mtime, ty) => snd (dir_tree_update_entry w' ty parent name sz mtime))
    items w.

Definition directory_listing_done (w : World) (d : DirTreeFillDirData)
    (listing : option (list listing_item)) : World :=
  match listing with
  | Some items =>
      dir_tree_fill_on_dir_buf_cb
        (dir_tree_stop_update (apply_listing w (fd_ino d) items) (fd_ino d)) d true
  | None => dir_tree_fill_on_dir_buf_cb w d false
  end.

(** ** Notions used by the statements *)

(** The part of an entry that fixes where it sits in the tree. *)
Definition skeleton (e : DirEntry)
  : Z * Z * DirEntryType * option (list (string * Z)) * string :=
  (ino e, parent_ino e, type e, h_dir_tree e, fullpath e).


(** What a directory buffer shows of a child. *)
Definition dirent_view (e : DirEntry) : Z * bool * string * Z * Z :=
  (age e, removed e, basename e, ino e, size e).

(** The children of [d], in the iteration order of its table. *)
Definition children_of (w : World) (d : DirEntry) : list DirEntry :=
  omap (fun kv : string * Z => entry w (snd kv)) (default [] (h_dir_tree d)).

Definition add_dirent (w : World) (b : list Byte.byte) (c : DirEntry) : list Byte.byte :=
  rfuse_add_dirbuf w b (basename c) (ino c) (size c).

(** The listing of directory [d] (inode [i]) under a visibility rule: the
    entries "." and "..", both with inode [i], then the visible children in
    iteration order. *)
Definition listing_blob_with (visible : DirEntry -> DirEntry -> bool) (w : World)
    (i : Z) (d : DirEntry) : list Byte.byte :=
  fold_left (add_dirent w) (List.filter (visible d) (children_of w d))
    (rfuse_add_dirbuf w (rfuse_add_dirbuf w [] "." i 0) ".." i 0).

(** The rule of the source: not older than the directory, and not removed. *)
Definition visible_not_older (d c : DirEntry) : bool :=
  (age c >=? age d) && negb (removed c).

(** The rule of the specification: of the same age, and not removed. *)
Definition visible_same_age (d c : DirEntry) : bool :=
  (age c =? age d) && negb (removed c).

(** Reduce the projections of a world built by the state setters. *)
Ltac wsimpl :=
  unfold entry in *;
  cbn [on_tree emit set_dtree set_dir_ops set_next_fh set_ticks set_trace time_NULL
       dtree dir_ops next_fh clock ticks pool_ok request_ok rfuse_add_dirbuf trace
       fst snd negb] in *.

(** ** A concrete process, for the examples

    The formatter of the filesystem adapter is outside the tree; the
    examples use one that appends the name, a terminator, and one byte each
    of the inode number and the size. *)

Definition byte_of_Z (z : Z) : Byte.byte :=
  default Byte.x00 (Byte.of_N (Z.to_N (z mod 256))).

Definition example_add_dirbuf (b : list Byte.byte) (name : string) (i s : Z)
  : list Byte.byte :=
  b ++ list_byte_of_string name ++ [Byte.x00; byte_of_Z i; byte_of_Z s].

Definition example_conf (dir_max file_max : Z) : Conf :=
  mkConf (-1) (-1) dir_max file_max false false "bucket" "" "STANDARD".

(** The process right after [dir_tree_create]: only the root exists. *)
Definition boot (c : Conf) (clk : nat -> Z) : World :=
  dir_tree_create c
    (mkWorld (mkDirTree None ∅ c 0 0 0 0 []) ∅ 1 clk 0 true true example_add_dirbuf []).


(** The listing of an empty root, as the example formatter writes it. *)
Definition root_blob : list Byte.byte :=
  example_add_dirbuf (example_add_dirbuf [] "." 1 0) ".." 1 0.

Definition steady (t : Z) : nat -> Z := fun _ => t.

(** A clock that reads 100 for its first [k] readings and [later] thereafter. *)
Definition clock_turning (k : nat) (later : Z) : nat -> Z :=
  fun n => if (n <? k)%nat then 100 else later.

Definition no_headers : Headers := mkHeaders None None None None None None None.

(** One readdir on directory [i] carried through the pool and the store:
    the request, the connection, the listing (or its failure), the
    completion. *)
Definition readdir_refreshed (w : World) (i off req fh : Z)
    (listing : option (list listing_item)) : World :=
  let d := mkDirTreeFillDirData i 4096 off (cb_fuse_readdir 0) req fh in
  directory_listing_done
    (dir_tree_fill_dir_on_http_ready
       (dir_tree_fill_dir_buf w i 4096 off (cb_fuse_readdir 0) req (Some fh)) d)
    d listing.

(** Only the root; [dir_cache_max_time] is 10, [file_cache_max_time] is 5,
    the clock reads 100. *)
Definition world_root_only : World := boot (example_conf 10 5) (steady 100).

(** *** Unlink of a file *)

Definition world_file_f : World := dir_tree_file_create world_root_only 1 "f" 33188 1.

Definition unlink_f : FileRemoveData := mkFileRemoveData 2 2.

(** "f" (inode 2) exists under the root and its DELETE has been sent. *)
Definition world_delete_sent : World :=
  dir_tree_file_remove_on_con_cb (dir_tree_file_unlink world_file_f 1 "f" 2) unlink_f.

(** *** Two handles on the root *)

(** The root has been listed through handle 1; handle 2 has just been
    opened. *)
Definition world_two_handles : World :=
  let w0 := boot (example_conf 10 5) (steady 100) in
  let w1 := snd (dir_tree_opendir w0 1 0) in
  let w2 := readdir_refreshed w1 1 0 11 1 (Some []) in
  snd (dir_tree_opendir w2 1 0).

(** Two readdirs on handle 1 of the root, the second one arriving while the
    refresh dispatched by the first is in flight; the listing then reports a
    file "n". *)
Definition first_readdir : DirTreeFillDirData :=
  mkDirTreeFillDirData 1 4096 0 (cb_fuse_readdir 0) 11 1.

Definition world_overlapping_readdirs : World :=
  let w0 := boot (example_conf 10 5) (steady 100) in
  let w1 := snd (dir_tree_opendir w0 1 0) in
  let d := first_readdir in
  let w2 := dir_tree_fill_dir_buf w1 1 4096 0 (cb_fuse_readdir 0) 11 (Some 1) in
  let w3 := dir_tree_fill_dir_buf w2 1 4096 0 (cb_fuse_readdir 0) 12 (Some 1) in
  directory_listing_done (dir_tree_fill_dir_on_http_ready w3 d) d
    (Some [("n"%string, 1, 50, DET_file)]).

(** *** Scenario S5: /a/x of size 10 and /b *)

Definition world_s5 : World :=
  let w0 := boot (example_conf 10 5) (steady 100) in
  let w1 := dir_tree_dir_create w0 1 "a" 0 1 in
  let w2 := dir_tree_dir_create w1 1 "b" 0 2 in
  snd (dir_tree_update_entry w2 DET_file 2 "x" 10 50).

Definition rename_x_y : RenameData := mkRenameData 2 "x" 3 "y" 9.

(** rename (a, "x", b, "y") up to the moment the PUT is in flight. *)
Definition world_s5_copy_sent : World :=
  dir_tree_on_rename_copy_con_cb (dir_tree_rename world_s5 2 "x" 3 "y" 9) rename_x_y.

(** *** A tombstone that has aged *)

Definition lookup_missing : LookupOpData := mkLookupOpData 21 0 true "missing" 1.

(** [file_cache_max_time] is 5 and [dir_cache_max_time] is 10.  The root
    has been listed at time 100, a lookup of "missing" at time 100 has left a
    tombstone, and a second lookup at time 106 has rebuilt the root's listing
    from the tree; its retry is what runs next. *)
Definition world_old_tombstone : World :=
  let w0 := boot (example_conf 10 5) (clock_turning 7 106) in
  let w1 := readdir_refreshed w0 1 0 20 0 (Some []) in
  let w2 := dir_tree_lookup w1 1 "missing" 21 in
  let w3 := dir_tree_on_lookup_not_found_con_cb w2 lookup_missing in
  let w4 := dir_tree_on_lookup_not_found_cb w3 lookup_missing false no_headers in
  dir_tree_lookup w4 1 "missing" 22.

(** *** A directory refreshed more often than its parent *)

(** ls /, mkdir /a, ls /a: the root has age 1 and "a" has age 2. *)
Definition world_a_newer : World :=
  let w0 := boot (example_conf 10 5) (steady 100) in
  let w1 := readdir_refreshed w0 1 0 30 0 (Some []) in
  let w2 := dir_tree_dir_create w1 1 "a" 0 31 in
  readdir_refreshed w2 2 0 32 0 (Some []).

Definition second_root_readdir : DirTreeFillDirData :=
  mkDirTreeFillDirData 1 4096 0 (cb_fuse_readdir 0) 33 0.

(** mkdir /a, then the refresh of /a has started: the root has age 0 and
    "a" has age 1. *)
Definition world_a_refreshing : World :=
  let w0 := boot (example_conf 10 5) (steady 100) in
  let w1 := dir_tree_dir_create w0 1 "a" 0 31 in
  let d := mkDirTreeFillDirData 2 4096 0 (cb_fuse_readdir 0) 32 0 in
  dir_tree_fill_dir_on_http_ready
    (dir_tree_fill_dir_buf w1 2 4096 0 (cb_fuse_readdir 0) 32 None) d.

(** *** A listing refresh in flight on a modified directory *)

Definition root_fill : DirTreeFillDirData :=
  mkDirTreeFillDirData 1 4096 0 (cb_fuse_readdir 0) 41 0.

Definition head_of_a : LookupOpData := mkLookupOpData 42 2 false "" 0.

(** mkdir /a has marked the root modified; a readdir of the root has been
    dispatched and has its connection. *)
Definition world_root_listing_in_flight : World :=
  let w0 := boot (example_conf 10 5) (steady 100) in
  let w1 := dir_tree_dir_create w0 1 "a" 0 40 in
  dir_tree_fill_dir_on_http_ready
    (dir_tree_fill_dir_buf w1 1 4096 0 (cb_fuse_readdir 0) 41 None) root_fill.

(** *** Scenario S1 with caching switched off and a clock that ticks *)

Definition lookup_a_txt : LookupOpData := mkLookupOpData 7 0 true "a.txt" 1.

Definition lookup_fill : DirTreeFillDirData :=
  mkDirTreeFillDirData 1 (1024 * 1024 * 1) 0 (cb_dir_tree_on_lookup_read lookup_a_txt) 7 0.

(** [dir_cache_max_time] is 0; the clock reads 100 up to the stamp of the
    refreshed listing and 101 from the retry on. *)
Definition world_lookup_dispatched : World :=
  dir_tree_lookup (boot (example_conf 0 5) (clock_turning 5 101)) 1 "a.txt" 7.

Definition world_lookup_refreshed : World :=
  directory_listing_done
    (deliver_client world_lookup_dispatched (cb_fill_dir_on_http_ready lookup_fill))
    lookup_fill (Some [("a.txt"%string, 100, 50, DET_file)]).

(** *** A tombstone left by a lookup, before mkdir *)

Definition lookup_m : LookupOpData := mkLookupOpData 50 0 true "m" 1.

Definition world_tombstone_m : World :=
  dir_tree_on_lookup_not_found_cb (boot (example_conf 10 5) (steady 100)) lookup_m false
    no_headers.

(** ** The operations on attributes, file contents and links

    The calls these operations make, in the order they are made: the
    completions reported to the adapter, the requests handed to the file
    layer, to the pool and to the HTTP connection.  [act a] is a call that
    the operations above make as well. *)

(** [dir_tree_set_entry_exist] *)
Definition dir_tree_set_entry_exist (t : DirTree) (i : Z) : DirTree :=
  match h_inodes t !! i with
  | None => t
  | Some en =>
      match type en with
      | DET_dir => t
      | DET_file => modify i (set_removed false) t
      end
  end.

Record FileReadOpData := mkFileReadOpData {
  frd_req : Z;
  frd_size : Z;
  frd_ino : Z
}.

Record FileWriteOpData := mkFileWriteOpData {
  fw_req : Z;
  fw_ino : Z;
  fw_off : Z
}.

Inductive XAttrType := XATR_etag | XATR_version | XATR_content.

Record XAttrData := mkXAttrData {
  xa_ino : Z;
  xa_req : Z;
  xa_size : Z;
  xa_attr_type : XAttrType
}.

Record SymlinkData := mkSymlinkData {
  sl_ino : Z;
  sl_req : Z
}.

Record ReadlinkData := mkReadlinkData {
  rl_ino : Z;
  rl_req : Z
}.

Inductive Call :=
| act (a : Action)
| getattr_cb (req : Z) (success : bool) (i m s c : Z)
| setattr_cb (req : Z) (success : bool) (i m s : Z)
| file_open_cb (req : Z) (success : bool) (fh : Z)
| fileio_release (fop : Z)
| file_read_cb (req : Z) (success : bool) (buf : option (list Byte.byte)) (sz : Z)
| fileio_read_buffer (fop sz off i : Z) (op_data : FileReadOpData)
| file_write_cb (req : Z) (success : bool) (count : Z)
| fileio_write_buffer (fop : Z) (buf : list Byte.byte) (sz off i : Z)
    (op_data : FileWriteOpData)
| getxattr_cb (req : Z) (success : bool) (i : Z) (value : option string) (sz : Z)
| getxattr_get_client (xattr_data : XAttrData) (res : bool)
    (* client_pool_get_client (.., dir_tree_on_getxattr_con_cb, xattr_data) *)
| getxattr_make_request (path method : string) (xattr_data : XAttrData) (res : bool)
    (* http_connection_make_request (.., dir_tree_on_getxattr_cb, xattr_data) *)
| symlink_cb (req : Z) (success : bool) (i m s c : Z)
| fileio_simple_upload (path link : string) (m : Z) (sdata : SymlinkData)
| readlink_cb (req : Z) (success : bool) (i : Z) (str : option string)
| fileio_simple_download (path : string) (rdata : ReadlinkData).

(** [dir_tree_getattr] *)
Definition dir_tree_getattr (w : World) (i : Z) (req : Z) : Call :=
  match entry w i with
  | None => getattr_cb req false 0 0 0 0
  | Some en => getattr_cb req true (ino en) (mode en) (size en) (ctime en)
  end.

(** [dir_tree_setattr]: the attributes handed in are not used. *)
Definition dir_tree_setattr (w : World) (i : Z) (req : Z) : Call :=
  match entry w i with
  | None => setattr_cb req false 0 0 0
  | Some en => setattr_cb req true (ino en) (mode en) (size en)
  end.

(** [dir_tree_file_open]: [fh] is the value of [fi->fh] at the call, [fop]
    the handle that [fileio_create] returns. *)
Definition dir_tree_file_open (w : World) (i : Z) (fh fop : Z) (req : Z) : list Call :=
  match entry w i with
  | None => [file_open_cb req false fh]
  | Some en => [act (fileio_create (fullpath en) (ino en) false); file_open_cb req true fop]
  end.

(** [dir_tree_file_release] *)
Definition dir_tree_file_release (w : World) (i : Z) (fh : Z) : list Call :=
  match entry w i with
  | None => []
  | Some _ => [fileio_release fh]
  end.

(** [dir_tree_on_buffer_read_cb] *)
Definition dir_tree_on_buffer_read_cb (op_data : FileReadOpData) (success : bool)
    (buf : list Byte.byte) (sz : Z) : Call :=
  if negb success then file_read_cb (frd_req op_data) false None 0
  else file_read_cb (frd_req op_data) true (Some buf) sz.

(** [dir_tree_file_read] *)
Definition dir_tree_file_read (w : World) (i : Z) (sz off : Z) (req : Z) (fh : Z) : Call :=
  match entry w i with
  | None => file_read_cb req false None 0
  | Some _ => fileio_read_buffer fh sz off i (mkFileReadOpData req sz i)
  end.

(** [dir_tree_on_buffer_written_cb]: [len] is what
    [cache_mng_get_file_length] returns for the inode.  The local [len] and
    the field [size] are both [guint64], and [off + count] adds an [off_t]
    and a [size_t], so all the arithmetic is modulo 2^64. *)
Definition dir_tree_on_buffer_written_cb (w : World) (op_data : FileWriteOpData)
    (success : bool) (count : Z) (len : Z) : list Call * World :=
  let reply := file_write_cb (fw_req op_data) success count in
  if success then
    match entry w (fw_ino op_data) with
    | None => ([reply], w)
    | Some _ =>
        let len1 := wrap64 len in
        let len' := if len1 =? 0 then wrap64 (fw_off op_data + count) else len1 in
        ([reply], on_tree (modify (fw_ino op_data) (set_size len')) w)
    end
  else ([reply], w).

(** [dir_tree_file_write] *)
Definition dir_tree_file_write (w : World) (i : Z) (buf : list Byte.byte) (sz off : Z)
    (req : Z) (fh : Z) : list Call * World :=
  match entry w i with
  | None => ([file_write_cb req false 0], w)
  | Some _ =>
      let '(now, w1) := time_NULL w in
      let w2 := on_tree (modify i (set_updated_time now)) w1 in
      ([fileio_write_buffer fh buf sz off i (mkFileWriteOpData req i off)], w2)
  end.

(** ** dir_tree_getxattr *)

Definition dir_tree_getxattr_from_entry (en : DirEntry) (attr_type : XAttrType)
  : option string :=
  match attr_type with
  | XATR_etag => etag en
  | XATR_version => version_id en
  | XATR_content => content_type en
  end.

(** [dir_tree_on_getxattr_cb]: the HEAD sent for the attributes has
    completed. *)
Definition dir_tree_on_getxattr_cb (w : World) (xattr_data : XAttrData) (success : bool)
    (headers : Headers) : list Call * World :=
  let failed := getxattr_cb (xa_req xattr_data) false (xa_ino xattr_data) None 0 in
  if negb success then ([act http_connection_release; failed], w)
  else
    match entry w (xa_ino xattr_data) with
    | None => ([act http_connection_release; failed], w)
    | Some _ =>
        let w1 := dir_tree_entry_update_xattrs w (xa_ino xattr_data) headers in
        match entry w1 (xa_ino xattr_data) with
        | Some en =>
            ([act http_connection_release;
              getxattr_cb (xa_req xattr_data) true (xa_ino xattr_data)
                (dir_tree_getxattr_from_entry en (xa_attr_type xattr_data))
                (xa_size xattr_data)],
             w1)
        | None => ([act http_connection_release], w1)
        end
    end.

(** [dir_tree_on_getxattr_con_cb]: send the HEAD request. *)
Definition dir_tree_on_getxattr_con_cb (w : World) (xattr_data : XAttrData) : list Call :=
  let failed := getxattr_cb (xa_req xattr_data) false (xa_ino xattr_data) None 0 in
  match entry w (xa_ino xattr_data) with
  | None => [failed]
  | Some en =>
      let rq :=
        getxattr_make_request ("/" ++ fullpath en) "HEAD" xattr_data (request_ok w) in
      if request_ok w then [act http_connection_acquire; rq]
      else [act http_connection_acquire; rq; act http_connection_release; failed]
  end.

(** The attribute names that [dir_tree_getxattr] knows. *)
Definition xattr_of_name (name : string) : option XAttrType :=
  if String.eqb name "user.version" then Some XATR_version
  else if String.eqb name "user.etag" || String.eqb name "user.md5" then Some XATR_etag
  else if String.eqb name "user.content_type" then Some XATR_content
  else None.

(** [dir_tree_getxattr] *)
Definition dir_tree_getxattr (w : World) (i : Z) (name : string) (sz : Z) (req : Z)
  : list Call * World :=
  let failed := getxattr_cb req false i None 0 in
  match entry w i with
  | None => ([failed], w)
  | Some en =>
      match type en with
      | DET_dir => ([failed], w)
      | DET_file =>
          match xattr_of_name name with
          | None => ([failed], w)
          | Some attr_type =>
              (* check if we can get data from cache *)
              let '(t, w1) := time_NULL w in
              if (t >=? xattr_time en)
                 && (t - xattr_time en >=? filesystem_dir_cache_max_time (app (dtree w)))
              then
                let xattr_data := mkXAttrData i req sz attr_type in
                if pool_ok w1 then ([getxattr_get_client xattr_data true], w1)
                else ([getxattr_get_client xattr_data false; failed], w1)
              else
                ([getxattr_cb req true i (dir_tree_getxattr_from_entry en attr_type) sz],
                 w1)
          end
      end
  end.

(** The attribute [attr_type] of [en] once the headers of a HEAD response
    have been taken over by [dir_tree_entry_update_xattrs]: the header when
    present, the old value otherwise. *)
Definition xattr_after (headers : Headers) (en : DirEntry) (attr_type : XAttrType)
  : option string :=
  match attr_type with
  | XATR_etag => match hd_etag headers with Some v => Some v | None => etag en end
  | XATR_version =>
      match hd_version_id headers with Some v => Some v | None => version_id en end
  | XATR_content =>
      match hd_content_type headers with Some v => Some v | None => content_type en end
  end.

(** ** get_stats *)

(** [dir_tree_get_stats]: [( *total_inodes, *file_num, *dir_num)], all
    [guint32]. *)
Definition dir_tree_get_stats (t : DirTree) : Z * Z * Z :=
  let total_inodes := wrap32 (Z.of_nat (base.size (h_inodes t))) in
  let '(file_num, dir_num) :=
    map_fold
      (fun _ en '(file_num, dir_num) =>
         match type en with
         | DET_file => (wrap32 (file_num + 1), dir_num)
         | DET_dir => (file_num, wrap32 (dir_num + 1))
         end)
      (0, 0) (h_inodes t) in
  (total_inodes, file_num, dir_num).

(** [dir_tree_get_inode_count] *)
Definition dir_tree_get_inode_count (t : DirTree) : Z :=
  wrap32 (Z.of_nat (base.size (h_inodes t))).

(** ** dir_tree_create_symlink *)

(** [S_IFLNK | S_IRWXU | S_IRWXG | S_IRWXO] *)
Definition SYMLINK_MODE : Z := Z.lor S_IFLNK 511.

(** [dir_tree_on_symlink_cb]: the upload of the link has completed. *)
Definition dir_tree_on_symlink_cb (w : World) (sdata : SymlinkData) (success : bool)
  : Call :=
  match entry w (sl_ino sdata) with
  | None => symlink_cb (sl_req sdata) false 0 0 0 0
  | Some en =>
      match type en with
      | DET_dir => symlink_cb (sl_req sdata) false 0 0 0 0
      | DET_file =>
          symlink_cb (sl_req sdata) success (ino en) (mode en) (size en) (ctime en)
      end
  end.

(** [dir_tree_create_symlink] *)
Definition dir_tree_create_symlink (w : World) (parent : Z) (fname link : string)
    (req : Z) : list Call * World :=
  let failed := symlink_cb req false 0 0 0 0 in
  match entry w parent with
  | None => ([failed], w)
  | Some dir_en =>
      match type dir_en with
      | DET_file => ([failed], w)
      | DET_dir =>
          let '(en, w1) :=
            match child (dtree w) dir_en fname with
            | None =>
                (* create a new entry *)
                let '(ct, w') := time_NULL w in
                dir_tree_add_entry w' fname SYMLINK_MODE DET_file parent 0 ct
            | Some (p, _) =>
                (* update *)
                let '(now, w') := time_NULL w in
                (Some p,
                 on_tree
                   (fun t =>
                      dir_tree_entry_modified
                        (modify p
                           (fun x =>
                              set_age (age dir_en)
                                (set_access_time now (set_removed false x)))
                           t)
                        parent)
                   w')
            end in
          match en with
          | None => ([failed], w1)
          | Some p =>
              let w2 :=
                on_tree
                  (modify p (fun x => set_mode SYMLINK_MODE (set_is_modified true x)))
                  w1 in
              match entry w2 p with
              | Some e =>
                  ([fileio_simple_upload (fullpath e) link SYMLINK_MODE
                      (mkSymlinkData (ino e) req)],
                   w2)
              | None => ([], w2)
              end
          end
      end
  end.

(** [dir_tree_readlink] *)
Definition dir_tree_readlink (w : World) (i : Z) (req : Z) : Call :=
  match entry w i with
  | None => readlink_cb req false i None
  | Some en =>
      match type en with
      | DET_dir => readlink_cb req false i None
      | DET_file => fileio_simple_download (fullpath en) (mkReadlinkData i req)
      end
  end.

(** ** Well-formed trees *)

(** What [dir_tree_add_entry] fixes of an entry for its lifetime. *)
Definition ident (e : DirEntry) : Z * Z * string * string :=
  (ino e, parent_ino e, basename e, fullpath e).

(** The links of a directory: the pairs of its children table. *)
Definition links (e : DirEntry) : list (string * Z) := default [] (h_dir_tree e).

(** Every entry of the inode index is stored under its own inode number. *)
Definition index_ok (t : DirTree) : Prop :=
  map_Forall (fun k e => ino e = k) (h_inodes t).

(** The path [dir_tree_add_entry] gives to [name] under the directory
    [parent] whose path is [dir]. *)
Definition path_under (parent : Z) (dir name : string) : string :=
  if parent =? FUSE_ROOT_ID then name else (dir ++ "/" ++ name)%string.

(** A well-formed tree: the index is keyed by inode number; inode numbers
    are positive, below [max_ino] and above the parent's; the path of an
    entry is its name under the path of its parent, and empty for an entry
    without parent; a link of a children table carries the name and the
    parent of the entry it points to. *)
Record tree_ok (t : DirTree) : Prop := mk_tree_ok {
  ok_index : index_ok t;
  ok_max : 0 < max_ino t;
  ok_alloc :
    forall k e, h_inodes t !! k = Some e -> 0 <= parent_ino e < k /\ k < max_ino t;
  ok_path :
    forall k e pe,
      h_inodes t !! k = Some e -> h_inodes t !! parent_ino e = Some pe ->
      fullpath e = path_under (parent_ino e) (fullpath pe) (basename e);
  ok_root :
    forall k e, h_inodes t !! k = Some e -> parent_ino e = 0 -> fullpath e = ""%string;
  ok_links :
    forall k de name v,
      h_inodes t !! k = Some de -> In (name, v) (links de) ->
      v < max_ino t
      /\ forall e, h_inodes t !! v = Some e -> basename e = name /\ parent_ino e = k
}.

(** [t'] holds nothing that [t] does not hold: no inode number has been
    given out, no entry has been destroyed behind the index, and every entry
    of [t'] is an entry of [t] with the same identity and no link that it
    did not have. *)
Definition tree_le (t' t : DirTree) : Prop :=
  (max_ino t' = max_ino t /\ destroyed t' = destroyed t)
  /\ forall k e, h_inodes t' !! k = Some e ->
       exists e0, h_inodes t !! k = Some e0 /\ ident e = ident e0
                  /\ incl (links e) (links e0).

(** [t'] is [t] after at most one [dir_tree_add_entry]: an entry of [t']
    is an entry of [t] with the same identity, or sits at the inode number
    that [t] gives out next; the list of the entries destroyed behind the
    index has at most grown. *)
Definition tree_ext (t' t : DirTree) : Prop :=
  ((max_ino t' = max_ino t \/ max_ino t' = wrap64 (max_ino t + 1))
   /\ exists l, destroyed t' = destroyed t ++ l)
  /\ forall k e, h_inodes t' !! k = Some e ->
       (exists e0, h_inodes t !! k = Some e0 /\ ident e = ident e0)
       \/ (k = max_ino t /\ max_ino t' = wrap64 (max_ino t + 1)).

(** There is an inode number left to give out. *)
Definition roomy (t : DirTree) : Prop := max_ino t + 1 < 2 ^ 64.

(** What one operation does to the tree as a whole. *)
Definition tree_step (t' t : DirTree) : Prop :=
  tree_ext t' t /\ (tree_ok t -> roomy t -> tree_ok t').

(** The entry points of the tree: the exported operations, and the
    callbacks that the pool, the HTTP connection, the listing parser and the
    file layer call back. *)
Inductive Op :=
| op_update_entry (ty : DirEntryType) (parent : Z) (entry_name : string) (sz mtime : Z)
| op_start_update (en : Z)
| op_stop_update (parent : Z)
| op_fill_on_dir_buf_cb (d : DirTreeFillDirData) (success : bool)
| op_opendir (i fh : Z)
| op_releasedir (fh : Z)
| op_fill_dir_buf (i sz off : Z) (cb : ReaddirCb) (req : Z) (fi : option Z)
| op_lookup (parent : Z) (name : string) (req : Z)
| op_on_lookup_read (op_data : LookupOpData) (success : bool)
| op_set_entry_exist (i : Z)
| op_file_create (parent : Z) (name : string) (md req : Z)
| op_file_write (i : Z) (buf : list Byte.byte) (sz off req fh : Z)
| op_on_buffer_written_cb (op_data : FileWriteOpData) (success : bool) (count len : Z)
| op_file_remove (i req : Z)
| op_file_unlink (parent : Z) (name : string) (req : Z)
| op_dir_remove (parent : Z) (name : string)
| op_dir_create (parent : Z) (name : string) (md req : Z)
| op_rename (parent : Z) (name : string) (newparent : Z) (newname : string) (req : Z)
| op_getxattr (i : Z) (name : string) (sz req : Z)
| op_on_getxattr_cb (xattr_data : XAttrData) (success : bool) (headers : Headers)
| op_create_symlink (parent : Z) (fname link : string) (req : Z)
| op_client (cb : ClientCb)
| op_http (cb : HttpCb) (success : bool) (headers : Headers).

Definition run_op (w : World) (o : Op) : World :=
  match o with
  | op_update_entry ty parent entry_name sz mtime =>
      snd (dir_tree_update_entry w ty parent entry_name sz mtime)
  | op_start_update en => on_tree (fun t => dir_tree_start_update t en) w
  | op_stop_update parent => dir_tree_stop_update w parent
  | op_fill_on_dir_buf_cb d success => dir_tree_fill_on_dir_buf_cb w d success
  | op_opendir i fh => snd (dir_tree_opendir w i fh)
  | op_releasedir fh => snd (dir_tree_releasedir w fh)
  | op_fill_dir_buf i sz off cb req fi => dir_tree_fill_dir_buf w i sz off cb req fi
  | op_lookup parent name req => dir_tree_lookup w parent name req
  | op_on_lookup_read op_data success => dir_tree_on_lookup_read w op_data success
  | op_set_entry_exist i => on_tree (fun t => dir_tree_set_entry_exist t i) w
  | op_file_create parent name md req => dir_tree_file_create w parent name md req
  | op_file_write i buf sz off req fh => snd (dir_tree_file_write w i buf sz off req fh)
  | op_on_buffer_written_cb op_data success count len =>
      snd (dir_tree_on_buffer_written_cb w op_data success count len)
  | op_file_remove i req => dir_tree_file_remove w i req
  | op_file_unlink parent name req => dir_tree_file_unlink w parent name req
  | op_dir_remove parent name => snd (dir_tree_dir_remove w parent name)
  | op_dir_create parent name md req => dir_tree_dir_create w parent name md req
  | op_rename parent name newparent newname req =>
      dir_tree_rename w parent name newparent newname req
  | op_getxattr i name sz req => snd (dir_tree_getxattr w i name sz req)
  | op_on_getxattr_cb xattr_data success headers =>
      snd (dir_tree_on_getxattr_cb w xattr_data success headers)
  | op_create_symlink parent fname link req =>
      snd (dir_tree_create_symlink w parent fname link req)
  | op_client cb => deliver_client w cb
  | op_http cb success headers => deliver_http w cb success headers
  end.

(** An update of an entry that keeps its identity and adds no link. *)
Ltac keeps :=
  intros; split;
  [ reflexivity
  | first
      [ apply incl_refl
      | unfold links; cbn;
        repeat match goal with
               | |- context [h_dir_tree ?e] => destruct (h_dir_tree e); cbn
               end;
        first [apply incl_refl | apply incl_nil_l] ] ].

(** What shields an entry from the sweep of [dir_tree_stop_update]: being
    a directory, being modified locally, or being as recent as its
    parent. *)
Definition shielded (w : World) (e : DirEntry) : Prop :=
  type e = DET_dir \/ is_modified e = true
  \/ forall pe, entry w (parent_ino e) = Some pe -> age pe <= age e.

(** What the sweep requires of an entry it destroys, [now] being the
    reading of the clock. *)
Definition sweepable (w : World) (now : Z) (e : DirEntry) : Prop :=
  type e = DET_file /\ is_modified e = false
  /\ (exists pe, entry w (parent_ino e) = Some pe /\ age e < age pe)
  /\ access_time e < now
  /\ filesystem_dir_cache_max_time (app (dtree w)) <= wrap32 (now - access_time e).

(** ** More concrete processes *)

(** A file "x" listed under the root at time 100, and a second refresh of
    the root that has started; the clock reads 200 from then on. *)
Definition world_stale_file : World :=
  let w0 := boot (example_conf 10 5) (clock_turning 3 200) in
  let w1 := snd (dir_tree_update_entry w0 DET_file 1 "x" 10 50) in
  on_tree (fun t => dir_tree_start_update t 1) w1.

Create HintDb tle discriminated.

(** Solve a goal that says that an operation adds nothing to the tree. *)
Ltac tle := wsimpl; eauto 30 with tle.

(** The number of entries of an index that are of the type [ty]. *)
Definition count_type (ty : DirEntryType) (h : gmap Z DirEntry) : Z :=
  Z.of_nat
    (length
       (List.filter (fun kv : Z * DirEntry => DirEntryType_eqb (type (snd kv)) ty)
          (map_to_list h))).

(** Scenario S5 with an entry "y" (inode 5) under /b, as a listing of /b
    or a lookup of "y" leaves one. *)
Definition world_s5_y : World :=
  snd (dir_tree_update_entry world_s5 DET_file 3 "y" 0 60).

(** The root has been listed at time 100 (from the tree, without the
    store), then a lookup of "m" has got a failed HEAD: "m" (inode 2) is a
    tombstone, and the listing cache of the root has been dropped. *)
Definition world_fresh_tombstone : World :=
  dir_tree_on_lookup_not_found_cb
    (dir_tree_fill_on_dir_buf_cb world_root_only root_fill true) lookup_m false no_headers.

(** The lookup of "m" under the root has got a failed HEAD twice. *)
Definition world_tombstone_twice : World :=
  dir_tree_on_lookup_not_found_cb world_tombstone_m lookup_m false no_headers.

(** * mimetypes.c: the table of MIME types

    The file keeps one global table, [_mimetypes_list] with
    [_mimetypes_num] entries, filled from /etc/mime.types by
    [mimetypes_load] and searched by [mimetypes_find].

    A C buffer is the list of its bytes.  A string in a buffer runs up to
    the first NUL; a list that holds no NUL is read as ending there, and a
    write past its end is dropped (the buffers that [fgets] fills always
    hold a terminator, so neither happens in [mimetypes_load]). *)

From Stdlib Require Import Ascii.

Definition NUL : ascii := "000"%char.
Definition TAB : ascii := "009"%char.
Definition LF : ascii := "010"%char.
Definition CR : ascii := "013"%char.
Definition SPC : ascii := " "%char.

(** [*ptr] for [ptr = buf + p]. *)
Definition peek (buf : list ascii) (p : nat) : ascii := default NUL (buf !! p).

(** The string that starts at the head of [s]: what [strdup], [strlen] and
    ["%s"] see. *)
Fixpoint c_str (s : list ascii) : list ascii :=
  match s with
  | [] => []
  | a :: s' => if (a =? NUL)%char then [] else a :: c_str s'
  end.

(** [strchr (s, c)]: the offset of the first [c] of the string. *)
Fixpoint strchr (s : list ascii) (c : ascii) : option nat :=
  match s with
  | [] => None
  | a :: s' =>
      if (a =? c)%char then Some 0%nat
      else if (a =? NUL)%char then None
      else S <$> strchr s' c
  end.

(** [strrchr (s, c)], for [c] other than NUL: the offset of the last [c] of
    the string. *)
Fixpoint strrchr (s : list ascii) (c : ascii) : option nat :=
  match s with
  | [] => None
  | a :: s' =>
      if (a =? NUL)%char then None
      else
        match strrchr s' c with
        | Some i => Some (S i)
        | None => if (a =? c)%char then Some 0%nat else None
        end
  end.

Fixpoint has_prefix (needle hay : list ascii) : bool :=
  match needle, hay with
  | [], _ => true
  | _ :: _, [] => false
  | a :: needle', b :: hay' => (a =? b)%char && has_prefix needle' hay'
  end.

(** [strstr (hay, needle) != NULL], on the contents of two strings. *)
Fixpoint strstr (hay needle : list ascii) : bool :=
  has_prefix needle hay
  || match hay with
     | [] => false
     | _ :: hay' => strstr hay' needle
     end.

(** The number of steps of [while (f ( *ptr)) ptr++] from the head of [s],
    for a condition that is false on NUL. *)
Fixpoint scan (f : ascii -> bool) (s : list ascii) : nat :=
  match s with
  | [] => 0
  | a :: s' => if f a then S (scan f s') else 0
  end.

(** [mimetype_t]. *)
Record mimetype_t : Type := mk_mimetype_t {
  mime_type : list ascii;
  mime_exts : list ascii
}.

(** How one turn of the loop of [mimetypes_load] ends. *)
Inductive LineStep : Type :=
| step_continue
| step_break
| step_append (mime : mimetype_t).

(** The condition of the loop that skips the blanks after the type, with
    the [break] of its body. *)
Definition blank_no_eol (c : ascii) : bool :=
  negb (c =? NUL)%char && ((c =? TAB)%char || (c =? SPC)%char)
  && negb ((c =? CR)%char || (c =? LF)%char).

Definition not_eol (c : ascii) : bool :=
  negb (c =? CR)%char && negb (c =? LF)%char && negb (c =? NUL)%char.

(** The body of the loop of [mimetypes_load], on the buffer [line] that
    [fgets] has filled; it edits the buffer in place.  [alloc_ok] says
    whether the allocations made for the entry (the struct, the copy of the
    type, the extensions, the grown table) all succeed: when one fails, what
    was allocated is freed and the line is skipped. *)
Definition mimetypes_load_line (line : list ascii) (alloc_ok : bool)
  : list ascii * LineStep :=
  let c0 := peek line 0 in
  (* skip comments, blank or empty lines *)
  if (c0 =? "#")%char || (c0 =? NUL)%char || (c0 =? CR)%char || (c0 =? LF)%char
  then (line, step_continue)
  else
    (* find first tab or space *)
    let first :=
      match strchr line TAB with
      | Some p => Some p
      | None => strchr line SPC
      end in
    match first with
    | None => (line, step_continue)
    | Some p =>
        (* *ptr++ = 0 *)
        let line1 := <[p := NUL]> line in
        let ptr := S p in
        let ptr := (ptr + scan blank_no_eol (drop ptr line1))%nat in
        let c := peek line1 ptr in
        if (c =? CR)%char || (c =? LF)%char || (c =? NUL)%char
        then (line1, step_continue)
        else
          (* ptr--; *ptr = ' '; exts = ptr *)
          let exts := pred ptr in
          let line2 := <[exts := SPC]> line1 in
          let ptr := (exts + scan not_eol (drop exts line2))%nat in
          if (ptr =? exts)%nat then (line2, step_break)
          else
            let line3 := <[ptr := NUL]> line2 in
            if negb alloc_ok then (line3, step_continue)
            else
              (line3,
               step_append
                 (mk_mimetype_t (c_str line3) (c_str (drop exts line3) ++ [SPC])))
    end.

(** The bytes that one [fgets (line, S n, fil)] takes from the rest of the
    file: at most [n], up to and including the first newline. *)
Fixpoint fgets_take (n : nat) (fil : list ascii) : list ascii * list ascii :=
  match n, fil with
  | 0%nat, _ => ([], fil)
  | _, [] => ([], [])
  | S n', c :: fil' =>
      if (c =? LF)%char then ([c], fil')
      else let '(l, r) := fgets_take n' fil' in (c :: l, r)
  end.

(** [fgets (line, sz, fil)]: nothing at the end of the file; else the bytes
    taken and a NUL are written at the start of the buffer. *)
Definition fgets (line : list ascii) (sz : nat) (fil : list ascii)
  : option (list ascii * list ascii) :=
  match fil with
  | [] => None
  | _ :: _ =>
      let '(l, r) := fgets_take (sz - 1) fil in
      Some (l ++ NUL :: drop (S (length l)) line, r)
  end.

(** The loop of [mimetypes_load]: [fil] is what is left of the file, [k]
    counts the lines, [allocs k] says whether the allocations for line [k]
    succeed.  Every [fgets] takes at least one byte, so as many turns as the
    file has bytes, and one more, are enough; [None] stands for a loop that
    has not ended within [fuel] turns. *)
Fixpoint mimetypes_load_loop (fuel : nat) (line fil : list ascii) (allocs : nat -> bool)
    (k : nat) (tbl : list mimetype_t) : option (list mimetype_t) :=
  match fuel with
  | 0%nat => None
  | S fuel' =>
      match fgets line 4096 fil with
      | None => Some tbl
      | Some (line1, fil1) =>
          match mimetypes_load_line line1 (allocs k) with
          | (line2, step_continue) =>
              mimetypes_load_loop fuel' line2 fil1 allocs (S k) tbl
          | (_, step_break) => Some tbl
          | (line2, step_append mime) =>
              mimetypes_load_loop fuel' line2 fil1 allocs (S k) (tbl ++ [mime])
          end
      end
  end.

(** [mimetypes_load]: [line_ok] says whether the line buffer can be
    allocated, [file] is the content of /etc/mime.types when it can be
    opened, [tbl] is the table before the call.  The result is the value
    returned and the table after the call ([_mimetypes_num] is the length of
    the table). *)
Definition mimetypes_load (line_ok : bool) (file : option (list ascii))
    (allocs : nat -> bool) (tbl : list mimetype_t) : option (Z * list mimetype_t) :=
  if negb line_ok then Some (-1, tbl)
  else
    match file with
    | None => Some (-1, tbl)
    | Some fil =>
        match
          mimetypes_load_loop (S (length fil)) (repeat NUL 4096) fil allocs 0 tbl
        with
        | Some tbl' => Some (Z.of_nat (length tbl'), tbl')
        | None => None
        end
    end.

Definition octet_stream : list ascii := list_ascii_of_string "application/octet-stream".

(** [mimetypes_find]: the type of the first entry of the table whose
    extensions hold the extension of [fil] between two blanks.  [dest_ok]
    says whether the pattern can be allocated. *)
Definition mimetypes_find (tbl : list mimetype_t) (dest_ok : bool) (fil : list ascii)
  : list ascii :=
  match strrchr fil "."%char with
  | None => octet_stream
  | Some pos =>
      if negb dest_ok then octet_stream
      else
        let dest := SPC :: c_str (drop (S pos) fil) ++ [SPC] in
        match List.find (fun mime => strstr (mime_exts mime) dest) tbl with
        | Some mime => mime_type mime
        | None => octet_stream
        end
  end.

(** A line of /etc/mime.types as the file format has it: the type, a run
    of blanks, the extensions, the end of the line. *)
Definition is_blank (c : ascii) : bool := (c =? TAB)%char || (c =? SPC)%char.

(** The extensions of an entry given as words: a blank before each word
    and after the last one. *)
Definition exts_of_words (words : list (list ascii)) : list ascii :=
  SPC :: concat (map (fun t => t ++ [SPC]) words).

(** What every entry that [mimetypes_load] appends looks like: its
    extensions are a blank, a byte that is no blank, further bytes and a
    blank, with no end of line and no NUL in between. *)
Definition entry_shape (mime : mimetype_t) : Prop :=
  exists e0 e',
    mime_exts mime = SPC :: e0 :: e' ++ [SPC]
    /\ is_blank e0 = false
    /\ Forall (fun c => not_eol c = true) (e0 :: e').

(** A line of /etc/mime.types as the file format has it: the type, a run
    of blanks, the extensions; [line_text] ends it with a newline. *)
Record MimeLine : Type := mk_MimeLine {
  ml_type : list ascii;
  ml_blanks : list ascii;
  ml_exts : list ascii
}.

Definition line_text (l : MimeLine) : list ascii :=
  ml_type l ++ ml_blanks l ++ ml_exts l ++ [LF].

(** The type is not empty, starts no comment and holds no blank; the
    first blank after it is a tab, or the line holds no tab at all; the
    extensions start with a byte that is no blank and hold no end of line;
    and the line fits the buffer of [mimetypes_load]. *)
Definition line_wf (l : MimeLine) : Prop :=
  (exists t0 ty', ml_type l = t0 :: ty' /\ ~ In t0 ["#"%char; CR; LF])
  /\ Forall (fun c => is_blank c = false /\ c <> NUL /\ c <> LF) (ml_type l)
  /\ (exists s0 seps,
        ml_blanks l = s0 :: seps /\ (s0 = TAB \/ ~ In TAB (seps ++ ml_exts l)))
  /\ Forall (fun c => is_blank c = true) (ml_blanks l)
  /\ (exists e0 e', ml_exts l = e0 :: e' /\ is_blank e0 = false)
  /\ Forall (fun c => not_eol c = true) (ml_exts l)
  /\ (length (line_text l) < 4096)%nat.

(** The entry that such a line gives: see [load_line_wf]. *)
Definition entry_of_line (l : MimeLine) : mimetype_t :=
  mk_mimetype_t
    (if decide (length (ml_blanks l) = 1%nat) then ml_type l ++ SPC :: ml_exts l
     else ml_type l)
    (SPC :: ml_exts l ++ [SPC]).

(** Two lines of a file: "text/html", two tabs, "html htm"; and
    "image/png", one tab, "png". *)
Definition example_mime_lines : list MimeLine :=
  [mk_MimeLine (list_ascii_of_string "text/html") [TAB; TAB]
     (list_ascii_of_string "html htm");
   mk_MimeLine (list_ascii_of_string "image/png") [TAB] (list_ascii_of_string "png")].
(** * Properties *)

(** ** The arena and the trace *)

Lemma lookup_modify (t : DirTree) (p q : Z) (f : DirEntry -> DirEntry) :
  h_inodes (modify p f t) !! q
  = if decide (p = q) then f <$> h_inodes t !! q else h_inodes t !! q.
Proof.
  unfold modify. case_decide as Hpq.
  - subst q. destruct (h_inodes t !! p) as [e|] eqn:He; simpl.
    + by rewrite lookup_insert_eq.
    + by rewrite He.
  - destruct (h_inodes t !! p); simpl; [by rewrite lookup_insert_ne|done].
Qed.

Lemma lookup_modify_eq (t : DirTree) (p : Z) (f : DirEntry -> DirEntry) (e : DirEntry) :
  h_inodes t !! p = Some e -> h_inodes (modify p f t) !! p = Some (f e).
Proof. intros He. rewrite lookup_modify, decide_True by done. by rewrite He. Qed.

Lemma lookup_modify_ne (t : DirTree) (p q : Z) (f : DirEntry -> DirEntry) :
  p <> q -> h_inodes (modify p f t) !! q = h_inodes t !! q.
Proof. intros Hne. by rewrite lookup_modify, decide_False. Qed.

Lemma last_emit (a : Action) (w : World) : last (trace (emit a w)) = Some a.
Proof. unfold emit. simpl. apply last_snoc. Qed.

(** An entry seen through [dir_tree_entry_modified]: itself, or itself
    with its listing cache dropped. *)
Lemma dir_tree_entry_modified_lookup (t : DirTree) (en q : Z) (e : DirEntry) :
  h_inodes t !! q = Some e ->
  h_inodes (dir_tree_entry_modified t en) !! q = Some e
  \/ h_inodes (dir_tree_entry_modified t en) !! q = Some (reset_dir_cache e).
Proof.
  intros He. unfold dir_tree_entry_modified.
  repeat case_match; try (by left); rewrite lookup_modify;
    case_decide; subst; rewrite He; simpl; auto.
Qed.

(** A directory handed to [dir_tree_entry_modified] loses its listing cache. *)
Lemma dir_tree_entry_modified_dir (t : DirTree) (en : Z) (e : DirEntry) :
  h_inodes t !! en = Some e -> type e = DET_dir ->
  h_inodes (dir_tree_entry_modified t en) !! en = Some (reset_dir_cache e).
Proof.
  intros He Hty. unfold dir_tree_entry_modified. rewrite He, Hty.
  by apply lookup_modify_eq.
Qed.

(** A file handed to [dir_tree_entry_modified] makes its parent directory
    lose its listing cache. *)
Lemma dir_tree_entry_modified_file (t : DirTree) (en : Z) (e pe : DirEntry) :
  h_inodes t !! en = Some e -> type e = DET_file ->
  h_inodes t !! parent_ino e = Some pe -> type pe = DET_dir ->
  h_inodes (dir_tree_entry_modified t en) !! parent_ino e = Some (reset_dir_cache pe).
Proof.
  intros He Hty Hpe Hpty. unfold dir_tree_entry_modified. rewrite He, Hty, Hpe, Hpty.
  by apply lookup_modify_eq.
Qed.

(** ** Unlink *)

(** What the completion of the DELETE does to the entry when the request
    succeeded: tombstone, age 0, and the parent's listing cache dropped. *)
Lemma file_remove_success (w : World) (data : FileRemoveData) (en pe : DirEntry) :
  entry w (fr_ino data) = Some en -> type en = DET_file ->
  entry w (parent_ino en) = Some pe -> type pe = DET_dir ->
  parent_ino en <> fr_ino data ->
  let w' := dir_tree_file_remove_on_con_data_cb w data true in
  (exists en', entry w' (fr_ino data) = Some en' /\ removed en' = true /\ age en' = 0)
  /\ (exists pe', entry w' (parent_ino en) = Some pe'
                  /\ dir_cache pe' = None /\ dir_cache_size pe' = 0)
  /\ last (trace w') = Some (file_remove_cb (fr_req data) true).
Proof.
  intros Hen Hty Hpe Hpty Hne. unfold dir_tree_file_remove_on_con_data_cb.
  wsimpl. rewrite Hen. wsimpl.
  set (t1 := modify (fr_ino data) _ (dtree w)).
  assert (H1 : h_inodes t1 !! fr_ino data = Some (set_age 0 (set_removed true en)))
    by exact (lookup_modify_eq (dtree w) _ (fun e => set_age 0 (set_removed true e)) en Hen).
  assert (H2 : h_inodes t1 !! parent_ino en = Some pe)
    by (unfold t1; rewrite lookup_modify_ne by done; exact Hpe).
  split; [|split].
  - destruct (dir_tree_entry_modified_lookup t1 (fr_ino data) _ _ H1) as [H|H];
      eexists; (split; [exact H|done]).
  - exists (reset_dir_cache pe). split; [|done].
    exact (dir_tree_entry_modified_file t1 (fr_ino data) _ pe H1 Hty H2 Hpty).
  - apply last_snoc.
Qed.

(** C1.  The completion of the DELETE tombstones the entry whatever the
    outcome of the request: also when the DELETE failed, the entry ends up
    with [removed = true] and [age = 0], while the failure is passed to the
    completion callback.  The claim's success half holds
    ([file_remove_success]); its failure half ("the entry remains
    untombstoned") does not hold of the code. *)
Theorem file_remove_failure_tombstones (w : World) (data : FileRemoveData)
    (en : DirEntry) :
  entry w (fr_ino data) = Some en ->
  let w' := dir_tree_file_remove_on_con_data_cb w data false in
  (exists en', entry w' (fr_ino data) = Some en' /\ removed en' = true /\ age en' = 0)
  /\ last (trace w') = Some (file_remove_cb (fr_req data) false).
Proof.
  intros Hen. unfold dir_tree_file_remove_on_con_data_cb.
  wsimpl. rewrite Hen. wsimpl. split; [|apply last_snoc].
  set (t1 := modify (fr_ino data) _ (dtree w)).
  assert (H1 : h_inodes t1 !! fr_ino data = Some (set_age 0 (set_removed true en)))
    by exact (lookup_modify_eq (dtree w) _ (fun e => set_age 0 (set_removed true e)) en Hen).
  destruct (dir_tree_entry_modified_lookup t1 (fr_ino data) _ _ H1) as [H|H];
    eexists; (split; [exact H|done]).
Qed.

(** ** Fields of the tree that the entry operations leave alone *)

Lemma dmode_modify (t : DirTree) (p : Z) (f : DirEntry -> DirEntry) :
  dmode (modify p f t) = dmode t.
Proof. unfold modify. by destruct (h_inodes t !! p). Qed.

Lemma max_ino_modify (t : DirTree) (p : Z) (f : DirEntry -> DirEntry) :
  max_ino (modify p f t) = max_ino t.
Proof. unfold modify. by destruct (h_inodes t !! p). Qed.

Lemma app_modify (t : DirTree) (p : Z) (f : DirEntry -> DirEntry) :
  app (modify p f t) = app t.
Proof. unfold modify. by destruct (h_inodes t !! p). Qed.

Lemma dmode_entry_modified (t : DirTree) (en : Z) :
  dmode (dir_tree_entry_modified t en) = dmode t.
Proof. unfold dir_tree_entry_modified. repeat case_match; by rewrite ?dmode_modify. Qed.

Lemma max_ino_entry_modified (t : DirTree) (en : Z) :
  max_ino (dir_tree_entry_modified t en) = max_ino t.
Proof. unfold dir_tree_entry_modified. repeat case_match; by rewrite ?max_ino_modify. Qed.

Lemma app_entry_modified (t : DirTree) (en : Z) :
  app (dir_tree_entry_modified t en) = app t.
Proof. unfold dir_tree_entry_modified. repeat case_match; by rewrite ?app_modify. Qed.

(** Recording a destroyed entry changes no field of the C struct and
    commutes with the updates of the arena. *)
Lemma h_inodes_mark_destroyed (r : option Z) (t : DirTree) :
  h_inodes (mark_destroyed r t) = h_inodes t.
Proof. by destruct r. Qed.

Lemma max_ino_mark_destroyed (r : option Z) (t : DirTree) :
  max_ino (mark_destroyed r t) = max_ino t.
Proof. by destruct r. Qed.

Lemma dmode_mark_destroyed (r : option Z) (t : DirTree) :
  dmode (mark_destroyed r t) = dmode t.
Proof. by destruct r. Qed.

Lemma fmode_mark_destroyed (r : option Z) (t : DirTree) :
  fmode (mark_destroyed r t) = fmode t.
Proof. by destruct r. Qed.

Lemma app_mark_destroyed (r : option Z) (t : DirTree) :
  app (mark_destroyed r t) = app t.
Proof. by destruct r. Qed.

Lemma modify_mark_destroyed (r : option Z) (p : Z) (f : DirEntry -> DirEntry)
    (t : DirTree) :
  modify p f (mark_destroyed r t) = mark_destroyed r (modify p f t).
Proof.
  unfold modify. rewrite h_inodes_mark_destroyed.
  destruct (h_inodes t !! p); by destruct r.
Qed.

Lemma entry_modified_mark_destroyed (r : option Z) (t : DirTree) (en : Z) :
  dir_tree_entry_modified (mark_destroyed r t) en
  = mark_destroyed r (dir_tree_entry_modified t en).
Proof.
  unfold dir_tree_entry_modified. rewrite h_inodes_mark_destroyed.
  repeat case_match; by rewrite ?modify_mark_destroyed.
Qed.

Lemma dmode_add_entry (w : World) (name : string) (md : Z) (ty : DirEntryType)
    (parent sz ct : Z) :
  dmode (dtree (snd (dir_tree_add_entry w name md ty parent sz ct))) = dmode (dtree w).
Proof.
  unfold dir_tree_add_entry.
  repeat case_match; wsimpl; try done;
    rewrite ?dmode_entry_modified, ?dmode_modify, ?dmode_mark_destroyed; cbn;
    by rewrite ?dmode_entry_modified.
Qed.

(** ** Attributes seen through a projection

    A projection of the entry record that an update leaves alone reads the
    same in the updated arena. *)

Lemma proj_modify {A : Type} (pi : DirEntry -> A) (f : DirEntry -> DirEntry)
    (t : DirTree) (p q : Z) :
  (forall e, pi (f e) = pi e) ->
  pi <$> (h_inodes (modify p f t) !! q) = pi <$> (h_inodes t !! q).
Proof.
  intros Hf. rewrite lookup_modify. case_decide; [|done].
  destruct (h_inodes t !! q); simpl; by rewrite ?Hf.
Qed.

Lemma proj_entry_modified {A : Type} (pi : DirEntry -> A) (t : DirTree) (en q : Z) :
  (forall e, pi (reset_dir_cache e) = pi e) ->
  pi <$> (h_inodes (dir_tree_entry_modified t en) !! q) = pi <$> (h_inodes t !! q).
Proof.
  intros Hf. unfold dir_tree_entry_modified.
  repeat case_match; try done; by apply proj_modify.
Qed.

Lemma proj_Some {A : Type} (pi : DirEntry -> A) (o : option DirEntry) (e : DirEntry) :
  pi <$> o = pi <$> Some e -> exists e', o = Some e' /\ pi e' = pi e.
Proof. destruct o as [e'|]; simpl; [intros [= H]; eauto|done]. Qed.

(** ** What [dir_tree_add_entry] returns *)

Lemma is_Some_lookup_modify (t : DirTree) (p q : Z) (f : DirEntry -> DirEntry) :
  is_Some (h_inodes t !! q) -> is_Some (h_inodes (modify p f t) !! q).
Proof.
  intros [e He]. rewrite lookup_modify. case_decide; rewrite He; simpl; eauto.
Qed.

Lemma is_Some_lookup_entry_modified (t : DirTree) (en q : Z) :
  is_Some (h_inodes t !! q) -> is_Some (h_inodes (dir_tree_entry_modified t en) !! q).
Proof.
  intros [e He]. destruct (dir_tree_entry_modified_lookup t en q e He); eauto.
Qed.

(** The pointer returned by [dir_tree_add_entry] is the inode number taken
    from [max_ino], and the entry is in the index. *)
Lemma dir_tree_add_entry_Some (w w' : World) (name : string) (md : Z)
    (ty : DirEntryType) (parent sz ct p : Z) :
  dir_tree_add_entry w name md ty parent sz ct = (Some p, w') ->
  p = max_ino (dtree w) /\ is_Some (entry w' p).
Proof.
  unfold dir_tree_add_entry.
  repeat case_match; try congruence; intros [= <- <-]; wsimpl;
    rewrite ?max_ino_entry_modified; (split; [done|]);
    repeat first [apply is_Some_lookup_entry_modified | apply is_Some_lookup_modify];
    rewrite ?h_inodes_mark_destroyed; cbn; rewrite lookup_insert_eq; eauto.
Qed.

(** ** mkdir *)

Lemma mkdir_existing_and_reported_mode (w : World) (parent : Z) (name : string)
    (md req : Z) :
  (forall (dir_en en : DirEntry) (p : Z),
     entry w parent = Some dir_en -> type dir_en = DET_dir ->
     child (dtree w) dir_en name = Some (p, en) ->
     let w' := dir_tree_dir_create w parent name md req in
     (exists en', entry w' p = Some en' /\ ino en' = ino en /\ type en' = DET_dir
                  /\ h_dir_tree en' = Some (default [] (h_dir_tree en))
                  /\ removed en' = false
                  /\ dir_cache en' = None /\ dir_cache_size en' = 0
                  /\ mode en' = dmode (dtree w))
     /\ max_ino (dtree w') = max_ino (dtree w)
     /\ trace w'
        = trace w ++ [mkdir_cb req true (ino en) (dmode (dtree w)) (size en) (ctime en)])
  /\ (forall i m s c,
        last (trace (dir_tree_dir_create w parent name md req))
        = Some (mkdir_cb req true i m s c) ->
        m = dmode (dtree w)).
Proof.
  split.
  - intros dir_en en p Hdir Hty Hchild.
    assert (Hp : h_inodes (dtree w) !! p = Some en).
    { unfold child in Hchild. repeat case_match; naive_solver. }
    unfold dir_tree_dir_create. rewrite Hdir, Hty, Hchild. wsimpl.
    set (conv := fun x : DirEntry => reset_dir_cache _).
    set (fin := fun x : DirEntry => set_age _ _).
    set (t2 := modify parent (set_is_modified true) (modify p conv (dtree w))).
    assert (H1 : h_inodes (modify p conv (dtree w)) !! p = Some (conv en))
      by exact (lookup_modify_eq _ _ conv en Hp).
    assert (H2 : exists e2, h_inodes t2 !! p = Some e2
                   /\ (e2 = conv en \/ e2 = set_is_modified true (conv en))).
    { unfold t2. rewrite lookup_modify. case_decide; rewrite H1; simpl; eauto. }
    destruct H2 as (e2 & H2 & He2).
    rewrite ?(lookup_modify_eq t2 p fin e2 H2). wsimpl.
    rewrite ?(lookup_modify_eq t2 p fin e2 H2).
    split; [|split].
    + exists (fin e2). split; [exact (lookup_modify_eq t2 p fin e2 H2)|].
      destruct He2 as [-> | ->]; unfold fin, conv, t2; cbn;
        rewrite ?dmode_modify; by destruct (h_dir_tree en).
    + unfold t2. by rewrite !max_ino_modify.
    + destruct He2 as [-> | ->]; unfold fin, conv, t2; cbn;
        by rewrite ?dmode_modify.
  - intros i m s c. unfold dir_tree_dir_create.
    destruct (entry w parent) as [dir_en|] eqn:Hdir;
      [|wsimpl; rewrite last_snoc; congruence].
    destruct (type dir_en); [|wsimpl; rewrite last_snoc; congruence].
    match goal with
    | |- context [let '(en, w1) := ?X in _] => destruct X as [en w1] eqn:HX
    end.
    assert (Hdm : dmode (dtree w1) = dmode (dtree w)
                  /\ forall p, en = Some p -> is_Some (entry w1 p)).
    { destruct (child (dtree w) dir_en name) as [[p e]|] eqn:Hchild.
      - injection HX as <- <-. wsimpl. rewrite dmode_modify. split; [done|].
        intros ? [= <-]. apply is_Some_lookup_modify.
        unfold child in Hchild. repeat case_match; naive_solver.
      - wsimpl.
        pose proof (dmode_add_entry (set_ticks (S (ticks w)) w) name md DET_dir
                      parent 10 (clock w (ticks w))) as Hadd.
        rewrite HX in Hadd. split; [exact Hadd|].
        intros p ->. by apply dir_tree_add_entry_Some in HX as [_ ?]. }
    destruct Hdm as [Hdm Hsome].
    destruct en as [p|]; [|wsimpl; rewrite last_snoc; congruence].
    destruct (Hsome p eq_refl) as [e1 He1]. wsimpl.
    set (fin := fun x : DirEntry => set_age _ _).
    set (t2 := modify parent (set_is_modified true) (dtree w1)).
    assert (H2 : is_Some (h_inodes t2 !! p)) by (apply is_Some_lookup_modify; eauto).
    destruct H2 as [e2 H2].
    rewrite (lookup_modify_eq t2 p fin e2 H2). wsimpl.
    rewrite last_snoc. intros [= <- <- <- <-].
    unfold fin, t2. cbn. by rewrite dmode_modify.
Qed.

(** What [dir_tree_add_entry] makes when it succeeds: the entry is in the
    index at the inode number taken from [max_ino]. *)
Lemma dir_tree_add_entry_made (w : World) (name : string) (md : Z) (ty : DirEntryType)
    (parent sz ct : Z) :
  (parent <> 0 ->
   exists pe, entry w parent = Some pe
              /\ forall p e, child (dtree w) pe name = Some (p, e) -> type e = ty) ->
  let i := max_ino (dtree w) in
  exists w1 e1,
    dir_tree_add_entry w name md ty parent sz ct = (Some i, w1)
    /\ entry w1 i = Some e1
    /\ ino e1 = i /\ type e1 = ty /\ size e1 = wrap64 sz /\ ctime e1 = ct
    /\ dmode (dtree w1) = dmode (dtree w) /\ trace w1 = trace w.
Proof.
  intros Hpar i.
  set (pi := fun e : DirEntry => (ino e, type e, size e, ctime e)).
  unfold dir_tree_add_entry.
  destruct (parent =? 0) eqn:Hp0; wsimpl.
  - cbn [negb andb]. eexists _, _. split; [reflexivity|]. wsimpl. cbn.
    rewrite lookup_insert_eq. by repeat split.
  - apply Z.eqb_neq in Hp0. destruct (Hpar Hp0) as (pe & Hpe & Hty).
    wsimpl. rewrite Hpe. rewrite bool_decide_eq_false_2 by done. cbn [negb andb].
    assert (Hclash :
      match child (dtree w) pe name with
      | Some (_, en) => negb (DirEntryType_eqb (type en) ty)
      | None => false
      end = false).
    { destruct (child (dtree w) pe name) as [[p e]|] eqn:Hc; [|done].
      rewrite (Hty p e eq_refl). by destruct ty. }
    rewrite Hclash. rewrite !max_ino_entry_modified. fold i.
    rewrite modify_mark_destroyed, entry_modified_mark_destroyed.
    match goal with |- context [set_dtree ?t _] => set (t4 := t) end.
    assert (H4 : exists e1, h_inodes t4 !! i = Some e1
                   /\ pi e1 = (i, ty, wrap64 sz, ct)).
    { apply (proj_Some pi _
               (mkDirEntry i parent name ""%string ty 0 false false (wrap64 sz) md ct None 0
                  0 false None false 0 0 None None None 0)).
      unfold t4. rewrite h_inodes_mark_destroyed.
      rewrite proj_entry_modified, proj_modify by done. cbn.
      by rewrite lookup_insert_eq. }
    destruct H4 as (e1 & H4 & Hpi). injection Hpi as H1 H2 H3 H5.
    exists (set_dtree t4 (set_ticks (S (ticks w)) w)), e1.
    split; [reflexivity|]. wsimpl. split; [exact H4|].
    repeat split; try done.
    unfold t4. rewrite dmode_mark_destroyed, !dmode_entry_modified, !dmode_modify. cbn.
    by rewrite dmode_entry_modified.
Qed.

(** mkdir of a name that the parent does not hold: the new entry is a
    directory with the configured directory mode, whatever mode the caller
    asked for, and the only call made is the report of the success. *)
Lemma mkdir_new_entry (w : World) (parent : Z) (name : string) (md req : Z)
    (dir_en : DirEntry) :
  entry w parent = Some dir_en -> type dir_en = DET_dir ->
  child (dtree w) dir_en name = None ->
  let w' := dir_tree_dir_create w parent name md req in
  let i := max_ino (dtree w) in
  exists en',
    entry w' i = Some en'
    /\ ino en' = i /\ type en' = DET_dir /\ removed en' = false
    /\ mode en' = dmode (dtree w) /\ size en' = 10 /\ ctime en' = clock w (ticks w)
    /\ trace w'
       = trace w ++ [mkdir_cb req true i (dmode (dtree w)) 10 (clock w (ticks w))].
Proof.
  intros Hdir Hty Hchild w' i. subst w'.
  unfold dir_tree_dir_create. rewrite Hdir, Hty, Hchild. wsimpl.
  destruct (dir_tree_add_entry_made (set_ticks (S (ticks w)) w) name md DET_dir parent 10
              (clock w (ticks w)))
    as (w1 & e1 & Hadd & He1 & Hi1 & Hty1 & Hsz1 & Hct1 & Hdm1 & Htr1).
  { intros _. exists dir_en. wsimpl. split; [done|]. intros p e. by rewrite Hchild. }
  wsimpl. rewrite Hadd. fold i in He1, Hi1 |- *.
  set (pi := fun e : DirEntry => (ino e, type e, size e, ctime e)).
  set (t2 := modify parent (set_is_modified true) (dtree w1)).
  assert (H2 : exists e2, h_inodes t2 !! i = Some e2 /\ pi e2 = pi e1).
  { apply (proj_Some pi). unfold t2. rewrite proj_modify by done. by rewrite He1. }
  destruct H2 as (e2 & H2 & Hpi). injection Hpi as H21 H22 H23 H24.
  wsimpl. fold t2. set (fin := fun x : DirEntry => set_age _ _).
  rewrite (lookup_modify_eq t2 i fin e2 H2). wsimpl. fold t2.
  rewrite (lookup_modify_eq t2 i fin e2 H2).
  assert (Hdm2 : dmode t2 = dmode (dtree w)) by (unfold t2; by rewrite dmode_modify).
  assert (Hw : wrap64 10 = 10) by reflexivity.
  eexists. split; [reflexivity|]. unfold fin. cbn. rewrite Hdm2, Htr1.
  repeat split; congruence.
Qed.

(** C10.  mkdir on a name that already has an entry under the parent (of
    either type) converts that entry in place: same inode, type directory, a
    children table allocated if there was none and kept otherwise, tombstone
    cleared, listing cache dropped, mode set to the configured directory
    mode; no inode is allocated and the only call made is the successful
    completion, so no request reaches the server.  And in every mkdir the
    resulting entry has the configured directory mode, not the caller's:
    whenever a mkdir reports success, the mode it reports is the configured
    directory mode; and a mkdir of a name that the parent directory does not
    hold makes a new entry at the inode number [max_ino], a directory that is
    not removed and has the configured directory mode, and its only call is
    the report of the success with that inode and that mode. *)
Theorem mkdir_converts_existing_entry (w : World) (parent : Z) (name : string)
    (md req : Z) (dir_en en : DirEntry) (p : Z) :
  entry w parent = Some dir_en -> type dir_en = DET_dir ->
  child (dtree w) dir_en name = Some (p, en) ->
  let w' := dir_tree_dir_create w parent name md req in
  (exists en', entry w' p = Some en' /\ ino en' = ino en /\ type en' = DET_dir
               /\ h_dir_tree en' = Some (default [] (h_dir_tree en))
               /\ removed en' = false
               /\ dir_cache en' = None /\ dir_cache_size en' = 0
               /\ mode en' = dmode (dtree w))
  /\ max_ino (dtree w') = max_ino (dtree w)
  /\ trace w'
     = trace w ++ [mkdir_cb req true (ino en) (dmode (dtree w)) (size en) (ctime en)]
  /\ (forall (w0 : World) (parent0 : Z) (name0 : string) (md0 req0 i m s c : Z),
        last (trace (dir_tree_dir_create w0 parent0 name0 md0 req0))
        = Some (mkdir_cb req0 true i m s c) ->
        m = dmode (dtree w0))
  /\ (forall (w0 : World) (parent0 : Z) (name0 : string) (md0 req0 : Z)
             (dir_en0 : DirEntry),
        entry w0 parent0 = Some dir_en0 -> type dir_en0 = DET_dir ->
        child (dtree w0) dir_en0 name0 = None ->
        let w0' := dir_tree_dir_create w0 parent0 name0 md0 req0 in
        let i := max_ino (dtree w0) in
        exists en',
          entry w0' i = Some en'
          /\ ino en' = i /\ type en' = DET_dir /\ removed en' = false
          /\ mode en' = dmode (dtree w0)
          /\ trace w0'
             = trace w0 ++ [mkdir_cb req0 true i (dmode (dtree w0)) (size en') (ctime en')]).
Proof.
  intros Hdir Hty Hchild w'.
  destruct (proj1 (mkdir_existing_and_reported_mode w parent name md req)
              dir_en en p Hdir Hty Hchild) as (H1 & H2 & H3).
  split; [exact H1|]. split; [exact H2|]. split; [exact H3|]. split.
  - intros w0 parent0 name0 md0 req0.
    exact (proj2 (mkdir_existing_and_reported_mode w0 parent0 name0 md0 req0)).
  - intros w0 parent0 name0 md0 req0 dir_en0 Hdir0 Hty0 Hc0 w0' i.
    destruct (mkdir_new_entry w0 parent0 name0 md0 req0 dir_en0 Hdir0 Hty0 Hc0)
      as (en' & He & Hi & Ht & Hr & Hm & Hs & Hct & Htr).
    exists en'. rewrite Hs, Hct. by repeat split.
Qed.

(** ** [dir_tree_add_entry] under an existing parent *)

Lemma DirEntryType_eqb_refl (ty : DirEntryType) : DirEntryType_eqb ty ty = true.
Proof. by destruct ty. Qed.

Lemma dir_tree_add_entry_under (w : World) (name : string) (md : Z)
    (ty : DirEntryType) (parent sz ct : Z) (pe : DirEntry) :
  parent <> 0 -> entry w parent = Some pe ->
  entry w (max_ino (dtree w)) = None ->
  (forall p e, child (dtree w) pe name = Some (p, e) -> type e = ty) ->
  let i := max_ino (dtree w) in
  exists w',
    dir_tree_add_entry w name md ty parent sz ct = (Some i, w')
    /\ w' = set_dtree (dtree w') (set_ticks (S (ticks w)) w)
    /\ (exists e, entry w' i = Some e /\ ino e = i /\ parent_ino e = parent
                  /\ type e = ty /\ age e = age pe /\ removed e = false
                  /\ mode e = md /\ size e = wrap64 sz)
    /\ (exists pe', entry w' parent = Some pe' /\ age pe' = age pe
                    /\ type pe' = type pe /\ ino pe' = ino pe
                    /\ h_dir_tree pe' = g_hash_table_insert (h_dir_tree pe) name i)
    /\ max_ino (dtree w') = wrap64 (i + 1)
    /\ dmode (dtree w') = dmode (dtree w) /\ app (dtree w') = app (dtree w).
Proof.
  intros Hp0 Hpe Hfree Hty i. unfold dir_tree_add_entry.
  assert (Hne : i <> parent).
  { unfold i. intros Heq. rewrite Heq in Hfree. congruence. }
  apply Z.eqb_neq in Hp0. rewrite Hp0. wsimpl. rewrite Hpe.
  rewrite bool_decide_eq_false_2 by done. cbn [negb andb].
  assert (Hclash :
    match child (dtree w) pe name with
    | Some (_, en) => negb (DirEntryType_eqb (type en) ty)
    | None => false
    end = false).
  { destruct (child (dtree w) pe name) as [[p e]|] eqn:Hc; [|done].
    rewrite (Hty p e eq_refl). by rewrite DirEntryType_eqb_refl. }
  rewrite Hclash. rewrite !max_ino_entry_modified. fold i.
  rewrite modify_mark_destroyed, entry_modified_mark_destroyed.
  eexists. split; [reflexivity|]. wsimpl.
  rewrite h_inodes_mark_destroyed, max_ino_mark_destroyed, dmode_mark_destroyed,
    app_mark_destroyed.
  rewrite !max_ino_entry_modified, !max_ino_modify. cbn.
  rewrite ?max_ino_entry_modified. fold i.
  split; [reflexivity|].
  set (en := mkDirEntry _ _ _ _ _ _ _ _ _ _ _ _ _ _ _ _ _ _ _ _ _ _ _).
  set (t1 := dir_tree_entry_modified (dtree w) parent).
  set (t3 := set_h_inodes (<[i:=en]> (h_inodes (set_max_ino (wrap64 (i + 1)) t1)))
               (set_max_ino (wrap64 (i + 1)) t1)).
  set (ins := fun pe0 : DirEntry => set_h_dir_tree _ pe0).
  assert (H3i : h_inodes t3 !! i = Some en) by (cbn; by rewrite lookup_insert_eq).
  assert (H3p : skeleton <$> (h_inodes t3 !! parent) = skeleton <$> Some pe
                /\ age <$> (h_inodes t3 !! parent) = age <$> Some pe).
  { cbn. rewrite lookup_insert_ne by done. unfold t1.
    rewrite !proj_entry_modified by done. by rewrite Hpe. }
  destruct H3p as [H3s H3a].
  apply proj_Some in H3s as (pe3 & H3p & Hsk).
  rewrite H3p in H3a. injection H3a as H3a.
  injection Hsk as Hino Hpar Htyp Htbl Hpath.
  assert (H4p : h_inodes (modify parent ins t3) !! parent = Some (ins pe3))
    by exact (lookup_modify_eq t3 parent ins pe3 H3p).
  assert (H4i : h_inodes (modify parent ins t3) !! i = Some en)
    by (rewrite lookup_modify_ne by done; exact H3i).
  split; [|split; [|split]].
  - destruct (dir_tree_entry_modified_lookup _ parent _ _ H4i) as [H|H];
      exists en; (split; [exact H|done]).
  - destruct (dir_tree_entry_modified_lookup _ parent _ _ H4p) as [H|H];
      eexists; (split; [exact H|]); unfold ins; cbn; by rewrite ?Htbl.
  - done.
  - unfold t3, t1. rewrite !dmode_entry_modified, !dmode_modify. cbn.
    rewrite !dmode_entry_modified, !app_entry_modified, !app_modify. cbn.
    by rewrite !app_entry_modified.
Qed.

(** ** create, unlink, create *)

Lemma child_Some (t : DirTree) (dir_en : DirEntry) (name : string) (p : Z)
    (en : DirEntry) :
  child t dir_en name = Some (p, en) <->
  g_hash_table_lookup (h_dir_tree dir_en) name = Some p /\ h_inodes t !! p = Some en.
Proof.
  unfold child. destruct (g_hash_table_lookup (h_dir_tree dir_en) name) as [p'|];
    [|by split; [|intros [? _]]].
  destruct (h_inodes t !! p') as [e'|] eqn:He; split.
  - by intros [= <- <-].
  - intros [[= <-] Hq]. rewrite He in Hq. by injection Hq as <-.
  - done.
  - intros [[= <-] Hq]. by rewrite He in Hq.
Qed.

Lemma children_find_replace (name : string) (v : Z) (l : list (string * Z)) :
  children_find name (children_replace name v l) = Some v.
Proof.
  induction l as [|[k v'] l IH]; simpl.
  - by rewrite String.eqb_refl.
  - destruct (String.eqb k name) eqn:Hk; simpl; by rewrite Hk.
Qed.




(** The completion of the DELETE, whatever its outcome: the entry is
    tombstoned with age 0, no entry changes place in the tree. *)
Lemma file_remove_completion (w : World) (data : FileRemoveData) (success : bool)
    (en : DirEntry) :
  entry w (fr_ino data) = Some en ->
  let w' := dir_tree_file_remove_on_con_data_cb w data success in
  (exists en', entry w' (fr_ino data) = Some en' /\ removed en' = true /\ age en' = 0)
  /\ last (trace w') = Some (file_remove_cb (fr_req data) success)
  /\ (forall q, skeleton <$> entry w' q = skeleton <$> entry w q)
  /\ max_ino (dtree w') = max_ino (dtree w).
Proof.
  intros Hen. unfold dir_tree_file_remove_on_con_data_cb.
  wsimpl. rewrite Hen. wsimpl.
  set (f := fun e : DirEntry => set_age 0 (set_removed true e)).
  set (t1 := modify (fr_ino data) f (dtree w)).
  assert (H1 : h_inodes t1 !! fr_ino data = Some (f en))
    by exact (lookup_modify_eq (dtree w) _ f en Hen).
  split; [|split; [|split]].
  - destruct (dir_tree_entry_modified_lookup t1 (fr_ino data) _ _ H1) as [H|H];
      eexists; (split; [exact H|done]).
  - apply last_snoc.
  - intros q. unfold t1. by rewrite proj_entry_modified, proj_modify.
  - unfold t1. by rewrite max_ino_entry_modified, max_ino_modify.
Qed.






(** ** Rename: the completion of the copy *)

(** C3 (as the code has it).  When the copy PUT has succeeded and the new
    parent is a directory of the index: if the new name has an entry under
    the new parent, its tombstone is cleared, the new parent's listing cache
    is dropped and the DELETE of the source is handed to the pool; if it has
    none, no entry is created, the tree is left as it is, and the rename
    completes with failure. *)
Theorem rename_copy_needs_destination_entry (w : World) (rdata : RenameData)
    (np : DirEntry) :
  entry w (rd_newparent_ino rdata) = Some np -> type np = DET_dir ->
  (child (dtree w) np (rd_newname rdata) = None ->
   dir_tree_on_rename_copy_cb w rdata true
   = emit (rename_cb (rd_req rdata) false) (emit http_connection_release w))
  /\ (forall p en,
        child (dtree w) np (rd_newname rdata) = Some (p, en) ->
        let w' := dir_tree_on_rename_copy_cb w rdata true in
        (exists en', entry w' p = Some en' /\ removed en' = false /\ ino en' = ino en)
        /\ (exists np', entry w' (rd_newparent_ino rdata) = Some np'
                        /\ dir_cache np' = None /\ dir_cache_size np' = 0)
        /\ last (trace w')
           = Some (if pool_ok w
                   then client_pool_get_client (cb_on_rename_delete_con rdata) true
                   else rename_cb (rd_req rdata) false)
        /\ max_ino (dtree w') = max_ino (dtree w)).
Proof.
  intros Hnp Hty. split.
  - intros Hc. unfold dir_tree_on_rename_copy_cb. wsimpl. by rewrite Hnp, Hty, Hc.
  - intros p en Hc.
    pose proof (proj1 (child_Some _ _ _ _ _) Hc) as [_ Hp].
    unfold dir_tree_on_rename_copy_cb. wsimpl. rewrite Hnp, Hty, Hc. wsimpl.
    set (f := fun e : DirEntry => set_access_time _ _).
    set (t1 := modify p f (dtree w)).
    assert (H1 : h_inodes t1 !! p = Some (f en)) by exact (lookup_modify_eq _ _ f en Hp).
    assert (H2 : exists x, h_inodes t1 !! rd_newparent_ino rdata = Some x
                   /\ type x = DET_dir).
    { pose proof (proj_modify type f (dtree w) p (rd_newparent_ino rdata)
                    (fun e => eq_refl)) as H.
      fold t1 in H. rewrite Hnp in H.
      apply proj_Some in H as (x & Hx & Htx). exists x. split; congruence. }
    destruct H2 as (x & Hx & Htx).
    assert (Hgoal :
      (exists en', h_inodes (dir_tree_entry_modified t1 (rd_newparent_ino rdata)) !! p
                   = Some en' /\ removed en' = false /\ ino en' = ino en)
      /\ (exists np', h_inodes (dir_tree_entry_modified t1 (rd_newparent_ino rdata))
                        !! rd_newparent_ino rdata = Some np'
                      /\ dir_cache np' = None /\ dir_cache_size np' = 0)
      /\ max_ino (dir_tree_entry_modified t1 (rd_newparent_ino rdata))
         = max_ino (dtree w)).
    { split; [|split].
      - destruct (dir_tree_entry_modified_lookup t1 (rd_newparent_ino rdata) p _ H1)
          as [H|H]; eexists; (split; [exact H|done]).
      - exists (reset_dir_cache x). split; [|done].
        by apply dir_tree_entry_modified_dir.
      - unfold t1. by rewrite max_ino_entry_modified, max_ino_modify. }
    destruct Hgoal as (Ha & Hb & Hc').
    destruct (pool_ok w); wsimpl; rewrite ?last_snoc; repeat split; assumption.
Qed.

(** ** The expiry test reads the clock and nothing else *)

Lemma is_cache_expired_frame (w : World) (en : DirEntry) :
  let w1 := snd (dir_tree_is_cache_expired w en) in
  dtree w1 = dtree w /\ trace w1 = trace w.
Proof.
  unfold dir_tree_is_cache_expired, time_NULL. by repeat case_match.
Qed.

(** ** Lookup of a tombstoned child *)

(** First half of C4: a tombstone touched less than [file_cache_max_time]
    ago makes the lookup report not-found, with no other call and no change
    to the tree. *)
Lemma lookup_recent_tombstone_not_found (w w1 : World) (parent : Z) (name : string)
    (req : Z) (dir_en en : DirEntry) (p : Z) :
  entry w parent = Some dir_en -> type dir_en = DET_dir ->
  dir_tree_is_cache_expired w dir_en = (false, w1) ->
  child (dtree w) dir_en name = Some (p, en) ->
  removed en = true ->
  clock w1 (ticks w1) - access_time en < filesystem_file_cache_max_time (app (dtree w)) ->
  let w' := dir_tree_lookup w parent name req in
  trace w' = trace w ++ [lookup_cb req false 0 0 0 0] /\ dtree w' = dtree w.
Proof.
  intros Hdir Hty Hexp Hc Hrm Hrecent.
  destruct (is_cache_expired_frame w dir_en) as [Hd1 Ht1].
  rewrite Hexp in Hd1, Ht1. cbn [snd] in Hd1, Ht1.
  unfold dir_tree_lookup. rewrite Hdir, Hty, Hexp. cbn [negb].
  rewrite Hd1, Hc. wsimpl. rewrite Hrm. cbn [andb].
  unfold tombstone_is_recent.
  replace (clock w1 (ticks w1) - access_time en
           <? filesystem_file_cache_max_time (app (dtree w))) with true
    by (symmetry; apply Z.ltb_lt; lia).
  rewrite orb_true_r. wsimpl. by rewrite Ht1, Hd1.
Qed.

(** C4.  A tombstone that is older than [file_cache_max_time], under a
    parent whose listing cache is fresh, is not re-checked on the server:
    unless the entry is locally modified or a forced HEAD is configured, the
    lookup refreshes its access time and reports the tombstoned entry as
    found, with its cached attributes and without any request. *)
Theorem lookup_old_tombstone_reported_found (w w1 : World) (parent : Z)
    (name : string) (req : Z) (dir_en en : DirEntry) (p : Z) :
  entry w parent = Some dir_en -> type dir_en = DET_dir ->
  dir_tree_is_cache_expired w dir_en = (false, w1) ->
  child (dtree w) dir_en name = Some (p, en) ->
  removed en = true ->
  filesystem_file_cache_max_time (app (dtree w)) <= clock w1 (ticks w1) - access_time en ->
  is_modified en = false ->
  s3_check_empty_files (app (dtree w)) = false ->
  s3_force_head_requests_on_lookup (app (dtree w)) = false ->
  trace (dir_tree_lookup w parent name req)
  = trace w ++ [lookup_cb req true (ino en) (mode en) (size en) (ctime en)].
Proof.
  intros Hdir Hty Hexp Hc Hrm Hold Hmod Hchk Hforce.
  destruct (is_cache_expired_frame w dir_en) as [Hd1 Ht1].
  rewrite Hexp in Hd1, Ht1. cbn [snd] in Hd1, Ht1.
  unfold dir_tree_lookup. rewrite Hdir, Hty, Hexp. cbn [negb].
  rewrite Hd1, Hc. wsimpl. rewrite Hrm, Hmod, Hchk, Hforce. cbn [andb orb].
  unfold tombstone_is_recent.
  replace (clock w1 (ticks w1) - filesystem_file_cache_max_time (app (dtree w))
           <? access_time en) with false
    by (symmetry; apply Z.ltb_ge; lia).
  replace (clock w1 (ticks w1) - access_time en
           <? filesystem_file_cache_max_time (app (dtree w))) with false
    by (symmetry; apply Z.ltb_ge; lia).
  cbn [orb]. rewrite andb_false_r. wsimpl. by rewrite Ht1.
Qed.

(** ** The directory buffer *)

Lemma add_children_spec (w : World) (a : Z) (l : list (string * Z))
    (b : list Byte.byte) :
  add_children w a l b
  = fold_left (add_dirent w)
      (List.filter (fun c => (age c >=? a) && negb (removed c))
         (omap (fun kv : string * Z => entry w (snd kv)) l))
      b.
Proof.
  revert b. induction l as [|[k v] l IH]; intros b; [done|].
  cbn [add_children omap list_omap snd].
  destruct (entry w v) as [c|]; [|apply IH].
  cbn [List.filter].
  destruct ((age c >=? a) && negb (removed c)); cbn [fold_left]; apply IH.
Qed.

Lemma add_children_view (w w' : World) (a : Z) (l : list (string * Z))
    (b : list Byte.byte) :
  (forall v, dirent_view <$> entry w' v = dirent_view <$> entry w v) ->
  rfuse_add_dirbuf w' = rfuse_add_dirbuf w ->
  add_children w' a l b = add_children w a l b.
Proof.
  intros Hv Hf. revert b. induction l as [|[k v] l IH]; intros b; [done|].
  cbn [add_children]. specialize (Hv v).
  destruct (entry w' v) as [c'|], (entry w v) as [c|]; simpl in Hv;
    [|discriminate|discriminate|apply IH].
  injection Hv as Ha Hr Hb Hi Hs. rewrite Ha, Hr, Hb, Hi, Hs, Hf.
  destruct ((age c >=? a) && negb (removed c)); apply IH.
Qed.

Lemma build_dirbuf_spec (w : World) (i : Z) (en : DirEntry) :
  build_dirbuf w i en = listing_blob_with visible_not_older w i en.
Proof. unfold build_dirbuf, listing_blob_with. by rewrite add_children_spec. Qed.

Lemma copy_buf_all (b : list Byte.byte) :
  copy_buf b (buf_size b) = if buf_size b =? 0 then None else Some b.
Proof.
  unfold copy_buf, buf_size. rewrite Nat2Z.id. by rewrite firstn_all.
Qed.

(** What a successful completion of a listing does: the blob handed to the
    callback, stored in the directory's cache and, when the request came
    with a handle, in the handle. *)
Lemma fill_on_dir_buf_cb_success (w : World) (d : DirTreeFillDirData) (en : DirEntry) :
  entry w (fd_ino d) = Some en ->
  let w' := dir_tree_fill_on_dir_buf_cb w d true in
  let blob := listing_blob_with visible_not_older w (fd_ino d) en in
  let cache := copy_buf blob (buf_size blob) in
  last (trace w')
  = Some (readdir_cb (fd_readdir_cb d) (fd_req d) true (fd_size d) (fd_off d)
            cache (buf_size blob))
  /\ (exists en', entry w' (fd_ino d) = Some en'
                  /\ dir_cache en' = cache /\ dir_cache_size en' = buf_size blob
                  /\ dir_cache_created en' = clock w (ticks w)
                  /\ is_modified en' = false /\ dir_cache_updating en' = false)
  /\ dir_ops w'
     = match dop_of w (fd_dop d) with
       | Some _ => <[fd_dop d := mkDirOpData cache (buf_size blob)]> (dir_ops w)
       | None => dir_ops w
       end.
Proof.
  intros Hen. unfold dir_tree_fill_on_dir_buf_cb. rewrite Hen. wsimpl.
  set (clr := fun e : DirEntry => set_is_modified false (set_dir_cache_updating false e)).
  set (t1 := modify (fd_ino d) clr (dtree w)).
  assert (H1 : h_inodes t1 !! fd_ino d = Some (clr en))
    by exact (lookup_modify_eq _ _ clr en Hen).
  rewrite H1.
  set (w1 := on_tree (modify (fd_ino d) clr) w).
  assert (Hb : build_dirbuf w1 (fd_ino d) (clr en)
               = listing_blob_with visible_not_older w (fd_ino d) en).
  { unfold build_dirbuf. cbn [age h_dir_tree clr set_is_modified set_dir_cache_updating].
    rewrite (add_children_view w w1).
    - by rewrite <- build_dirbuf_spec.
    - intros v. unfold w1. wsimpl. by rewrite proj_modify.
    - done. }
  rewrite Hb.
  set (blob := listing_blob_with visible_not_older w (fd_ino d) en).
  set (cache := copy_buf blob (buf_size blob)).
  set (st := fun e : DirEntry => set_dir_cache cache (set_dir_cache_size (buf_size blob) e)).
  assert (H2 : h_inodes (modify (fd_ino d) st t1) !! fd_ino d = Some (st (clr en)))
    by exact (lookup_modify_eq _ _ st _ H1).
  unfold dop_of, w1. wsimpl.
  destruct (if fd_dop d =? 0 then None else dir_ops w !! fd_dop d); wsimpl;
    rewrite last_snoc;
    (split; [done|]); (split; [|done]);
    eexists; (split; [exact (lookup_modify_eq _ _ _ _ H2)|done]).
Qed.

(** C6 (as the code has it).  The blob built at the end of a listing
    refresh of directory [d] starts with "." and "..", both carrying [d]'s
    inode, and then holds exactly the children [c] of [d] with
    [c.age >= d.age] and [c.removed = false], in iteration order: a child
    newer than its parent is listed as well. *)
Theorem dirbuf_lists_children_not_older (w : World) (d : DirTreeFillDirData)
    (en : DirEntry) :
  entry w (fd_ino d) = Some en ->
  let w' := dir_tree_fill_on_dir_buf_cb w d true in
  let blob :=
    fold_left (add_dirent w)
      (List.filter (fun c => (age c >=? age en) && negb (removed c)) (children_of w en))
      (rfuse_add_dirbuf w (rfuse_add_dirbuf w [] "." (fd_ino d) 0) ".." (fd_ino d) 0) in
  last (trace w')
  = Some (readdir_cb (fd_readdir_cb d) (fd_req d) true (fd_size d) (fd_off d)
            (copy_buf blob (buf_size blob)) (buf_size blob))
  /\ exists en', entry w' (fd_ino d) = Some en'
                 /\ dir_cache en' = copy_buf blob (buf_size blob)
                 /\ dir_cache_size en' = buf_size blob.
Proof.
  intros Hen.
  destruct (fill_on_dir_buf_cb_success w d en Hen) as (Hlast & (en' & He & Hc & Hs & _) & _).
  split; [exact Hlast|]. exists en'. by repeat split.
Qed.

(** ** Failed refreshes *)

(** C7 (as the code has it).  A HEAD refresh that completes with failure
    changes nothing in the tree but [is_updating] of its entry, which it
    clears.  The completion of a failed listing refresh leaves every other
    entry alone and, on the directory, clears the listing guard
    [dir_cache_updating]; size, mode, ctime, removed, age and every
    attribute other than [dir_cache_updating] and [is_modified] are as
    before. *)
Theorem failed_refresh_frame (w : World) (op_data : LookupOpData) (headers : Headers)
    (d : DirTreeFillDirData) (en_head en_dir : DirEntry) :
  entry w (lo_ino op_data) = Some en_head ->
  entry w (fd_ino d) = Some en_dir ->
  (let w' := dir_tree_on_lookup_cb w op_data false headers in
   entry w' (lo_ino op_data) = Some (set_is_updating false en_head)
   /\ (forall q, q <> lo_ino op_data -> entry w' q = entry w q)
   /\ last (trace w') = Some (lookup_cb (lo_req op_data) false 0 0 0 0))
  /\ (let w' := dir_tree_fill_on_dir_buf_cb w d false in
      (exists en',
         entry w' (fd_ino d) = Some en'
         /\ en' = set_is_modified (is_modified en') (set_dir_cache_updating false en_dir)
         /\ size en' = size en_dir /\ mode en' = mode en_dir
         /\ ctime en' = ctime en_dir /\ removed en' = removed en_dir
         /\ age en' = age en_dir)
      /\ (forall q, q <> fd_ino d -> entry w' q = entry w q)
      /\ last (trace w')
         = Some (readdir_cb (fd_readdir_cb d) (fd_req d) false (fd_size d) (fd_off d)
                   None 0)).
Proof.
  intros Hh Hd. split.
  - unfold dir_tree_on_lookup_cb. wsimpl. rewrite Hh. wsimpl.
    rewrite last_snoc. split; [|split; [|done]].
    + exact (lookup_modify_eq _ _ _ _ Hh).
    + intros q Hq. by rewrite lookup_modify_ne.
  - unfold dir_tree_fill_on_dir_buf_cb. rewrite Hd. wsimpl.
    rewrite last_snoc. split; [|split; [|done]].
    + eexists. split; [exact (lookup_modify_eq _ _ _ _ Hd)|]. by destruct en_dir.
    + intros q Hq. by rewrite lookup_modify_ne.
Qed.

(** ** Ages *)

(** C8 (as the code has it).  [dir_tree_add_entry] gives the entry it adds
    under a parent the parent's age, and leaves the parent's age alone, so
    [e.age <= parent(e).age] holds when an entry is added;
    [dir_tree_start_update], run at the start of every listing refresh,
    raises the age of the refreshed directory by one (modulo 2^64) and
    touches no other entry, its parent included. *)
Theorem age_taken_from_parent_then_bumped (w : World) (name : string) (md : Z)
    (ty : DirEntryType) (parent sz ct : Z) (pe : DirEntry) (t : DirTree) (dir : Z)
    (de : DirEntry) :
  parent <> 0 -> entry w parent = Some pe ->
  entry w (max_ino (dtree w)) = None ->
  (forall p e, child (dtree w) pe name = Some (p, e) -> type e = ty) ->
  h_inodes t !! dir = Some de ->
  (exists p w' e pe',
     dir_tree_add_entry w name md ty parent sz ct = (Some p, w')
     /\ entry w' p = Some e /\ parent_ino e = parent
     /\ entry w' parent = Some pe'
     /\ age e = age pe' /\ age pe' = age pe)
  /\ h_inodes (dir_tree_start_update t dir) !! dir = Some (set_age (wrap64 (age de + 1)) de)
  /\ (forall q, q <> dir -> h_inodes (dir_tree_start_update t dir) !! q = h_inodes t !! q).
Proof.
  intros Hp0 Hpe Hfree Hty Hde. split; [|split].
  - destruct (dir_tree_add_entry_under w name md ty parent sz ct pe Hp0 Hpe Hfree Hty)
      as (w' & Hadd & _ & (e & He & _ & Hpar & _ & Hage & _) & (pe' & Hpe' & Hage' & _) & _).
    exists (max_ino (dtree w)), w', e, pe'. repeat split; try assumption. congruence.
  - unfold dir_tree_start_update.
    exact (lookup_modify_eq t dir (fun e => set_age (wrap64 (age e + 1)) e) de Hde).
  - intros q Hq. unfold dir_tree_start_update. by rewrite lookup_modify_ne.
Qed.

(** ** The open-directory handle *)

Lemma is_cache_expired_world (w : World) (en : DirEntry) :
  let r := dir_tree_is_cache_expired w en in
  (snd r = w \/ snd r = set_ticks (S (ticks w)) w)
  /\ (fst r = false -> dir_cache_size en <> 0).
Proof.
  unfold dir_tree_is_cache_expired, time_NULL.
  destruct (dir_cache_size en =? 0) eqn:Hs; cbn [orb].
  - split; [by left|done].
  - apply Z.eqb_neq in Hs. repeat case_match; cbn [fst snd]; split; auto.
Qed.

Lemma fold_add_dirent_length (w : World) (l : list DirEntry) (b : list Byte.byte) :
  (forall b name j s, (length b < length (rfuse_add_dirbuf w b name j s))%nat) ->
  (length b <= length (fold_left (add_dirent w) l b))%nat.
Proof.
  intros Hg. revert b. induction l as [|c l IH]; intros b; cbn [fold_left]; [lia|].
  specialize (IH (add_dirent w b c)). unfold add_dirent in *.
  specialize (Hg b (basename c) (ino c) (size c)). lia.
Qed.

Lemma listing_blob_nonempty (vis : DirEntry -> DirEntry -> bool) (w : World) (i : Z)
    (d : DirEntry) :
  (forall b name j s, (length b < length (rfuse_add_dirbuf w b name j s))%nat) ->
  buf_size (listing_blob_with vis w i d) <> 0.
Proof.
  intros Hg. unfold listing_blob_with, buf_size.
  pose proof (fold_add_dirent_length w (List.filter (vis d) (children_of w d))
                (rfuse_add_dirbuf w (rfuse_add_dirbuf w [] "." i 0) ".." i 0) Hg) as H1.
  pose proof (Hg (rfuse_add_dirbuf w [] "." i 0) ".."%string i 0) as H2.
  lia.
Qed.

Lemma dop_of_Some_ne (w : World) (fh : Z) (dop : DirOpData) :
  dop_of w fh = Some dop -> fh <> 0 /\ dir_ops w !! fh = Some dop.
Proof.
  unfold dop_of. destruct (fh =? 0) eqn:H; [done|]. apply Z.eqb_neq in H. done.
Qed.

Lemma dop_of_insert (w : World) (m : gmap Z DirOpData) (fh : Z) (v : DirOpData) :
  fh <> 0 -> dir_ops w = <[fh := v]> m -> dop_of w fh = Some v.
Proof.
  intros Hne Hm. unfold dop_of. apply Z.eqb_neq in Hne. rewrite Hne, Hm.
  apply lookup_insert_eq.
Qed.

(** A completion that reports success leaves the bytes it reports in the
    handle of the request. *)
Lemma fill_on_dir_buf_cb_handle (w : World) (d : DirTreeFillDirData) (success : bool)
    (buf : option (list Byte.byte)) (n : Z) :
  is_Some (dop_of w (fd_dop d)) ->
  (forall b name j s, (length b < length (rfuse_add_dirbuf w b name j s))%nat) ->
  let w' := dir_tree_fill_on_dir_buf_cb w d success in
  last (trace w')
  = Some (readdir_cb (fd_readdir_cb d) (fd_req d) true (fd_size d) (fd_off d) buf n) ->
  exists b, buf = Some b /\ dop_of w' (fd_dop d) = Some (mkDirOpData (Some b) n).
Proof.
  intros [dop Hdop] Hg w'.
  destruct (entry w (fd_ino d)) as [en|] eqn:Hen.
  - destruct success.
    + destruct (fill_on_dir_buf_cb_success w d en Hen) as (Hlast & _ & Hops).
      fold w' in Hlast, Hops. rewrite Hlast. intros [= <- <-].
      set (blob := listing_blob_with visible_not_older w (fd_ino d) en) in *.
      assert (Hn : buf_size blob <> 0) by (by apply listing_blob_nonempty).
      rewrite copy_buf_all in *. apply Z.eqb_neq in Hn. rewrite Hn in *.
      exists blob. split; [done|].
      rewrite Hdop in Hops. apply dop_of_Some_ne in Hdop as [Hne _].
      by apply (dop_of_insert w' (dir_ops w)).
    + unfold w', dir_tree_fill_on_dir_buf_cb. rewrite Hen. wsimpl.
      rewrite last_snoc. congruence.
  - unfold w', dir_tree_fill_on_dir_buf_cb. rewrite Hen. wsimpl.
    rewrite last_snoc. congruence.
Qed.

(** A readdir answered from a populated handle: the handle's bytes, and
    nothing changes but the trace. *)
Lemma fill_dir_buf_reuses_handle (w : World) (i sz off req fh : Z) (cb : ReaddirCb)
    (en : DirEntry) (b : list Byte.byte) (n : Z) :
  entry w i = Some en -> type en = DET_dir ->
  dop_of w fh = Some (mkDirOpData (Some b) n) ->
  dir_tree_fill_dir_buf w i sz off cb req (Some fh)
  = emit (readdir_cb cb req true sz off (Some b) n) w.
Proof.
  intros Hen Hty Hdop. unfold dir_tree_fill_dir_buf.
  rewrite Hen, Hty. cbv zeta. cbn [from_option id]. by rewrite Hdop.
Qed.

(** A readdir with a positive offset on a handle without buffer: it fails
    when the directory's listing cache is expired; when the cache is fresh
    the handle is filled from it and the call succeeds. *)
Lemma fill_dir_buf_offset (w : World) (i sz off req fh : Z) (cb : ReaddirCb)
    (en : DirEntry) (m : Z) :
  entry w i = Some en -> type en = DET_dir ->
  dop_of w fh = Some (mkDirOpData None m) -> off > 0 ->
  let w' := dir_tree_fill_dir_buf w i sz off cb req (Some fh) in
  (fst (dir_tree_is_cache_expired w en) = true ->
   last (trace w') = Some (readdir_cb cb req false sz off None 0)
   /\ dop_of w' fh = Some (mkDirOpData None m))
  /\ (fst (dir_tree_is_cache_expired w en) = false ->
      exists b,
        copy_buf (default [] (dir_cache en)) (dir_cache_size en) = Some b
        /\ last (trace w') = Some (readdir_cb cb req true sz off (Some b) (dir_cache_size en))
        /\ dop_of w' fh = Some (mkDirOpData (Some b) (dir_cache_size en))).
Proof.
  intros Hen Hty Hdop Hoff.
  destruct (dop_of_Some_ne _ _ _ Hdop) as [Hne Hlk].
  destruct (is_cache_expired_world w en) as [Hw1 Hsz].
  unfold dir_tree_fill_dir_buf. rewrite Hen, Hty. cbv zeta. cbn [from_option id]. rewrite Hdop.
  destruct (dir_tree_is_cache_expired w en) as [expired w1]. cbn [fst snd] in *.
  assert (Hops : dir_ops w1 = dir_ops w) by (by destruct Hw1 as [-> | ->]).
  split; intros ->; cbn [negb].
  - replace (off >? 0) with true by (symmetry; apply Z.gtb_lt; lia).
    wsimpl. rewrite last_snoc. split; [done|].
    unfold dop_of in *. wsimpl. by rewrite Hops.
  - specialize (Hsz eq_refl). unfold copy_buf.
    apply Z.eqb_neq in Hsz. rewrite Hsz. eexists. split; [reflexivity|].
    wsimpl. rewrite last_snoc. split; [done|].
    apply (dop_of_insert _ (dir_ops w1)); [lia|done].
Qed.

(** A readdir that reports success leaves the bytes it reports in the
    handle. *)
Lemma fill_dir_buf_handle (w : World) (i sz off req fh : Z) (cb : ReaddirCb)
    (en : DirEntry) (dop : DirOpData) (buf : option (list Byte.byte)) (n : Z) :
  entry w i = Some en -> type en = DET_dir ->
  dop_of w fh = Some dop ->
  (forall b name j s, (length b < length (rfuse_add_dirbuf w b name j s))%nat) ->
  let w' := dir_tree_fill_dir_buf w i sz off cb req (Some fh) in
  last (trace w') = Some (readdir_cb cb req true sz off buf n) ->
  exists b, buf = Some b /\ dop_of w' fh = Some (mkDirOpData (Some b) n).
Proof.
  intros Hen Hty Hdop Hg.
  destruct dop as [[b|] m].
  { cbv zeta. rewrite (fill_dir_buf_reuses_handle w i sz off req fh cb en b m) by done.
    rewrite last_emit. intros [= <- <-]. by exists b. }
  destruct (dop_of_Some_ne _ _ _ Hdop) as [Hne Hlk].
  destruct (is_cache_expired_world w en) as [Hw1 Hsz].
  unfold dir_tree_fill_dir_buf. rewrite Hen, Hty. cbv zeta. cbn [from_option id]. rewrite Hdop.
  destruct (dir_tree_is_cache_expired w en) as [expired w1]. cbn [fst snd] in *.
  assert (Hops : dir_ops w1 = dir_ops w) by (by destruct Hw1 as [-> | ->]).
  assert (Hfmt : rfuse_add_dirbuf w1 = rfuse_add_dirbuf w) by (by destruct Hw1 as [-> | ->]).
  destruct expired; cbn [negb].
  - destruct (off >? 0); [wsimpl; rewrite last_snoc; congruence|].
    match goal with
    | |- context [let '(stale, w3) := ?X in _] => destruct X as [stale w3] eqn:HX
    end.
    assert (H3 : dir_ops w3 = dir_ops w /\ rfuse_add_dirbuf w3 = rfuse_add_dirbuf w).
    { unfold time_NULL in HX.
      repeat case_match; simplify_eq; wsimpl; by rewrite ?Hops, ?Hfmt. }
    destruct H3 as [Hops3 Hfmt3].
    destruct stale.
    + wsimpl. destruct (pool_ok w3); wsimpl; rewrite last_snoc; congruence.
    + intros Hlast.
      apply (fill_on_dir_buf_cb_handle w3
               (mkDirTreeFillDirData i sz off cb req fh) true buf n);
        [|by rewrite Hfmt3|exact Hlast].
      exists (mkDirOpData None m). unfold dop_of in *. cbn [fd_dop]. by rewrite Hops3.
  - specialize (Hsz eq_refl). wsimpl. rewrite last_snoc. intros [= <- <-].
    unfold copy_buf. apply Z.eqb_neq in Hsz. rewrite Hsz.
    eexists. split; [reflexivity|].
    apply (dop_of_insert _ (dir_ops w1)); [lia|done].
Qed.

(** C2 (as the code has it).  On an open-directory handle:
    - a readdir on a handle whose buffer is populated returns that buffer,
      whatever the offset and the state of the tree, and changes nothing;
    - a readdir with offset > 0 on a handle without buffer fails when the
      directory's listing cache is expired; when the cache is fresh the
      handle is filled from the cache and the call succeeds;
    - once a readdir, or the completion of the refresh a readdir
      dispatched, has reported success, every later readdir on the handle
      returns the same bytes and size, as long as the handle is as that
      success left it. *)
Theorem readdir_handle_buffer_reused (w : World) (i sz off req fh : Z) (cb : ReaddirCb)
    (en : DirEntry) (dop : DirOpData) :
  entry w i = Some en -> type en = DET_dir ->
  dop_of w fh = Some dop ->
  (forall b name j s, (length b < length (rfuse_add_dirbuf w b name j s))%nat) ->
  let w' := dir_tree_fill_dir_buf w i sz off cb req (Some fh) in
  let later_readdirs_return (w1 : World) (buf : option (list Byte.byte)) (n : Z) :=
    forall (w2 : World) (sz2 off2 req2 : Z) (cb2 : ReaddirCb) (en2 : DirEntry),
      dop_of w2 fh = dop_of w1 fh ->
      entry w2 i = Some en2 -> type en2 = DET_dir ->
      dir_tree_fill_dir_buf w2 i sz2 off2 cb2 req2 (Some fh)
      = emit (readdir_cb cb2 req2 true sz2 off2 buf n) w2 in
  (forall b, dop_buf dop = Some b ->
             w' = emit (readdir_cb cb req true sz off (Some b) (dop_size dop)) w)
  /\ (dop_buf dop = None -> off > 0 ->
      (fst (dir_tree_is_cache_expired w en) = true ->
       last (trace w') = Some (readdir_cb cb req false sz off None 0)
       /\ dop_of w' fh = Some dop)
      /\ (fst (dir_tree_is_cache_expired w en) = false ->
          exists b,
            last (trace w')
            = Some (readdir_cb cb req true sz off (Some b) (dir_cache_size en))
            /\ dop_of w' fh = Some (mkDirOpData (Some b) (dir_cache_size en))))
  /\ (forall buf n,
        last (trace w') = Some (readdir_cb cb req true sz off buf n) ->
        later_readdirs_return w' buf n)
  /\ (forall (w1 : World) (d : DirTreeFillDirData) (success : bool) buf n,
        fd_dop d = fh -> fd_ino d = i -> is_Some (dop_of w1 fh) ->
        (forall b name j s, (length b < length (rfuse_add_dirbuf w1 b name j s))%nat) ->
        last (trace (dir_tree_fill_on_dir_buf_cb w1 d success))
        = Some (readdir_cb (fd_readdir_cb d) (fd_req d) true (fd_size d) (fd_off d) buf n) ->
        later_readdirs_return (dir_tree_fill_on_dir_buf_cb w1 d success) buf n).
Proof.
  intros Hen Hty Hdop Hg w' later. split; [|split; [|split]].
  - intros b Hb. destruct dop as [b' m]. cbn in Hb. subst b'.
    by apply fill_dir_buf_reuses_handle with (en := en).
  - intros Hb Hoff. destruct dop as [b' m]. cbn in Hb. subst b'.
    destruct (fill_dir_buf_offset w i sz off req fh cb en m Hen Hty Hdop Hoff)
      as [Hexp Hfresh].
    split; [exact Hexp|]. intros Hf. destruct (Hfresh Hf) as (b & _ & H1 & H2).
    by exists b.
  - intros buf n Hlast.
    destruct (fill_dir_buf_handle w i sz off req fh cb en dop buf n Hen Hty Hdop Hg Hlast)
      as (b & -> & Hh).
    intros w2 sz2 off2 req2 cb2 en2 Hsame Hen2 Hty2.
    apply fill_dir_buf_reuses_handle with (en := en2); [done|done|].
    by rewrite Hsame.
  - intros w1 d success buf n Hfh Hi Hsome Hg1 Hlast.
    rewrite <- Hfh in Hsome.
    destruct (fill_on_dir_buf_cb_handle w1 d success buf n Hsome Hg1 Hlast)
      as (b & -> & Hh).
    intros w2 sz2 off2 req2 cb2 en2 Hsame Hen2 Hty2.
    apply fill_dir_buf_reuses_handle with (en := en2); [done|done|].
    rewrite Hsame, <- Hfh. exact Hh.
Qed.

(** ** The example formatter *)

Lemma example_add_dirbuf_grows (b : list Byte.byte) (name : string) (j s : Z) :
  (length b < length (example_add_dirbuf b name j s))%nat.
Proof. unfold example_add_dirbuf. rewrite !length_app. cbn. lia. Qed.

(** ** Examples and counterexamples *)

(** C1 at the failing input: "f" (inode 2) is not tombstoned while its
    DELETE is in flight; the DELETE fails; the entry is tombstoned with
    age 0 and the callback is told the failure. *)
Lemma file_remove_failure_tombstones_witness :
  removed <$> entry world_delete_sent 2 = Some false
  /\ (exists en',
        entry (dir_tree_file_remove_on_con_data_cb world_delete_sent unlink_f false) 2
        = Some en' /\ removed en' = true /\ age en' = 0)
  /\ last (trace (dir_tree_file_remove_on_con_data_cb world_delete_sent unlink_f false))
     = Some (file_remove_cb 2 false).
Proof.
  split; [vm_compute; reflexivity|].
  eapply (file_remove_failure_tombstones world_delete_sent unlink_f).
  vm_compute; reflexivity.
Defined.

(** C2, counterexample.  With the root's listing cache fresh, a readdir at
    offset 5 on the freshly opened handle 2, whose buffer is not populated,
    succeeds.  And two readdirs on handle 1, the second arriving while the
    refresh of the first is in flight, both succeed with different bytes. *)
Lemma readdir_offset_without_buffer_succeeds :
  dop_of world_two_handles 2 = Some (mkDirOpData None 0)
  /\ last (trace (dir_tree_fill_dir_buf world_two_handles 1 4096 5 (cb_fuse_readdir 0) 13
                    (Some 2)))
     = Some (readdir_cb (cb_fuse_readdir 0) 13 true 4096 5 (Some root_blob) 9)
  /\ trace world_overlapping_readdirs
     = [client_pool_get_client (cb_fill_dir_on_http_ready first_readdir) true;
        readdir_cb (cb_fuse_readdir 0) 12 true 4096 0 (Some root_blob) 9;
        http_connection_get_directory_listing "" 1 first_readdir;
        readdir_cb (cb_fuse_readdir 0) 11 true 4096 0
          (Some (example_add_dirbuf root_blob "n" 2 1)) 13].
Proof. repeat split; vm_compute; reflexivity. Qed.

(** C2, witness: after the readdir at offset 5 has filled handle 2 from the
    cache, a readdir at offset 9 on that handle returns the same bytes. *)
Lemma readdir_handle_buffer_reused_witness :
  dir_tree_fill_dir_buf
    (dir_tree_fill_dir_buf world_two_handles 1 4096 5 (cb_fuse_readdir 0) 13 (Some 2))
    1 4096 9 (cb_fuse_readdir 0) 14 (Some 2)
  = emit (readdir_cb (cb_fuse_readdir 0) 14 true 4096 9 (Some root_blob) 9)
      (dir_tree_fill_dir_buf world_two_handles 1 4096 5 (cb_fuse_readdir 0) 13 (Some 2)).
Proof.
  edestruct (readdir_handle_buffer_reused world_two_handles 1 4096 5 13 2
               (cb_fuse_readdir 0)) as (_ & _ & Hlater & _);
    [vm_compute; reflexivity|vm_compute; reflexivity|vm_compute; reflexivity
    |intros b name j s; apply example_add_dirbuf_grows|].
  eapply (Hlater (Some root_blob) 9); vm_compute; reflexivity.
Defined.

(** C3, counterexample: scenario S5.  The PUT to /b/y has been sent and
    succeeds, "y" has no entry under b: no entry is created and the rename
    completes with failure. *)
Lemma rename_without_destination_entry_fails :
  last (trace world_s5_copy_sent)
  = Some (http_connection_make_request "/b/y" "PUT" (cb_on_rename_copy rename_x_y) true)
  /\ (exists b, entry world_s5_copy_sent 3 = Some b
                /\ child (dtree world_s5_copy_sent) b "y" = None)
  /\ last (trace (dir_tree_on_rename_copy_cb world_s5_copy_sent rename_x_y true))
     = Some (rename_cb 9 false)
  /\ (exists b,
        entry (dir_tree_on_rename_copy_cb world_s5_copy_sent rename_x_y true) 3 = Some b
        /\ child (dtree (dir_tree_on_rename_copy_cb world_s5_copy_sent rename_x_y true))
             b "y" = None).
Proof.
  split; [vm_compute; reflexivity|]. split; [eexists; split; vm_compute; reflexivity|].
  split; [vm_compute; reflexivity|]. eexists; split; vm_compute; reflexivity.
Qed.

Lemma rename_copy_needs_destination_entry_witness :
  dir_tree_on_rename_copy_cb world_s5_copy_sent rename_x_y true
  = emit (rename_cb 9 false) (emit http_connection_release world_s5_copy_sent).
Proof.
  edestruct (rename_copy_needs_destination_entry world_s5_copy_sent rename_x_y)
    as [Hnone _]; [vm_compute; reflexivity|vm_compute; reflexivity|].
  apply Hnone. vm_compute; reflexivity.
Defined.

(** C4 at the failing input: the tombstone of "missing" was touched at time
    100, the lookup runs at time 106 with [file_cache_max_time = 5] under a
    fresh listing cache: inode 2 is reported as found, no request is made. *)
Lemma lookup_old_tombstone_reported_found_witness :
  removed <$> entry world_old_tombstone 2 = Some true
  /\ trace (dir_tree_lookup world_old_tombstone 1 "missing" 22)
     = trace world_old_tombstone ++ [lookup_cb 22 true 2 33188 0 100].
Proof.
  split; [vm_compute; reflexivity|].
  etransitivity.
  - eapply (lookup_old_tombstone_reported_found world_old_tombstone _ 1 "missing" 22);
      [vm_compute; reflexivity|vm_compute; reflexivity|vm_compute; reflexivity
      |vm_compute; reflexivity|vm_compute; reflexivity|vm_compute; discriminate
      |vm_compute; reflexivity|vm_compute; reflexivity|vm_compute; reflexivity].
  - vm_compute; reflexivity.
Defined.



(** C6, counterexample.  After ls /, mkdir /a, ls /a the root has age 1 and
    its child "a" has age 2 and is not removed; the root's listing built
    next holds "a", which the same-age rule would leave out. *)
Lemma newer_child_is_listed :
  age <$> entry world_a_newer 1 = Some 1
  /\ h_dir_tree <$> entry world_a_newer 1 = Some (Some [("a"%string, 2)])
  /\ age <$> entry world_a_newer 2 = Some 2
  /\ removed <$> entry world_a_newer 2 = Some false
  /\ last (trace (dir_tree_fill_dir_buf world_a_newer 1 4096 0 (cb_fuse_readdir 0) 33 None))
     = Some (readdir_cb (cb_fuse_readdir 0) 33 true 4096 0
               (Some (example_add_dirbuf root_blob "a" 2 10)) 13)
  /\ listing_blob_with visible_same_age world_a_newer 1
       <$> entry world_a_newer 1 = Some root_blob
  /\ example_add_dirbuf root_blob "a" 2 10 <> root_blob.
Proof. repeat split; vm_compute; (reflexivity || discriminate). Qed.

Lemma dirbuf_lists_children_not_older_witness :
  last (trace (dir_tree_fill_on_dir_buf_cb world_a_newer second_root_readdir true))
  = Some (readdir_cb (cb_fuse_readdir 0) 33 true 4096 0
            (Some (example_add_dirbuf root_blob "a" 2 10)) 13).
Proof.
  edestruct (dirbuf_lists_children_not_older world_a_newer second_root_readdir)
    as [Hlast _]; [vm_compute; reflexivity|].
  etransitivity; [exact Hlast|vm_compute; reflexivity].
Defined.

(** C7, counterexample.  The root is marked modified and its listing
    refresh is in flight; the listing fails: the completion clears
    [is_modified] (and the guard [dir_cache_updating], not [is_updating]). *)
Lemma failed_listing_clears_is_modified :
  is_modified <$> entry world_root_listing_in_flight 1 = Some true
  /\ dir_cache_updating <$> entry world_root_listing_in_flight 1 = Some true
  /\ last (trace (directory_listing_done world_root_listing_in_flight root_fill None))
     = Some (readdir_cb (cb_fuse_readdir 0) 41 false 4096 0 None 0)
  /\ is_modified
       <$> entry (directory_listing_done world_root_listing_in_flight root_fill None) 1
     = Some false
  /\ dir_cache_updating
       <$> entry (directory_listing_done world_root_listing_in_flight root_fill None) 1
     = Some false.
Proof. repeat split; vm_compute; reflexivity. Qed.

Lemma failed_refresh_frame_witness :
  last (trace (dir_tree_on_lookup_cb world_root_listing_in_flight head_of_a false
                 no_headers))
  = Some (lookup_cb 42 false 0 0 0 0)
  /\ last (trace (dir_tree_fill_on_dir_buf_cb world_root_listing_in_flight root_fill false))
     = Some (readdir_cb (cb_fuse_readdir 0) 41 false 4096 0 None 0).
Proof.
  edestruct (failed_refresh_frame world_root_listing_in_flight head_of_a no_headers
               root_fill) as [(_ & _ & Hhead) (_ & _ & Hdir)];
    [vm_compute; reflexivity|vm_compute; reflexivity|].
  split; [exact Hhead|exact Hdir].
Defined.

(** C8, counterexample.  After mkdir /a and the start of the listing
    refresh of /a, the entry "a", whose parent is the root, has age 1 while
    the root has age 0. *)
Lemma refreshed_directory_is_newer_than_parent :
  parent_ino <$> entry world_a_refreshing 2 = Some 1
  /\ age <$> entry world_a_refreshing 2 = Some 1
  /\ age <$> entry world_a_refreshing 1 = Some 0.
Proof. repeat split; vm_compute; reflexivity. Qed.

Lemma age_taken_from_parent_then_bumped_witness :
  (exists p w' e pe',
     dir_tree_add_entry world_root_only "x" 33188 DET_file 1 0 100 = (Some p, w')
     /\ entry w' p = Some e /\ parent_ino e = 1
     /\ entry w' 1 = Some pe'
     /\ age e = age pe')
  /\ age <$> (h_inodes (dir_tree_start_update (dtree world_s5) 2) !! 2) = Some 1.
Proof.
  edestruct (age_taken_from_parent_then_bumped world_root_only "x" 33188 DET_file 1 0 100)
    with (t := dtree world_s5) (dir := 2)
    as ((p & w' & e & pe' & Hadd & He & Hpar & Hpe & Hage & _) & Hbump & _).
  - discriminate.
  - vm_compute; reflexivity.
  - vm_compute; reflexivity.
  - intros p e H. vm_compute in H. discriminate.
  - vm_compute; reflexivity.
  - split.
    + exists p, w', e, pe'. repeat split; assumption.
    + etransitivity; [exact (f_equal (fmap age) Hbump)|vm_compute; reflexivity].
Defined.

(** C9 at the failing input: scenario S1 with [dir_cache_max_time = 0].
    The lookup of "a.txt" finds the root's listing expired and dispatches a
    refresh; the listing comes back with "a.txt" and is stamped at time 100;
    the retry reads the clock at 101, finds the listing expired again, and
    dispatches a second refresh carrying the same retry: the lookup is not
    answered after one refresh-and-retry cycle. *)
Theorem lookup_retry_dispatches_second_refresh :
  trace world_lookup_dispatched
  = [client_pool_get_client (cb_fill_dir_on_http_ready lookup_fill) true]
  /\ pending_lookup_read world_lookup_refreshed = Some (lookup_a_txt, true)
  /\ trace <$> run_readdir_cb 1 world_lookup_refreshed
     = Some
         [client_pool_get_client (cb_fill_dir_on_http_ready lookup_fill) true;
          http_connection_get_directory_listing "" 1 lookup_fill;
          readdir_cb (cb_dir_tree_on_lookup_read lookup_a_txt) 7 true (1024 * 1024 * 1) 0
            (Some (example_add_dirbuf root_blob "a.txt" 2 100)) 17;
          client_pool_get_client (cb_fill_dir_on_http_ready lookup_fill) true].
Proof. repeat split; vm_compute; reflexivity. Qed.

Lemma mkdir_converts_existing_entry_witness :
  (type <$> entry world_tombstone_m 2 = Some DET_file
   /\ removed <$> entry world_tombstone_m 2 = Some true)
  /\ (exists en',
        entry (dir_tree_dir_create world_tombstone_m 1 "m" 0 51) 2 = Some en'
        /\ ino en' = 2 /\ type en' = DET_dir /\ h_dir_tree en' = Some []
        /\ removed en' = false /\ mode en' = DIR_DEFAULT_MODE)
  /\ trace (dir_tree_dir_create world_tombstone_m 1 "m" 0 51)
     = trace world_tombstone_m ++ [mkdir_cb 51 true 2 DIR_DEFAULT_MODE 0 100]
  /\ (exists en',
        entry (dir_tree_dir_create world_root_only 1 "d" 448 52) 2 = Some en'
        /\ type en' = DET_dir /\ mode en' = DIR_DEFAULT_MODE
        /\ trace (dir_tree_dir_create world_root_only 1 "d" 448 52)
           = trace world_root_only ++ [mkdir_cb 52 true 2 DIR_DEFAULT_MODE 10 100]).
Proof.
  split; [split; vm_compute; reflexivity|].
  edestruct (mkdir_converts_existing_entry world_tombstone_m 1 "m" 0 51)
    as ((en' & He & Hi & Ht & Hc & Hr & _ & _ & Hm) & _ & Htrace & _ & Hnew);
    [vm_compute; reflexivity|vm_compute; reflexivity|vm_compute; reflexivity|].
  split; [|split].
  - exists en'. repeat split; assumption.
  - etransitivity; [exact Htrace|vm_compute; reflexivity].
  - eassert (Hroot : entry world_root_only 1 = Some _) by (vm_compute; reflexivity).
    match type of Hroot with _ = Some ?pe =>
      assert (Hnone : child (dtree world_root_only) pe "d" = None)
        by (vm_compute; reflexivity)
    end.
    pose proof (Hnew world_root_only 1 "d"%string 448 52 _ Hroot eq_refl Hnone) as H.
    cbv zeta in H. destruct H as (en2 & H1 & H2 & H3 & H4 & H5 & H6).
    exists en2. split; [exact H1|]. split; [exact H3|]. split; [exact H5|].
    etransitivity; [exact H6|].
    assert (Hs : size en2 = 10 /\ ctime en2 = 100).
    { change (entry (dir_tree_dir_create world_root_only 1 "d" 448 52) 2 = Some en2) in H1.
      assert (Hsc : (fun e => (size e, ctime e))
                      <$> entry (dir_tree_dir_create world_root_only 1 "d" 448 52) 2
                    = Some (10, 100)) by (vm_compute; reflexivity).
      rewrite H1 in Hsc. by injection Hsc as -> ->. }
    destruct Hs as [-> ->]. reflexivity.
Defined.
(** * Further properties of the tree *)

(** ** Trees that only lose entries *)

Lemma destroyed_modify (t : DirTree) (p : Z) (f : DirEntry -> DirEntry) :
  destroyed (modify p f t) = destroyed t.
Proof. unfold modify. by destruct (h_inodes t !! p). Qed.

Lemma destroyed_mark_destroyed (r : option Z) (t : DirTree) :
  destroyed (mark_destroyed r t)
  = destroyed t ++ match r with Some p => [p] | None => [] end.
Proof. destruct r; cbn; [done|by rewrite app_nil_r]. Qed.

Lemma destroyed_entry_modified (t : DirTree) (en : Z) :
  destroyed (dir_tree_entry_modified t en) = destroyed t.
Proof.
  unfold dir_tree_entry_modified. repeat case_match; by rewrite ?destroyed_modify.
Qed.

Lemma tree_le_refl (t : DirTree) : tree_le t t.
Proof. split; [done|]. intros k e He. exists e. by split; [|split; [|apply incl_refl]]. Qed.

Lemma tree_le_trans (t1 t2 t3 : DirTree) : tree_le t1 t2 -> tree_le t2 t3 -> tree_le t1 t3.
Proof.
  intros [[Hm1 Hd1] H1] [[Hm2 Hd2] H2]. split; [split; congruence|].
  intros k e He. destruct (H1 k e He) as (e2 & He2 & Hi2 & Hl2).
  destruct (H2 k e2 He2) as (e3 & He3 & Hi3 & Hl3).
  exists e3. repeat split; [done|congruence|].
  intros x Hx. by apply Hl3, Hl2.
Qed.

Lemma tree_le_modify_at (t : DirTree) (p : Z) (f : DirEntry -> DirEntry) :
  (forall e, h_inodes t !! p = Some e ->
             ident (f e) = ident e /\ incl (links (f e)) (links e)) ->
  tree_le (modify p f t) t.
Proof.
  intros Hf. split; [split; [apply max_ino_modify|apply destroyed_modify]|].
  intros k e. rewrite lookup_modify. case_decide as Hpk.
  - subst k. destruct (h_inodes t !! p) as [e0|] eqn:He0; [|done].
    intros [= <-]. exists e0. destruct (Hf e0 eq_refl). by repeat split.
  - intros He. exists e. by split; [|split; [|apply incl_refl]].
Qed.

Lemma tree_le_modify (t : DirTree) (p : Z) (f : DirEntry -> DirEntry) :
  (forall e, ident (f e) = ident e /\ incl (links (f e)) (links e)) ->
  tree_le (modify p f t) t.
Proof. intros Hf. apply tree_le_modify_at. intros e _. apply Hf. Qed.

Lemma tree_le_entry_modified (t : DirTree) (en : Z) :
  tree_le (dir_tree_entry_modified t en) t.
Proof.
  unfold dir_tree_entry_modified.
  repeat case_match; try apply tree_le_refl; apply tree_le_modify; keeps.
Qed.

Lemma tree_le_delete (t : DirTree) (k : Z) :
  tree_le (set_h_inodes (delete k (h_inodes t)) t) t.
Proof.
  split; [done|]. intros q e. cbn. intros [_ He]%lookup_delete_Some.
  exists e. by split; [|split; [|apply incl_refl]].
Qed.

(** A tree that only lost entries of a well-formed tree is well-formed. *)
Lemma tree_ok_le (t' t : DirTree) : tree_le t' t -> tree_ok t -> tree_ok t'.
Proof.
  intros [[Hmax _] Hle] [Hidx Hm Halloc Hpath Hroot Hlnk].
  split.
  - intros k e He. destruct (Hle k e He) as (e0 & He0 & [= Hi _ _ _] & _).
    rewrite Hi. exact (Hidx k e0 He0).
  - by rewrite Hmax.
  - intros k e He. destruct (Hle k e He) as (e0 & He0 & [= _ Hp _ _] & _).
    rewrite Hmax, Hp. exact (Halloc k e0 He0).
  - intros k e pe He Hpe.
    destruct (Hle k e He) as (e0 & He0 & [= _ Hp Hb Hf] & _).
    rewrite Hp in Hpe.
    destruct (Hle _ pe Hpe) as (pe0 & Hpe0 & [= _ _ _ Hpf] & _).
    rewrite Hf, Hp, Hb, Hpf. exact (Hpath k e0 pe0 He0 Hpe0).
  - intros k e He Hp0. destruct (Hle k e He) as (e0 & He0 & [= _ Hp _ Hf] & _).
    rewrite Hf. apply (Hroot k e0 He0). congruence.
  - intros k de name v Hde Hin.
    destruct (Hle k de Hde) as (de0 & Hde0 & _ & Hl).
    destruct (Hlnk k de0 name v Hde0 (Hl _ Hin)) as [Hv Hch].
    split; [by rewrite Hmax|].
    intros e He. destruct (Hle v e He) as (e0 & He0 & [= _ Hp Hb _] & _).
    rewrite Hb, Hp. exact (Hch e0 He0).
Qed.

(** An update of one entry that keeps its identity and adds only links
    that carry the name and the parent of what they point to. *)
Lemma tree_ok_modify_links (t : DirTree) (p : Z) (f : DirEntry -> DirEntry) :
  tree_ok t ->
  (forall e, h_inodes t !! p = Some e ->
     ident (f e) = ident e
     /\ forall nm v, In (nm, v) (links (f e)) ->
          In (nm, v) (links e)
          \/ (v < max_ino t
              /\ forall c, h_inodes t !! v = Some c -> basename c = nm /\ parent_ino c = p)) ->
  tree_ok (modify p f t).
Proof.
  intros [Hidx Hm Halloc Hpath Hroot Hlnk] Hf.
  assert (Hsim : forall k e, h_inodes (modify p f t) !! k = Some e ->
            exists e0, h_inodes t !! k = Some e0 /\ ident e = ident e0
              /\ forall nm v, In (nm, v) (links e) ->
                   In (nm, v) (links e0)
                   \/ (v < max_ino t
                       /\ forall c, h_inodes t !! v = Some c ->
                                    basename c = nm /\ parent_ino c = k)).
  { intros k e. rewrite lookup_modify. case_decide as Hpk.
    - subst k. destruct (h_inodes t !! p) as [e0|] eqn:He0; [|done].
      intros [= <-]. exists e0. destruct (Hf e0 eq_refl) as [Hi Hl]. by repeat split.
    - intros He. exists e. repeat split; [done|]. by left. }
  split.
  - intros k e He. destruct (Hsim k e He) as (e0 & He0 & [= Hi _ _ _] & _).
    rewrite Hi. exact (Hidx k e0 He0).
  - by rewrite max_ino_modify.
  - intros k e He. destruct (Hsim k e He) as (e0 & He0 & [= _ Hp _ _] & _).
    rewrite max_ino_modify, Hp. exact (Halloc k e0 He0).
  - intros k e pe He Hpe.
    destruct (Hsim k e He) as (e0 & He0 & [= _ Hp Hb Hfp] & _).
    rewrite Hp in Hpe.
    destruct (Hsim _ pe Hpe) as (pe0 & Hpe0 & [= _ _ _ Hpf] & _).
    rewrite Hfp, Hp, Hb, Hpf. exact (Hpath k e0 pe0 He0 Hpe0).
  - intros k e He Hp0. destruct (Hsim k e He) as (e0 & He0 & [= _ Hp _ Hfp] & _).
    rewrite Hfp. apply (Hroot k e0 He0). congruence.
  - intros k de name v Hde Hin. rewrite max_ino_modify.
    destruct (Hsim k de Hde) as (de0 & Hde0 & _ & Hl).
    assert (Hold : v < max_ino t
                   /\ forall c, h_inodes t !! v = Some c ->
                                basename c = name /\ parent_ino c = k).
    { destruct (Hl _ _ Hin) as [Hin0|Hnew]; [|done].
      exact (Hlnk k de0 name v Hde0 Hin0). }
    destruct Hold as [Hv Hch]. split; [done|].
    intros e He. destruct (Hsim v e He) as (e0 & He0 & [= _ Hp Hb _] & _).
    rewrite Hb, Hp. exact (Hch e0 He0).
Qed.

(** The entry made by [dir_tree_add_entry] takes [max_ino] as its inode
    number and sits under an existing parent, or under none. *)
Lemma tree_ok_insert_new (t : DirTree) (en : DirEntry) :
  tree_ok t -> roomy t ->
  ino en = max_ino t -> links en = [] ->
  (parent_ino en = 0 /\ fullpath en = ""%string
   \/ exists pe, h_inodes t !! parent_ino en = Some pe
                 /\ fullpath en
                    = path_under (parent_ino en) (fullpath pe) (basename en)) ->
  tree_ok
    (set_h_inodes
       (<[max_ino t := en]> (h_inodes (set_max_ino (wrap64 (max_ino t + 1)) t)))
       (set_max_ino (wrap64 (max_ino t + 1)) t)).
Proof.
  intros [Hidx Hm Halloc Hpath Hroot Hlnk] Hroom Hino Hl Hpar.
  assert (Hw : wrap64 (max_ino t + 1) = max_ino t + 1).
  { unfold wrap64, roomy in *. apply Z.mod_small. lia. }
  assert (Hfresh : h_inodes t !! max_ino t = None).
  { destruct (h_inodes t !! max_ino t) as [e|] eqn:He; [|done].
    destruct (Halloc _ _ He). lia. }
  assert (Hp : 0 <= parent_ino en < max_ino t).
  { destruct Hpar as [[H0 _]|(pe & Hpe & _)]; [lia|].
    destruct (Halloc _ _ Hpe). lia. }
  split; cbn; rewrite ?Hw.
  - apply map_Forall_insert_2; [done|exact Hidx].
  - lia.
  - intros k e [[<- <-]|[Hne He]]%lookup_insert_Some; [lia|].
    destruct (Halloc k e He). lia.
  - intros k e pe [[<- <-]|[Hne He]]%lookup_insert_Some Hpe.
    + rewrite lookup_insert_ne in Hpe by lia.
      destruct Hpar as [[H0 _]|(pe' & Hpe' & Hfp)].
      * rewrite H0 in Hpe. destruct (Halloc _ _ Hpe). lia.
      * rewrite Hpe in Hpe'. by injection Hpe' as <-.
    + destruct (Halloc k e He). rewrite lookup_insert_ne in Hpe by lia.
      exact (Hpath k e pe He Hpe).
  - intros k e [[<- <-]|[Hne He]]%lookup_insert_Some H0.
    + destruct Hpar as [[_ Hfp]|(pe' & Hpe' & _)]; [done|].
      rewrite H0 in Hpe'. destruct (Halloc _ _ Hpe'). lia.
    + exact (Hroot k e He H0).
  - intros k de name v [[<- <-]|[Hne Hde]]%lookup_insert_Some Hin.
    + rewrite Hl in Hin. destruct Hin.
    + destruct (Hlnk k de name v Hde Hin) as [Hv Hch]. split; [lia|].
      intros e. rewrite lookup_insert_ne by lia. apply Hch.
Qed.

Lemma In_children_replace (name nm : string) (i v : Z) (l : list (string * Z)) :
  In (nm, v) (children_replace name i l) -> In (nm, v) l \/ (nm = name /\ v = i).
Proof.
  induction l as [|[k v'] l IH]; simpl.
  - intros [[= <- <-]|[]]. by right.
  - destruct (String.eqb k name) eqn:Hk; simpl.
    + apply String.eqb_eq in Hk. subst k.
      intros [[= <- <-]|Hin]; [by right|by left; right].
    + intros [Heq|Hin]; [by left; left|].
      destruct (IH Hin) as [H|H]; [by left; right|by right].
Qed.

(** Well-formedness looks at the index and at [max_ino] only. *)
Lemma tree_ok_mark_destroyed (r : option Z) (t : DirTree) :
  tree_ok t -> tree_ok (mark_destroyed r t).
Proof.
  intros [Hidx Hm Halloc Hpath Hroot Hlnk].
  split; unfold index_ok; rewrite ?h_inodes_mark_destroyed, ?max_ino_mark_destroyed;
    done.
Qed.

(** [dir_tree_add_entry] keeps a well-formed tree well-formed, as long as
    [max_ino] does not wrap around. *)
Lemma tree_ok_add_entry (w w' : World) (name : string) (md : Z) (ty : DirEntryType)
    (parent sz ct : Z) (o : option Z) :
  dir_tree_add_entry w name md ty parent sz ct = (o, w') ->
  tree_ok (dtree w) -> roomy (dtree w) -> tree_ok (dtree w').
Proof.
  unfold dir_tree_add_entry. intros Hadd Hok Hroom.
  destruct (negb (parent =? 0) && bool_decide _) eqn:Hmiss;
    [by injection Hadd as _ <-|].
  destruct (match (if parent =? 0 then None else h_inodes (dtree w) !! parent) with
            | Some pe => _ | None => false end) eqn:Hclash;
    [by injection Hadd as _ <-|].
  wsimpl. injection Hadd as _ <-. wsimpl.
  destruct (parent =? 0) eqn:Hp0.
  - apply Z.eqb_eq in Hp0. subst parent.
    apply tree_ok_insert_new; [done|done|done|by destruct ty|by left].
  - apply Z.eqb_neq in Hp0. cbn [negb andb] in Hmiss.
    apply bool_decide_eq_false in Hmiss.
    rewrite modify_mark_destroyed, entry_modified_mark_destroyed.
    apply tree_ok_mark_destroyed.
    destruct (h_inodes (dtree w) !! parent) as [pe|] eqn:Hpe; [|done].
    set (t1 := dir_tree_entry_modified (dtree w) parent).
    assert (Hle1 : tree_le t1 (dtree w)) by apply tree_le_entry_modified.
    assert (Hok1 : tree_ok t1) by exact (tree_ok_le _ _ Hle1 Hok).
    assert (Hroom1 : roomy t1) by (unfold roomy, t1; by rewrite max_ino_entry_modified).
    assert (Hpe1 : exists pe1, h_inodes t1 !! parent = Some pe1 /\ fullpath pe1 = fullpath pe).
    { destruct (dir_tree_entry_modified_lookup (dtree w) parent parent pe Hpe) as [H|H];
        eexists; (split; [exact H|done]). }
    destruct Hpe1 as (pe1 & Hpe1 & Hfp1).
    set (en := mkDirEntry _ _ _ _ _ _ _ _ _ _ _ _ _ _ _ _ _ _ _ _ _ _ _).
    eapply tree_ok_le; [apply tree_le_entry_modified|].
    assert (Hok3 : tree_ok
              (set_h_inodes
                 (<[max_ino t1 := en]> (h_inodes (set_max_ino (wrap64 (max_ino t1 + 1)) t1)))
                 (set_max_ino (wrap64 (max_ino t1 + 1)) t1))).
    { apply tree_ok_insert_new; [done|done|done|by destruct ty|].
      right. exists pe1. split; [exact Hpe1|]. cbn. by rewrite Hfp1. }
    apply tree_ok_modify_links; [exact Hok3|].
    intros e He. split; [done|].
    intros nm v. unfold links. cbn [h_dir_tree set_h_dir_tree].
    destruct (h_dir_tree e) as [l|]; cbn; [|by left].
    intros [Hin|[-> ->]]%In_children_replace; [by left|].
    right. split.
    + assert (Hw : wrap64 (max_ino t1 + 1) = max_ino t1 + 1).
      { unfold wrap64, roomy in *. apply Z.mod_small. destruct Hok1. lia. }
      rewrite Hw. lia.
    + intros c. rewrite lookup_insert_eq. by intros [= <-].
Qed.

(** ** The sweep at the end of a listing *)

Lemma stop_update_cb_spec (w w1 : World) (v : Z) (rm : bool) :
  index_ok (dtree w) ->
  dir_tree_stop_update_on_remove_child_cb w v = (rm, w1) ->
  w1 = set_dtree (set_h_inodes (h_inodes (dtree w1)) (dtree w)) (set_ticks (S (ticks w)) w)
  /\ (forall k, k <> v -> entry w1 k = entry w k)
  /\ (if rm
      then entry w1 v = None
           /\ exists ev, entry w v = Some ev /\ sweepable w (clock w (ticks w)) ev
      else entry w1 v = entry w v)
  /\ (forall e, entry w v = Some e -> shielded w e -> rm = false).
Proof.
  intros Hidx. unfold dir_tree_stop_update_on_remove_child_cb. wsimpl.
  destruct (h_inodes (dtree w) !! v) as [en|] eqn:Hen.
  2:{ intros [= <- <-]. wsimpl. destruct w as [[]]; by repeat split. }
  destruct (h_inodes (dtree w) !! parent_ino en) as [pe|] eqn:Hpe.
  2:{ intros [= <- <-]. wsimpl. repeat split; try done. by destruct w as [[]]. }
  destruct (_ && _) eqn:Hc.
  - intros [= <- <-]. wsimpl. cbn.
    pose proof (Hidx v en Hen) as Hino. cbn in Hino. rewrite Hino.
    repeat rewrite andb_true_iff in Hc. destruct Hc as [[[[H1 H2] H3] H4] H5].
    split; [by destruct w as [[]]|].
    split; [intros k Hk; by rewrite lookup_delete_ne|].
    split.
    + split; [by rewrite lookup_delete_eq|].
      exists en. split; [done|]. unfold sweepable, entry. rewrite Hpe.
      repeat split.
      * by destruct (type en).
      * by destruct (is_modified en).
      * exists pe. split; [done|lia].
      * lia.
      * lia.
    + intros e [= <-] [Hs|[Hs|Hs]].
      * rewrite Hs in H5. done.
      * rewrite Hs in H2. done.
      * specialize (Hs pe Hpe). lia.
  - intros [= <- <-]. wsimpl. repeat split; try done. by destruct w as [[]].
Qed.
Lemma sweepable_mono (w w1 : World) (now : Z) (e : DirEntry) :
  (forall k x, entry w1 k = Some x -> entry w k = Some x) ->
  app (dtree w1) = app (dtree w) ->
  sweepable w1 now e -> sweepable w now e.
Proof.
  intros Hsub Happ (H1 & H2 & (pe & Hpe & Hage) & H4 & H5).
  repeat split; try done; [|by rewrite <- Happ].
  exists pe. split; [by apply Hsub|done].
Qed.

Lemma shielded_mono (w w1 : World) (e : DirEntry) :
  (forall k x, entry w1 k = Some x -> entry w k = Some x) ->
  shielded w e -> shielded w1 e.
Proof.
  intros Hsub [H|[H|H]]; [by left|by right; left|].
  right; right. intros pe Hpe. apply H. by apply Hsub.
Qed.

Lemma index_ok_sub (t t' : DirTree) :
  (forall k x, h_inodes t' !! k = Some x -> h_inodes t !! k = Some x) ->
  index_ok t -> index_ok t'.
Proof. intros Hsub Hidx k e He. apply (Hidx k e). by apply Hsub. Qed.

Lemma foreach_remove_spec (l : list (string * Z)) (w w' : World)
    (kept : list (string * Z)) :
  index_ok (dtree w) ->
  foreach_remove w l = (kept, w') ->
  w' = set_dtree (set_h_inodes (h_inodes (dtree w')) (dtree w))
         (set_ticks (ticks w + length l)%nat w)
  /\ sublist kept l
  /\ (forall k e, entry w' k = Some e -> entry w k = Some e)
  /\ (forall k e, entry w k = Some e -> entry w' k = None ->
        (exists name, In (name, k) l)
        /\ exists n, (ticks w <= n < ticks w + length l)%nat
                     /\ sweepable w (clock w n) e)
  /\ (forall k e, entry w k = Some e -> shielded w e -> entry w' k = Some e)
  /\ (forall name v e, In (name, v) l -> entry w v = Some e -> shielded w e ->
        In (name, v) kept)
  /\ (NoDup (map snd l) -> forall name v, In (name, v) l ->
        (In (name, v) kept /\ entry w' v = entry w v)
        \/ (~ In (name, v) kept /\ entry w' v = None /\ is_Some (entry w v)))
  /\ (forall k, ~ In k (map snd l) -> entry w' k = entry w k).
Proof.
  revert w w' kept. induction l as [|[k0 v0] l IH]; intros w w' kept Hidx.
  - cbn [foreach_remove]. intros [= <- <-]. cbn [length].
    rewrite Nat.add_0_r.
    split; [by destruct w as [[]]|]. split; [constructor|].
    split; [done|]. split; [congruence|]. split; [done|]. split; [by intros ? ? ? []|].
    split; [by intros _ ? ? []|done].
  - cbn [foreach_remove].
    destruct (dir_tree_stop_update_on_remove_child_cb w v0) as [rm w1] eqn:Hcb.
    destruct (foreach_remove w1 l) as [rest w2] eqn:Hrest.
    intros [= <- <-].
    destruct (stop_update_cb_spec w w1 v0 rm Hidx Hcb) as (S1 & S2 & S3 & S4).
    assert (Hsub1 : forall k e, entry w1 k = Some e -> entry w k = Some e).
    { intros k e He. destruct (decide (k = v0)) as [->|Hne]; [|by rewrite <- S2].
      destruct rm; [destruct S3 as [S3 _]; congruence|by rewrite <- S3]. }
    assert (Hidx1 : index_ok (dtree w1)) by exact (index_ok_sub _ _ Hsub1 Hidx).
    assert (Happ1 : app (dtree w1) = app (dtree w)) by (by rewrite S1).
    assert (Hclk1 : clock w1 = clock w) by (by rewrite S1).
    assert (Htk1 : ticks w1 = S (ticks w)) by (by rewrite S1).
    destruct (IH w1 w2 rest Hidx1 Hrest) as (I1 & I2 & I3 & I4 & I5 & I6 & I7 & I8).
    split; [|split; [|split; [|split; [|split; [|split; [|split]]]]]].
    + etrans; [exact I1|]. rewrite Htk1. rewrite S1. cbn [length]. cbn.
      by rewrite Nat.add_succ_r.
    + destruct rm; [by apply sublist_cons|by apply sublist_skip].
    + intros k e He. by apply Hsub1, I3.
    + intros k e He Hnone.
      destruct (entry w1 k) as [e1|] eqn:He1.
      * pose proof (Hsub1 k e1 He1) as He'. rewrite He in He'. injection He' as <-.
        destruct (I4 k e He1 Hnone) as [[name Hin] (n & Hn & Hsw)].
        split; [exists name; by right|].
        exists n. split; [cbn [length]; lia|].
        rewrite <- Hclk1. by apply (sweepable_mono w w1).
      * destruct (decide (k = v0)) as [->|Hne]; [|rewrite S2 in He1 by done; congruence].
        destruct rm; [|rewrite S3 in He1; congruence].
        destruct S3 as [_ (ev & Hev & Hsw)]. rewrite He in Hev. injection Hev as <-.
        split; [exists k0; by left|]. exists (ticks w). split; [cbn [length]; lia|done].
    + intros k e He Hsh.
      apply I5; [|by apply (shielded_mono w)].
      destruct (decide (k = v0)) as [->|Hne]; [|by rewrite S2].
      rewrite (S4 e He Hsh) in S3. by rewrite S3.
    + intros name v e [[= <- <-]|Hin] He Hsh.
      * rewrite (S4 e He Hsh). by left.
      * assert (Hin' : In (name, v) rest).
        { apply (I6 name v e Hin); [|by apply (shielded_mono w)].
          destruct (decide (v = v0)) as [->|Hne]; [|by rewrite S2].
          rewrite (S4 e He Hsh) in S3. by rewrite S3. }
        destruct rm; [done|by right].
    + cbn [map snd]. intros [Hnin Hnd]%NoDup_cons name v [[= <- <-]|Hin].
      * assert (Hrestv : ~ In (k0, v0) rest).
        { intros Hr. apply Hnin. apply list_elem_of_In, in_map_iff.
          exists (k0, v0). split; [done|].
          apply list_elem_of_In. apply (elem_of_sublist rest l); [|done].
          by apply list_elem_of_In. }
        rewrite (I8 v0) by (by rewrite <- list_elem_of_In).
        destruct rm; [|left; split; [by left|done]].
        right. destruct S3 as [S3 (ev & Hev & _)]. rewrite Hev. by eauto.
      * assert (Hne : v <> v0).
        { intros ->. apply Hnin. apply list_elem_of_In, in_map_iff.
          by exists (name, v0). }
        destruct (I7 Hnd name v Hin) as [[Hk He]|(Hk & He & [e1 He1])].
        -- left. split; [destruct rm; [done|by right]|]. by rewrite He, S2.
        -- right. split; [|split; [done|]].
           ++ destruct rm; [done|]. intros [[= <- <-]|Hr]; [done|by apply Hk].
           ++ rewrite (Hsub1 v e1 He1). by eauto.
    + cbn [map snd]. intros k Hnin.
      rewrite I8 by (intros H; apply Hnin; by right).
      apply S2. intros ->. apply Hnin. by left.
Qed.
Lemma stop_update_spec (w : World) (parent : Z) (pe : DirEntry) (l : list (string * Z)) :
  index_ok (dtree w) ->
  entry w parent = Some pe -> type pe = DET_dir -> h_dir_tree pe = Some l ->
  exists kept w1,
    foreach_remove w l = (kept, w1)
    /\ dir_tree_stop_update w parent
       = on_tree (modify parent (set_h_dir_tree (Some kept))) w1
    /\ entry w1 parent = Some pe.
Proof.
  intros Hidx Hpe Hty Hl. unfold dir_tree_stop_update. rewrite Hpe, Hty, Hl.
  destruct (foreach_remove w l) as [kept w1] eqn:Hfr.
  exists kept, w1. repeat split.
  destruct (foreach_remove_spec l w w1 kept Hidx Hfr) as (_ & _ & _ & _ & I5 & _).
  apply I5; [done|]. by left.
Qed.

Lemma stop_update_idle (w : World) (parent : Z) :
  (forall pe l, entry w parent = Some pe -> type pe = DET_dir -> h_dir_tree pe <> Some l) ->
  dir_tree_stop_update w parent = w.
Proof.
  intros H. unfold dir_tree_stop_update.
  destruct (entry w parent) as [pe|] eqn:Hpe; [|done].
  destruct (type pe) eqn:Hty; [|done].
  destruct (h_dir_tree pe) as [l|] eqn:Hl; [|done].
  by destruct (H pe l).
Qed.

(** X1.  The sweep that ends a listing refresh destroys only stale files:
    an entry that is gone from the index after [dir_tree_stop_update] was a
    child of the swept directory, a file, not modified locally, older than
    its parent, and last accessed at least [dir_cache_max_time] seconds
    before the clock reading taken for it.  Every other entry is left as it
    was, except that the swept directory keeps only a sub-list of its
    links. *)
Theorem stop_update_removes_only_stale_files (w : World) (parent k : Z) (e : DirEntry) :
  index_ok (dtree w) ->
  entry w k = Some e ->
  match entry (dir_tree_stop_update w parent) k with
  | Some e' =>
      e' = e
      \/ (k = parent
          /\ exists kept, sublist kept (links e) /\ e' = set_h_dir_tree (Some kept) e)
  | None =>
      (exists pe name, entry w parent = Some pe /\ In (name, k) (links pe))
      /\ exists n, (ticks w <= n)%nat /\ sweepable w (clock w n) e
  end.
Proof.
  intros Hidx He.
  destruct (entry w parent) as [pe|] eqn:Hpe.
  2:{ rewrite stop_update_idle by (intros; congruence). rewrite He. by left. }
  destruct (type pe) eqn:Hty.
  2:{ rewrite stop_update_idle by (intros; congruence). rewrite He. by left. }
  destruct (h_dir_tree pe) as [l|] eqn:Hl.
  2:{ rewrite stop_update_idle by (intros; congruence). rewrite He. by left. }
  destruct (stop_update_spec w parent pe l Hidx Hpe Hty Hl) as (kept & w1 & Hfr & -> & Hp1).
  destruct (foreach_remove_spec l w w1 kept Hidx Hfr) as (_ & Hsl & I3 & I4 & _).
  wsimpl. rewrite lookup_modify. case_decide as Hk.
  - subst k. rewrite Hp1. cbn. rewrite Hpe in He. injection He as <-.
    right. split; [done|]. exists kept. split; [|done]. unfold links. by rewrite Hl.
  - destruct (h_inodes (dtree w1) !! k) as [e1|] eqn:He1.
    + left. pose proof (I3 k e1 He1) as H. rewrite He in H. by injection H.
    + destruct (I4 k e He He1) as [[name Hin] (n & Hn & Hsw)].
      split.
      * exists pe, name. split; [done|]. unfold links. by rewrite Hl.
      * exists n. split; [lia|done].
Qed.

(** X2.  The sweep keeps the children table and the index in step: when
    the links of the swept directory point to distinct entries, a link
    either stays in the table, with the entry it points to untouched, or
    leaves the table together with the entry, which is then stale; a link to
    a directory, to a modified entry or to an entry as recent as its parent
    always stays. *)
Theorem stop_update_unlinks_what_it_destroys (w : World) (parent : Z) (pe : DirEntry)
    (l : list (string * Z)) :
  index_ok (dtree w) ->
  entry w parent = Some pe -> type pe = DET_dir -> h_dir_tree pe = Some l ->
  NoDup (map snd l) -> ~ In parent (map snd l) ->
  let w' := dir_tree_stop_update w parent in
  exists kept,
    entry w' parent = Some (set_h_dir_tree (Some kept) pe)
    /\ sublist kept l
    /\ (forall name v, In (name, v) l ->
          (In (name, v) kept /\ entry w' v = entry w v)
          \/ (~ In (name, v) kept /\ entry w' v = None
              /\ exists e n, entry w v = Some e /\ (ticks w <= n)%nat
                             /\ sweepable w (clock w n) e))
    /\ (forall name v e, In (name, v) l -> entry w v = Some e -> shielded w e ->
          In (name, v) kept).
Proof.
  intros Hidx Hpe Hty Hl Hnd Hnp w'. unfold w'.
  destruct (stop_update_spec w parent pe l Hidx Hpe Hty Hl) as (kept & w1 & Hfr & -> & Hp1).
  destruct (foreach_remove_spec l w w1 kept Hidx Hfr)
    as (_ & Hsl & I3 & I4 & I5 & I6 & I7 & _).
  exists kept. wsimpl. split; [|split; [done|split; [|done]]].
  - exact (lookup_modify_eq _ _ (set_h_dir_tree (Some kept)) pe Hp1).
  - intros name v Hin.
    assert (Hne : parent <> v).
    { intros ->. apply Hnp. apply in_map_iff. by exists (name, v). }
    rewrite lookup_modify_ne by done.
    destruct (I7 Hnd name v Hin) as [[Hk Hv]|(Hk & Hv & [e He])]; [by left|].
    right. split; [done|]. split; [done|].
    destruct (I4 v e He Hv) as [_ (n & Hn & Hsw)].
    exists e, n. split; [done|]. split; [lia|done].
Qed.
Lemma world_stale_file_index_ok : index_ok (dtree world_stale_file).
Proof. unfold index_ok. apply map_Forall_to_list. vm_compute. repeat constructor. Qed.

(** The file "x" of the example is swept at the clock reading 200. *)
Lemma stop_update_removes_only_stale_files_witness :
  entry (dir_tree_stop_update world_stale_file 1) 2 = None
  /\ exists e n, entry world_stale_file 2 = Some e
                 /\ sweepable world_stale_file (clock world_stale_file n) e.
Proof.
  assert (He : entry world_stale_file 2
               = Some (mkDirEntry 2 1 "x" "x" DET_file 0 false false 10 33188 50 None 0 0
                         false None false 0 100 None None None 0))
    by (vm_compute; reflexivity).
  pose proof (stop_update_removes_only_stale_files world_stale_file 1 2 _
                world_stale_file_index_ok He) as H.
  assert (Hn : entry (dir_tree_stop_update world_stale_file 1) 2 = None)
    by (vm_compute; reflexivity).
  rewrite Hn in H. destruct H as [_ (n & _ & Hsw)].
  split; [done|]. eauto.
Defined.

(** ** Operations that add nothing to the tree *)

Lemma tle_modify (t t0 : DirTree) (p : Z) (f : DirEntry -> DirEntry) :
  (forall e, ident (f e) = ident e /\ incl (links (f e)) (links e)) ->
  tree_le t t0 -> tree_le (modify p f t) t0.
Proof. intros Hf Hle. eapply tree_le_trans; [by apply tree_le_modify|done]. Qed.

Lemma tle_entry_modified (t t0 : DirTree) (en : Z) :
  tree_le t t0 -> tree_le (dir_tree_entry_modified t en) t0.
Proof. intros Hle. eapply tree_le_trans; [apply tree_le_entry_modified|done]. Qed.

Lemma tle_start_update (t t0 : DirTree) (en : Z) :
  tree_le t t0 -> tree_le (dir_tree_start_update t en) t0.
Proof. intros Hle. unfold dir_tree_start_update. apply tle_modify; [keeps|done]. Qed.

Lemma tle_set_entry_exist (t t0 : DirTree) (i : Z) :
  tree_le t t0 -> tree_le (dir_tree_set_entry_exist t i) t0.
Proof.
  intros Hle. unfold dir_tree_set_entry_exist.
  repeat case_match; try done. apply tle_modify; [keeps|done].
Qed.

Lemma tle_is_cache_expired (w w1 : World) (en : DirEntry) (b : bool) (t0 : DirTree) :
  dir_tree_is_cache_expired w en = (b, w1) ->
  tree_le (dtree w) t0 -> tree_le (dtree w1) t0.
Proof.
  intros H Hle. pose proof (is_cache_expired_frame w en) as [Hd _].
  rewrite H in Hd. cbn in Hd. by rewrite Hd.
Qed.

#[local] Hint Resolve tree_le_refl tle_modify tle_entry_modified tle_start_update
  tle_set_entry_exist tle_is_cache_expired : tle.
#[local] Hint Extern 1 (forall e : DirEntry, ident _ = ident e /\ _) => keeps : tle.
#[local] Hint Extern 2 (tree_le (dtree _) _) => progress wsimpl : tle.

Lemma tle_fill_on_dir_buf_cb (w : World) (d : DirTreeFillDirData) (success : bool)
    (t0 : DirTree) :
  tree_le (dtree w) t0 -> tree_le (dtree (dir_tree_fill_on_dir_buf_cb w d success)) t0.
Proof.
  intros Hle. unfold dir_tree_fill_on_dir_buf_cb. wsimpl.
  repeat case_match; tle.
Qed.

Lemma tle_fill_dir_on_http_ready (w : World) (d : DirTreeFillDirData) (t0 : DirTree) :
  tree_le (dtree w) t0 -> tree_le (dtree (dir_tree_fill_dir_on_http_ready w d)) t0.
Proof.
  intros Hle. unfold dir_tree_fill_dir_on_http_ready. wsimpl.
  repeat case_match; tle.
Qed.

#[local] Hint Resolve tle_fill_on_dir_buf_cb tle_fill_dir_on_http_ready : tle.

Lemma tle_fill_dir_buf (w : World) (i sz off : Z) (cb : ReaddirCb) (req : Z)
    (fi : option Z) (t0 : DirTree) :
  tree_le (dtree w) t0 -> tree_le (dtree (dir_tree_fill_dir_buf w i sz off cb req fi)) t0.
Proof.
  intros Hle. unfold dir_tree_fill_dir_buf. wsimpl.
  repeat case_match; simplify_eq; tle.
Qed.

#[local] Hint Resolve tle_fill_dir_buf : tle.

Lemma tle_lookup (w : World) (parent : Z) (name : string) (req : Z) (t0 : DirTree) :
  tree_le (dtree w) t0 -> tree_le (dtree (dir_tree_lookup w parent name req)) t0.
Proof.
  intros Hle. unfold dir_tree_lookup. wsimpl.
  repeat case_match; simplify_eq; tle.
Qed.

#[local] Hint Resolve tle_lookup : tle.

Lemma tle_on_lookup_read (w : World) (op_data : LookupOpData) (success : bool)
    (t0 : DirTree) :
  tree_le (dtree w) t0 -> tree_le (dtree (dir_tree_on_lookup_read w op_data success)) t0.
Proof. intros Hle. unfold dir_tree_on_lookup_read. case_match; tle. Qed.

Lemma tle_entry_update_xattrs (w : World) (en : Z) (headers : Headers) (t0 : DirTree) :
  tree_le (dtree w) t0 -> tree_le (dtree (dir_tree_entry_update_xattrs w en headers)) t0.
Proof. intros Hle. unfold dir_tree_entry_update_xattrs. tle. Qed.

#[local] Hint Resolve tle_on_lookup_read tle_entry_update_xattrs : tle.

Lemma tle_on_lookup_cb (w : World) (op_data : LookupOpData) (success : bool)
    (headers : Headers) (t0 : DirTree) :
  tree_le (dtree w) t0 ->
  tree_le (dtree (dir_tree_on_lookup_cb w op_data success headers)) t0.
Proof.
  intros Hle. unfold dir_tree_on_lookup_cb. wsimpl.
  repeat case_match; simplify_eq; tle.
Qed.

Lemma tle_on_lookup_con_cb (w : World) (op_data : LookupOpData) (t0 : DirTree) :
  tree_le (dtree w) t0 -> tree_le (dtree (dir_tree_on_lookup_con_cb w op_data)) t0.
Proof.
  intros Hle. unfold dir_tree_on_lookup_con_cb. wsimpl. repeat case_match; tle.
Qed.

Lemma tle_on_lookup_not_found_con_cb (w : World) (op_data : LookupOpData) (t0 : DirTree) :
  tree_le (dtree w) t0 ->
  tree_le (dtree (dir_tree_on_lookup_not_found_con_cb w op_data)) t0.
Proof.
  intros Hle. unfold dir_tree_on_lookup_not_found_con_cb. wsimpl. repeat case_match; tle.
Qed.

Lemma tle_file_remove_on_con_data_cb (w : World) (data : FileRemoveData) (success : bool)
    (t0 : DirTree) :
  tree_le (dtree w) t0 ->
  tree_le (dtree (dir_tree_file_remove_on_con_data_cb w data success)) t0.
Proof.
  intros Hle. unfold dir_tree_file_remove_on_con_data_cb. wsimpl. repeat case_match; tle.
Qed.

Lemma tle_file_remove_on_con_cb (w : World) (data : FileRemoveData) (t0 : DirTree) :
  tree_le (dtree w) t0 -> tree_le (dtree (dir_tree_file_remove_on_con_cb w data)) t0.
Proof.
  intros Hle. unfold dir_tree_file_remove_on_con_cb. wsimpl. repeat case_match; tle.
Qed.

Lemma tle_file_remove (w : World) (i req : Z) (t0 : DirTree) :
  tree_le (dtree w) t0 -> tree_le (dtree (dir_tree_file_remove w i req)) t0.
Proof. intros Hle. unfold dir_tree_file_remove. wsimpl. repeat case_match; tle. Qed.

#[local] Hint Resolve tle_file_remove : tle.

Lemma tle_file_unlink (w : World) (parent : Z) (name : string) (req : Z) (t0 : DirTree) :
  tree_le (dtree w) t0 -> tree_le (dtree (dir_tree_file_unlink w parent name req)) t0.
Proof. intros Hle. unfold dir_tree_file_unlink. wsimpl. repeat case_match; tle. Qed.

Lemma tle_dir_remove (w : World) (parent : Z) (name : string) (t0 : DirTree) :
  tree_le (dtree w) t0 -> tree_le (dtree (snd (dir_tree_dir_remove w parent name))) t0.
Proof. intros Hle. unfold dir_tree_dir_remove. wsimpl. repeat case_match; tle. Qed.

Lemma tle_on_rename_delete_cb (w : World) (rdata : RenameData) (success : bool)
    (t0 : DirTree) :
  tree_le (dtree w) t0 -> tree_le (dtree (dir_tree_on_rename_delete_cb w rdata success)) t0.
Proof.
  intros Hle. unfold dir_tree_on_rename_delete_cb. wsimpl. repeat case_match; tle.
Qed.

Lemma tle_on_rename_delete_con_cb (w : World) (rdata : RenameData) (t0 : DirTree) :
  tree_le (dtree w) t0 -> tree_le (dtree (dir_tree_on_rename_delete_con_cb w rdata)) t0.
Proof.
  intros Hle. unfold dir_tree_on_rename_delete_con_cb. wsimpl. repeat case_match; tle.
Qed.

Lemma tle_on_rename_copy_cb (w : World) (rdata : RenameData) (success : bool)
    (t0 : DirTree) :
  tree_le (dtree w) t0 -> tree_le (dtree (dir_tree_on_rename_copy_cb w rdata success)) t0.
Proof.
  intros Hle. unfold dir_tree_on_rename_copy_cb. wsimpl. repeat case_match; tle.
Qed.

Lemma tle_on_rename_copy_con_cb (w : World) (rdata : RenameData) (t0 : DirTree) :
  tree_le (dtree w) t0 -> tree_le (dtree (dir_tree_on_rename_copy_con_cb w rdata)) t0.
Proof.
  intros Hle. unfold dir_tree_on_rename_copy_con_cb. wsimpl. repeat case_match; tle.
Qed.

Lemma tle_rename (w : World) (parent : Z) (name : string) (newparent : Z)
    (newname : string) (req : Z) (t0 : DirTree) :
  tree_le (dtree w) t0 ->
  tree_le (dtree (dir_tree_rename w parent name newparent newname req)) t0.
Proof. intros Hle. unfold dir_tree_rename. wsimpl. repeat case_match; tle. Qed.

Lemma tle_file_write (w : World) (i : Z) (buf : list Byte.byte) (sz off req fh : Z)
    (t0 : DirTree) :
  tree_le (dtree w) t0 ->
  tree_le (dtree (snd (dir_tree_file_write w i buf sz off req fh))) t0.
Proof. intros Hle. unfold dir_tree_file_write. wsimpl. repeat case_match; tle. Qed.

Lemma tle_on_buffer_written_cb (w : World) (op_data : FileWriteOpData) (success : bool)
    (count len : Z) (t0 : DirTree) :
  tree_le (dtree w) t0 ->
  tree_le (dtree (snd (dir_tree_on_buffer_written_cb w op_data success count len))) t0.
Proof.
  intros Hle. unfold dir_tree_on_buffer_written_cb. wsimpl. repeat case_match; tle.
Qed.

Lemma tle_getxattr (w : World) (i : Z) (name : string) (sz req : Z) (t0 : DirTree) :
  tree_le (dtree w) t0 -> tree_le (dtree (snd (dir_tree_getxattr w i name sz req))) t0.
Proof. intros Hle. unfold dir_tree_getxattr. wsimpl. repeat case_match; tle. Qed.

Lemma tle_on_getxattr_cb (w : World) (xattr_data : XAttrData) (success : bool)
    (headers : Headers) (t0 : DirTree) :
  tree_le (dtree w) t0 ->
  tree_le (dtree (snd (dir_tree_on_getxattr_cb w xattr_data success headers))) t0.
Proof.
  intros Hle. unfold dir_tree_on_getxattr_cb. wsimpl. repeat case_match; tle.
Qed.

Lemma stop_update_entries_sub (w : World) (parent k : Z) (e' : DirEntry) :
  index_ok (dtree w) ->
  entry (dir_tree_stop_update w parent) k = Some e' ->
  exists e, entry w k = Some e
    /\ (e' = e
        \/ (k = parent
            /\ exists kept, sublist kept (links e) /\ e' = set_h_dir_tree (Some kept) e)).
Proof.
  intros Hidx.
  destruct (entry w parent) as [pe|] eqn:Hpe.
  2:{ rewrite stop_update_idle by (intros; congruence). eauto. }
  destruct (type pe) eqn:Hty.
  2:{ rewrite stop_update_idle by (intros; congruence). eauto. }
  destruct (h_dir_tree pe) as [l|] eqn:Hl.
  2:{ rewrite stop_update_idle by (intros; congruence). eauto. }
  destruct (stop_update_spec w parent pe l Hidx Hpe Hty Hl) as (kept & w1 & Hfr & -> & Hp1).
  destruct (foreach_remove_spec l w w1 kept Hidx Hfr) as (_ & Hsl & I3 & _).
  wsimpl. rewrite lookup_modify. case_decide as Hk.
  - subst k. rewrite Hp1. cbn. intros [= <-]. exists pe. split; [done|].
    right. split; [done|]. exists kept. split; [|done]. unfold links. by rewrite Hl.
  - intros He. exists e'. split; [by apply I3|by left].
Qed.

Lemma max_ino_stop_update (w : World) (parent : Z) :
  index_ok (dtree w) ->
  max_ino (dtree (dir_tree_stop_update w parent)) = max_ino (dtree w).
Proof.
  intros Hidx. unfold dir_tree_stop_update. repeat case_match; try done. wsimpl.
  rewrite max_ino_modify.
  match goal with H : foreach_remove _ _ = _ |- _ =>
    destruct (foreach_remove_spec _ _ _ _ Hidx H) as (-> & _) end.
  done.
Qed.

Lemma destroyed_stop_update (w : World) (parent : Z) :
  index_ok (dtree w) ->
  destroyed (dtree (dir_tree_stop_update w parent)) = destroyed (dtree w).
Proof.
  intros Hidx. unfold dir_tree_stop_update. repeat case_match; try done. wsimpl.
  rewrite destroyed_modify.
  match goal with H : foreach_remove _ _ = _ |- _ =>
    destruct (foreach_remove_spec _ _ _ _ Hidx H) as (-> & _) end.
  done.
Qed.

Lemma tle_stop_update (w : World) (parent : Z) (t0 : DirTree) :
  index_ok (dtree w) ->
  tree_le (dtree w) t0 -> tree_le (dtree (dir_tree_stop_update w parent)) t0.
Proof.
  intros Hidx Hle. eapply tree_le_trans; [|exact Hle].
  split; [split; [by apply max_ino_stop_update|by apply destroyed_stop_update]|].
  intros k e He.
  destruct (stop_update_entries_sub w parent k e Hidx He)
    as (e0 & He0 & [->|(-> & kept & Hsl & ->)]).
  - exists e0. by split; [|split; [|apply incl_refl]].
  - exists e0. split; [done|]. split; [done|].
    intros x Hx. apply list_elem_of_In. apply (elem_of_sublist kept); [|done].
    by apply list_elem_of_In.
Qed.

(** ** Operations that may add an entry *)

Lemma tree_step_of_le (t' t : DirTree) : tree_le t' t -> tree_step t' t.
Proof.
  intros Hle. split; [|intros Hok _; exact (tree_ok_le _ _ Hle Hok)].
  destruct Hle as [[Hm Hd] Hle].
  split; [split; [by left|exists []; by rewrite app_nil_r]|].
  intros k e He. left. destruct (Hle k e He) as (e0 & He0 & Hi & _). eauto.
Qed.

Lemma tree_step_le (t'' t' t : DirTree) :
  tree_le t'' t' -> tree_step t' t -> tree_step t'' t.
Proof.
  intros Hle [[[Hm [l Hd]] Hext] Hok]. split.
  - destruct Hle as [[Hm' Hd'] Hle].
    split; [split; [by rewrite Hm'|exists l; by rewrite Hd']|].
    intros k e He. destruct (Hle k e He) as (e1 & He1 & Hi1 & _).
    rewrite Hm'. destruct (Hext k e1 He1) as [(e0 & He0 & Hi0)|H]; [|by right].
    left. exists e0. split; [done|congruence].
  - intros H1 H2. eapply tree_ok_le; [exact Hle|by apply Hok].
Qed.

Lemma tree_step_add_entry (w w' : World) (name : string) (md : Z) (ty : DirEntryType)
    (parent sz ct : Z) (o : option Z) :
  dir_tree_add_entry w name md ty parent sz ct = (o, w') ->
  tree_step (dtree w') (dtree w).
Proof.
  intros Hadd. split; [|exact (tree_ok_add_entry _ _ _ _ _ _ _ _ _ Hadd)].
  revert Hadd. unfold dir_tree_add_entry.
  destruct (negb (parent =? 0) && bool_decide _);
    [intros [= _ <-]; by apply tree_step_of_le, tree_le_refl|].
  destruct (match (if parent =? 0 then None else h_inodes (dtree w) !! parent) with
            | Some pe => _ | None => false end);
    [intros [= _ <-]; by apply tree_step_of_le, tree_le_refl|].
  wsimpl. intros [= _ <-]. wsimpl.
  destruct (parent =? 0) eqn:Hp0.
  - split; [split; [by right|exists []; by rewrite app_nil_r]|].
    cbn. intros k e [[<- <-]|[Hne He]]%lookup_insert_Some.
    + by right.
    + left. eauto.
  - set (t1 := dir_tree_entry_modified (dtree w) parent).
    assert (Hm1 : max_ino t1 = max_ino (dtree w)) by apply max_ino_entry_modified.
    rewrite modify_mark_destroyed, entry_modified_mark_destroyed. unfold tree_ext.
    rewrite max_ino_mark_destroyed, h_inodes_mark_destroyed.
    split.
    + split.
      * right. rewrite max_ino_entry_modified, max_ino_modify. cbn. by rewrite Hm1.
      * eexists. rewrite destroyed_mark_destroyed.
        rewrite destroyed_entry_modified, destroyed_modify. cbn [destroyed set_h_inodes
          set_max_ino]. unfold t1. rewrite destroyed_entry_modified. reflexivity.
    + intros k e He. rewrite max_ino_entry_modified, max_ino_modify. cbn. rewrite Hm1.
      apply (f_equal (fmap ident)) in He.
      rewrite proj_entry_modified, proj_modify in He by done.
      cbn in He. destruct (decide (k = max_ino t1)) as [->|Hne].
      * right. by rewrite Hm1.
      * left. rewrite lookup_insert_ne in He by done. unfold t1 in He.
        rewrite proj_entry_modified in He by done.
        destruct (h_inodes (dtree w) !! k) as [e0|]; [|done].
        exists e0. split; [done|]. simpl in He. injection He as He. unfold ident. congruence.
Qed.

Lemma tree_step_update_entry (w : World) (ty : DirEntryType) (parent : Z)
    (entry_name : string) (sz mtime : Z) :
  tree_step (dtree (snd (dir_tree_update_entry w ty parent entry_name sz mtime))) (dtree w).
Proof.
  unfold dir_tree_update_entry.
  destruct (entry w parent) as [parent_en|]; [|by apply tree_step_of_le, tree_le_refl].
  destruct (type parent_en); [|by apply tree_step_of_le, tree_le_refl].
  destruct (child (dtree w) parent_en entry_name) as [[p en]|]; cbn [snd].
  - apply tree_step_of_le. tle.
  - match goal with |- context [dir_tree_add_entry ?a ?b ?c ?d ?e ?f ?g] =>
      destruct (dir_tree_add_entry a b c d e f g) as [o w'] eqn:Hadd end.
    exact (tree_step_add_entry _ _ _ _ _ _ _ _ _ Hadd).
Qed.

Lemma tree_step_on_lookup_not_found_cb (w : World) (op_data : LookupOpData)
    (success : bool) (headers : Headers) :
  tree_step (dtree (dir_tree_on_lookup_not_found_cb w op_data success headers)) (dtree w).
Proof.
  unfold dir_tree_on_lookup_not_found_cb. wsimpl.
  destruct (h_inodes (dtree w) !! lo_parent_ino op_data);
    [|by apply tree_step_of_le, tree_le_refl].
  destruct success; cbn [negb].
  - match goal with |- context [dir_tree_update_entry ?a ?b ?c ?d ?e ?f] =>
      pose proof (tree_step_update_entry a b c d e f) as Hu;
      destruct (dir_tree_update_entry a b c d e f) as [o w'] eqn:Hupd end.
    cbn [snd] in Hu. wsimpl. destruct o as [p|]; [|by wsimpl].
    eapply tree_step_le; [|exact Hu]. repeat case_match; tle.
  - match goal with |- context [dir_tree_add_entry ?a ?b ?c ?d ?e ?f ?g] =>
      destruct (dir_tree_add_entry a b c d e f g) as [o w'] eqn:Hadd end.
    pose proof (tree_step_add_entry _ _ _ _ _ _ _ _ _ Hadd) as Ha. wsimpl.
    eapply tree_step_le; [|exact Ha]. destruct o; tle.
Qed.

Lemma tree_step_file_create (w : World) (parent : Z) (name : string) (md req : Z) :
  tree_step (dtree (dir_tree_file_create w parent name md req)) (dtree w).
Proof.
  unfold dir_tree_file_create. wsimpl.
  destruct (h_inodes (dtree w) !! parent) as [dir_en|];
    [|by apply tree_step_of_le, tree_le_refl].
  destruct (type dir_en); [|by apply tree_step_of_le, tree_le_refl].
  destruct (child (dtree w) dir_en name) as [[p en]|].
  - apply tree_step_of_le. wsimpl. repeat case_match; tle.
  - match goal with |- context [dir_tree_add_entry ?a ?b ?c ?d ?e ?f ?g] =>
      destruct (dir_tree_add_entry a b c d e f g) as [o w'] eqn:Hadd end.
    pose proof (tree_step_add_entry _ _ _ _ _ _ _ _ _ Hadd) as Ha. wsimpl.
    eapply tree_step_le; [|exact Ha]. repeat case_match; tle.
Qed.

Lemma tree_step_dir_create (w : World) (parent : Z) (name : string) (md req : Z) :
  tree_step (dtree (dir_tree_dir_create w parent name md req)) (dtree w).
Proof.
  unfold dir_tree_dir_create. wsimpl.
  destruct (h_inodes (dtree w) !! parent) as [dir_en|];
    [|by apply tree_step_of_le, tree_le_refl].
  destruct (type dir_en); [|by apply tree_step_of_le, tree_le_refl].
  destruct (child (dtree w) dir_en name) as [[p en]|].
  - apply tree_step_of_le. wsimpl. repeat case_match; tle.
  - match goal with |- context [dir_tree_add_entry ?a ?b ?c ?d ?e ?f ?g] =>
      destruct (dir_tree_add_entry a b c d e f g) as [o w'] eqn:Hadd end.
    pose proof (tree_step_add_entry _ _ _ _ _ _ _ _ _ Hadd) as Ha. wsimpl.
    eapply tree_step_le; [|exact Ha]. repeat case_match; tle.
Qed.

Lemma tree_step_create_symlink (w : World) (parent : Z) (fname link : string) (req : Z) :
  tree_step (dtree (snd (dir_tree_create_symlink w parent fname link req))) (dtree w).
Proof.
  unfold dir_tree_create_symlink. wsimpl.
  destruct (h_inodes (dtree w) !! parent) as [dir_en|];
    [|by apply tree_step_of_le, tree_le_refl].
  destruct (type dir_en); [|by apply tree_step_of_le, tree_le_refl].
  destruct (child (dtree w) dir_en fname) as [[p en]|].
  - apply tree_step_of_le. wsimpl. repeat case_match; cbn [snd]; tle.
  - match goal with |- context [dir_tree_add_entry ?a ?b ?c ?d ?e ?f ?g] =>
      destruct (dir_tree_add_entry a b c d e f g) as [o w'] eqn:Hadd end.
    pose proof (tree_step_add_entry _ _ _ _ _ _ _ _ _ Hadd) as Ha. wsimpl.
    eapply tree_step_le; [|exact Ha]. repeat case_match; cbn [snd]; tle.
Qed.

(** [dir_tree_create] makes a well-formed tree. *)
Lemma tree_ok_create (c : Conf) (w : World) : tree_ok (dtree (dir_tree_create c w)).
Proof.
  unfold dir_tree_create. wsimpl.
  match goal with |- context [dir_tree_add_entry ?a ?b ?c ?d ?e ?f ?g] =>
    destruct (dir_tree_add_entry a b c d e f g) as [o w'] eqn:Hadd end.
  assert (Ha : tree_ok (dtree w')).
  { apply (tree_ok_add_entry _ _ _ _ _ _ _ _ _ Hadd); wsimpl.
    - by split; cbn.
    - unfold roomy. cbn. unfold FUSE_ROOT_ID. lia. }
  destruct Ha as [H1 H2 H3 H4 H5 H6]. wsimpl. by split.
Qed.

(** ** Every entry point keeps the tree well-formed *)

Lemma run_op_step (w : World) (o : Op) :
  index_ok (dtree w) -> tree_step (dtree (run_op w o)) (dtree w).
Proof.
  intros Hidx. destruct o; cbn [run_op].
  - apply tree_step_update_entry.
  - apply tree_step_of_le. tle.
  - apply tree_step_of_le. apply tle_stop_update; [done|apply tree_le_refl].
  - apply tree_step_of_le. tle.
  - apply tree_step_of_le. unfold dir_tree_opendir. case_match; tle.
  - apply tree_step_of_le. unfold dir_tree_releasedir. cbn [snd]. case_match; tle.
  - apply tree_step_of_le. tle.
  - apply tree_step_of_le. tle.
  - apply tree_step_of_le. tle.
  - apply tree_step_of_le. tle.
  - apply tree_step_file_create.
  - apply tree_step_of_le, tle_file_write, tree_le_refl.
  - apply tree_step_of_le, tle_on_buffer_written_cb, tree_le_refl.
  - apply tree_step_of_le. tle.
  - apply tree_step_of_le, tle_file_unlink, tree_le_refl.
  - apply tree_step_of_le, tle_dir_remove, tree_le_refl.
  - apply tree_step_dir_create.
  - apply tree_step_of_le, tle_rename, tree_le_refl.
  - apply tree_step_of_le, tle_getxattr, tree_le_refl.
  - apply tree_step_of_le, tle_on_getxattr_cb, tree_le_refl.
  - apply tree_step_create_symlink.
  - destruct cb; cbn [deliver_client]; apply tree_step_of_le.
    + tle.
    + apply tle_on_lookup_con_cb, tree_le_refl.
    + apply tle_on_lookup_not_found_con_cb, tree_le_refl.
    + apply tle_file_remove_on_con_cb, tree_le_refl.
    + apply tle_on_rename_copy_con_cb, tree_le_refl.
    + apply tle_on_rename_delete_con_cb, tree_le_refl.
  - destruct cb; cbn [deliver_http].
    + apply tree_step_of_le, tle_on_lookup_cb, tree_le_refl.
    + apply tree_step_on_lookup_not_found_cb.
    + apply tree_step_of_le, tle_file_remove_on_con_data_cb, tree_le_refl.
    + apply tree_step_of_le, tle_on_rename_copy_cb, tree_le_refl.
    + apply tree_step_of_le, tle_on_rename_delete_cb, tree_le_refl.
Qed.

Lemma run_op_tree_ok (w : World) (o : Op) :
  tree_ok (dtree w) -> roomy (dtree w) -> tree_ok (dtree (run_op w o)).
Proof.
  intros Hok Hroom. destruct (run_op_step w o (ok_index _ Hok)) as [_ H]. by apply H.
Qed.

Lemma run_op_max_ino (w : World) (o : Op) :
  tree_ok (dtree w) -> roomy (dtree w) ->
  max_ino (dtree w) <= max_ino (dtree (run_op w o)) <= max_ino (dtree w) + 1.
Proof.
  intros Hok Hroom. destruct (run_op_step w o (ok_index _ Hok)) as [[[Hm _] _] _].
  assert (Hw : wrap64 (max_ino (dtree w) + 1) = max_ino (dtree w) + 1).
  { unfold wrap64, roomy in *. apply Z.mod_small. destruct Hok. lia. }
  rewrite Hw in Hm. lia.
Qed.

Lemma run_ops_tree_ok (ops : list Op) (w : World) :
  tree_ok (dtree w) -> max_ino (dtree w) + Z.of_nat (length ops) < 2 ^ 64 ->
  tree_ok (dtree (fold_left run_op ops w))
  /\ max_ino (dtree (fold_left run_op ops w)) <= max_ino (dtree w) + Z.of_nat (length ops).
Proof.
  revert w. induction ops as [|o ops IH]; intros w Hok Hlen; cbn [fold_left length] in *.
  - split; [done|lia].
  - rewrite Nat2Z.inj_succ in *.
    assert (Hroom : roomy (dtree w)) by (unfold roomy; lia).
    pose proof (run_op_max_ino w o Hok Hroom) as Hm.
    destruct (IH (run_op w o)) as [H1 H2]; [by apply run_op_tree_ok|lia|].
    split; [done|lia].
Qed.

Lemma max_ino_create (c : Conf) (w : World) : max_ino (dtree (dir_tree_create c w)) = 2.
Proof. reflexivity. Qed.

Lemma run_ops_destroyed (ops : list Op) (w : World) :
  tree_ok (dtree w) -> max_ino (dtree w) + Z.of_nat (length ops) < 2 ^ 64 ->
  exists l, destroyed (dtree (fold_left run_op ops w)) = destroyed (dtree w) ++ l.
Proof.
  revert w. induction ops as [|o ops IH]; intros w Hok Hlen; cbn [fold_left length] in *.
  - exists []. by rewrite app_nil_r.
  - rewrite Nat2Z.inj_succ in *.
    assert (Hroom : roomy (dtree w)) by (unfold roomy; lia).
    pose proof (run_op_max_ino w o Hok Hroom) as Hm.
    destruct (run_op_step w o (ok_index _ Hok)) as [[[_ [l1 Hd1]] _] _].
    destruct (IH (run_op w o)) as [l2 Hd2]; [by apply run_op_tree_ok|lia|].
    exists (l1 ++ l2). by rewrite Hd2, Hd1, app_assoc.
Qed.

(** X3.  Well-formedness is an invariant of the tree as long as no entry
    is destroyed behind the index.  The list [destroyed] only grows; so when
    it is empty after [dir_tree_create] and a sequence of calls of the entry
    points, it was empty after every call of the sequence: no
    [g_hash_table_insert] has replaced and freed an entry that the index
    still holds, and every record of the arena is a live entry.  Then every
    entry of the index is stored under its own inode number, which is
    positive, below [max_ino] and above its parent's; its path is its name
    under its parent's path; and every link of a children table carries the
    name and the parent of the entry it points to.  (The bound keeps
    [max_ino] from wrapping around.  A run that does destroy an entry is
    [second_failed_head_destroys_the_tombstone].) *)
Theorem reachable_tree_is_well_formed (c : Conf) (w0 : World) (ops : list Op) :
  2 + Z.of_nat (length ops) < 2 ^ 64 ->
  destroyed (dtree (fold_left run_op ops (dir_tree_create c w0))) = [] ->
  tree_ok (dtree (fold_left run_op ops (dir_tree_create c w0)))
  /\ forall n,
       destroyed (dtree (fold_left run_op (take n ops) (dir_tree_create c w0))) = [].
Proof.
  intros Hlen Hd. split.
  - apply run_ops_tree_ok; [apply tree_ok_create|]. by rewrite max_ino_create.
  - intros n. rewrite <- (take_drop n ops), fold_left_app in Hd.
    assert (Hn : (length (take n ops) <= length ops)%nat) by (rewrite length_take; lia).
    assert (Hm : (length (take n ops) + length (drop n ops) = length ops)%nat)
      by (rewrite <- length_app, take_drop; done).
    destruct (run_ops_tree_ok (take n ops) (dir_tree_create c w0)) as [Hok Hmax];
      [apply tree_ok_create|rewrite max_ino_create; lia|].
    rewrite max_ino_create in Hmax.
    destruct (run_ops_destroyed (drop n ops) _ Hok) as [l Hl]; [lia|].
    rewrite Hl in Hd. by apply app_eq_nil in Hd as [? _].
Qed.

Lemma reachable_tree_is_well_formed_witness :
  tree_ok
    (dtree
       (fold_left run_op
          [op_dir_create 1 "a" 0 1; op_file_create 2 "f" 33188 2;
           op_file_unlink 2 "f" 3; op_stop_update 2]
          (dir_tree_create (example_conf 10 5) world_root_only))).
Proof.
  apply (reachable_tree_is_well_formed (example_conf 10 5) world_root_only
           [op_dir_create 1 "a" 0 1; op_file_create 2 "f" 33188 2;
            op_file_unlink 2 "f" 3; op_stop_update 2]).
  - vm_compute. reflexivity.
  - vm_compute. reflexivity.
Defined.

(** The second failed HEAD for one name: [dir_tree_add_entry] puts a new
    tombstone (inode 3) in the place of the first (inode 2) in the table of
    the root, which destroys the first, and the index still holds it. *)
Lemma second_failed_head_destroys_the_tombstone :
  destroyed (dtree world_tombstone_m) = []
  /\ destroyed (dtree world_tombstone_twice) = [2]
  /\ ino <$> entry world_tombstone_twice 2 = Some 2
  /\ h_dir_tree <$> entry world_tombstone_twice 1 = Some (Some [("m"%string, 3)]).
Proof. repeat split; vm_compute; reflexivity. Qed.

(** X4.  No entry point changes what an entry is, short of destroying it.
    An operation on a well-formed tree at most adds to the list of the
    entries destroyed behind the index; and when that list is empty after
    the operation (so no entry has been freed while the index holds it), an
    entry found in the index after the operation either was there before
    with the same inode number, parent, name and path, or is the one new
    entry, stored at the inode number [max_ino] that was unused before,
    after which [max_ino] is one higher. *)
Theorem run_op_keeps_identities (w : World) (o : Op) :
  tree_ok (dtree w) -> roomy (dtree w) ->
  (exists l, destroyed (dtree (run_op w o)) = destroyed (dtree w) ++ l)
  /\ (destroyed (dtree (run_op w o)) = [] ->
      forall k e', entry (run_op w o) k = Some e' ->
        (exists e, entry w k = Some e /\ ino e' = ino e /\ parent_ino e' = parent_ino e
                   /\ basename e' = basename e /\ fullpath e' = fullpath e)
        \/ (entry w k = None /\ k = max_ino (dtree w) /\ ino e' = k
            /\ max_ino (dtree (run_op w o)) = k + 1)).
Proof.
  intros Hok Hroom.
  destruct (run_op_step w o (ok_index _ Hok)) as [[[_ Hd] Hext] Hok'].
  specialize (Hok' Hok Hroom). split; [exact Hd|].
  intros _ k e' He.
  destruct (Hext k e' He) as [(e & He0 & [= H1 H2 H3 H4])|[-> Hm]].
  - left. exists e. by repeat split.
  - right. assert (Hw : wrap64 (max_ino (dtree w) + 1) = max_ino (dtree w) + 1).
    { unfold wrap64, roomy in *. apply Z.mod_small. destruct Hok. lia. }
    repeat split.
    + destruct (entry w (max_ino (dtree w))) as [e|] eqn:Hfree; [|done].
      destruct (ok_alloc _ Hok _ _ Hfree). lia.
    + exact (ok_index _ Hok' _ _ He).
    + by rewrite Hm, Hw.
Qed.

Lemma run_op_keeps_identities_witness :
  exists e', entry (run_op world_root_only (op_file_create 1 "f" 33188 1)) 2 = Some e'
             /\ ino e' = 2.
Proof.
  assert (Hok : tree_ok (dtree world_root_only)) by apply tree_ok_create.
  assert (Hroom : roomy (dtree world_root_only)) by (vm_compute; reflexivity).
  assert (Hd : destroyed (dtree (run_op world_root_only (op_file_create 1 "f" 33188 1))) = [])
    by (vm_compute; reflexivity).
  eassert (He' : entry (run_op world_root_only (op_file_create 1 "f" 33188 1)) 2 = Some _)
    by (vm_compute; reflexivity).
  destruct (run_op_keeps_identities world_root_only (op_file_create 1 "f" 33188 1) Hok Hroom)
    as [_ H].
  eexists. split; [exact He'|].
  destruct (H Hd _ _ He') as [(e & He & _)|(_ & _ & Hi & _)]; [|exact Hi].
  vm_compute in He. discriminate.
Defined.

Lemma stop_update_unlinks_what_it_destroys_witness :
  exists pe kept,
    entry world_stale_file 1 = Some pe
    /\ entry (dir_tree_stop_update world_stale_file 1) 1
       = Some (set_h_dir_tree (Some kept) pe)
    /\ sublist kept [("x"%string, 2)].
Proof.
  destruct (entry world_stale_file 1) as [pe|] eqn:Hpe; [|vm_compute in Hpe; discriminate].
  assert (Hty : type pe = DET_dir)
    by (vm_compute in Hpe; injection Hpe as <-; reflexivity).
  assert (Hl : h_dir_tree pe = Some [("x"%string, 2)])
    by (vm_compute in Hpe; injection Hpe as <-; reflexivity).
  assert (Hnd : NoDup (map snd [("x"%string, 2)])) by apply NoDup_singleton.
  assert (Hnp : ~ In 1 (map snd [("x"%string, 2)])) by (cbn; intros [H|[]]; discriminate).
  destruct (stop_update_unlinks_what_it_destroys world_stale_file 1 pe _
              world_stale_file_index_ok Hpe Hty Hl Hnd Hnp) as (kept & H1 & H2 & _).
  exists pe, kept. by repeat split.
Defined.

(** ** What a listing does to one name *)

Lemma children_find_In (name : string) (p : Z) (l : list (string * Z)) :
  children_find name l = Some p -> In (name, p) l.
Proof.
  induction l as [|[k v] l IH]; simpl; [done|].
  destruct (String.eqb k name) eqn:Hk.
  - apply String.eqb_eq in Hk. intros [= <-]. left. by subst.
  - intros H. right. by apply IH.
Qed.

(** A link of a well-formed tree points below its directory. *)
Lemma tree_ok_child_ne (t : DirTree) (parent : Z) (pe : DirEntry) (name : string)
    (p : Z) (e : DirEntry) :
  tree_ok t -> h_inodes t !! parent = Some pe -> child t pe name = Some (p, e) ->
  parent_ino e = parent /\ basename e = name /\ ino e = p /\ parent < p.
Proof.
  intros Hok Hpe [Hl He]%child_Some.
  assert (Hin : In (name, p) (links pe)).
  { unfold links. destruct (h_dir_tree pe) as [l|]; [|done]. by apply children_find_In. }
  destruct (ok_links _ Hok _ _ _ _ Hpe Hin) as [_ Hc].
  destruct (Hc e He) as [Hb Hp]. destruct (ok_alloc _ Hok _ _ He) as [Ha _].
  repeat split; try done; [exact (ok_index _ Hok _ _ He)|lia].
Qed.

(** X5.  What [dir_tree_update_entry] does with a name reported by a
    listing of the directory [parent]: the name is linked under the
    directory afterwards, and its entry has the reported size as the
    unsigned 64-bit field holds it (the size modulo 2^64: a size of -1 is
    stored as 2^64 - 1), is not removed and has the directory's age, so that
    the next directory buffer shows it.  A known name keeps its entry and its
    inode: only [age], [size] and [removed] are written, so the type and the
    modification time that the listing reports are not taken over.  An
    unknown name gets a new entry of the reported type at the inode number
    [max_ino]. *)
Theorem update_entry_lists_the_entry (w : World) (ty : DirEntryType) (parent : Z)
    (name : string) (sz mtime : Z) (pe : DirEntry) (l : list (string * Z)) :
  tree_ok (dtree w) ->
  entry w parent = Some pe -> type pe = DET_dir -> h_dir_tree pe = Some l ->
  exists p w' pe' e',
    dir_tree_update_entry w ty parent name sz mtime = (Some p, w')
    /\ entry w' parent = Some pe' /\ age pe' = age pe
    /\ g_hash_table_lookup (h_dir_tree pe') name = Some p
    /\ entry w' p = Some e'
    /\ visible_not_older pe' e' = true /\ size e' = wrap64 sz
    /\ match child (dtree w) pe name with
       | Some (p0, e0) =>
           p = p0 /\ e' = set_removed false (set_size (wrap64 sz) (set_age (age pe) e0))
       | None => p = max_ino (dtree w) /\ ino e' = p /\ type e' = ty
       end.
Proof.
  intros Hok Hpe Hty Hl. unfold dir_tree_update_entry. rewrite Hpe, Hty.
  destruct (child (dtree w) pe name) as [[p0 e0]|] eqn:Hc.
  - destruct (tree_ok_child_ne _ _ _ _ _ _ Hok Hpe Hc) as (_ & _ & _ & Hlt).
    apply child_Some in Hc as [Hf He0].
    eexists p0, _, pe, _. split; [reflexivity|]. wsimpl.
    rewrite lookup_modify_ne by lia.
    split; [done|]. split; [done|]. split; [done|].
    split; [exact (lookup_modify_eq _ _ _ _ He0)|].
    split; [|done]. unfold visible_not_older. cbn.
    apply andb_true_intro. split; [lia|done].
  - assert (Hp0 : parent <> 0).
    { intros ->. destruct (ok_alloc _ Hok _ _ Hpe). lia. }
    assert (Hfree : entry w (max_ino (dtree w)) = None).
    { destruct (entry w (max_ino (dtree w))) as [e|] eqn:He; [|done].
      destruct (ok_alloc _ Hok _ _ He). lia. }
    destruct (dir_tree_add_entry_under w name
                (match ty with DET_file => fmode (dtree w) | DET_dir => dmode (dtree w) end)
                ty parent sz mtime pe Hp0 Hpe Hfree)
      as (w' & Hadd & _ & (e & He & Hi & _ & Hty' & Hage & Hrm & _ & Hsz)
          & (pe' & Hpe' & Hage' & _ & _ & Htbl) & _).
    { intros p e. rewrite Hc. done. }
    exists (max_ino (dtree w)), w', pe', e. split; [exact Hadd|].
    split; [done|]. split; [done|]. split.
    { rewrite Htbl, Hl. cbn. apply children_find_replace. }
    split; [done|]. split; [|done].
    unfold visible_not_older. rewrite Hage, Hage', Hrm.
    apply andb_true_intro. split; [lia|done].
Qed.

Lemma update_entry_lists_the_entry_witness :
  exists p w' pe' e',
    dir_tree_update_entry world_root_only DET_file 1 "x" (-1) 50 = (Some p, w')
    /\ entry w' 1 = Some pe' /\ entry w' p = Some e'
    /\ visible_not_older pe' e' = true
    /\ size e' = 18446744073709551615.
Proof.
  assert (Hok : tree_ok (dtree world_root_only)) by apply tree_ok_create.
  destruct (entry world_root_only 1) as [pe|] eqn:Hpe; [|vm_compute in Hpe; discriminate].
  assert (Hty : type pe = DET_dir)
    by (vm_compute in Hpe; injection Hpe as <-; reflexivity).
  assert (Hl : h_dir_tree pe = Some [])
    by (vm_compute in Hpe; injection Hpe as <-; reflexivity).
  destruct (update_entry_lists_the_entry world_root_only DET_file 1 "x" (-1) 50 pe []
              Hok Hpe Hty Hl) as (p & w' & pe' & e' & H1 & H2 & _ & _ & H3 & H4 & H5 & _).
  exists p, w', pe', e'. by repeat split.
Defined.

(** ** How long a listing stays fresh *)

Lemma fill_on_dir_buf_cb_clock (w : World) (d : DirTreeFillDirData) (en : DirEntry) :
  entry w (fd_ino d) = Some en ->
  let w' := dir_tree_fill_on_dir_buf_cb w d true in
  ticks w' = S (ticks w) /\ clock w' = clock w /\ app (dtree w') = app (dtree w).
Proof.
  intros Hen. unfold dir_tree_fill_on_dir_buf_cb. rewrite Hen. wsimpl.
  rewrite (lookup_modify_eq _ _ _ en Hen).
  unfold dop_of. wsimpl. repeat case_match; wsimpl; by rewrite !app_modify.
Qed.

(** X6.  A listing that has just been built is fresh for
    [dir_cache_max_time] seconds: after a successful
    [dir_tree_fill_on_dir_buf_cb], which stamps the cache with the clock
    reading [stamp], the expiry test made at the next reading [t] says
    "expired" exactly when [t - stamp] exceeds [dir_cache_max_time].  Two
    edges: when the clock has gone back ([t < stamp]) the cache never counts
    as expired, and a stamp of 0 counts as "never filled", so the cache is
    expired at once. *)
Theorem built_listing_is_fresh (w : World) (d : DirTreeFillDirData) (en : DirEntry) :
  entry w (fd_ino d) = Some en ->
  (forall b name j s, (length b < length (rfuse_add_dirbuf w b name j s))%nat) ->
  let w' := dir_tree_fill_on_dir_buf_cb w d true in
  let stamp := clock w (ticks w) in
  let t := clock w (S (ticks w)) in
  exists en',
    entry w' (fd_ino d) = Some en'
    /\ fst (dir_tree_is_cache_expired w' en')
       = if stamp =? 0 then true
         else if t <? stamp then false
         else t - stamp >? filesystem_dir_cache_max_time (app (dtree w)).
Proof.
  intros Hen Hg w' stamp t.
  destruct (fill_on_dir_buf_cb_success w d en Hen)
    as (_ & (en' & Hen' & _ & Hsz & Hcr & Hmod & _) & _).
  destruct (fill_on_dir_buf_cb_clock w d en Hen) as (Htk & Hclk & Happ).
  exists en'. split; [exact Hen'|]. subst w'.
  unfold dir_tree_is_cache_expired, time_NULL.
  rewrite Hsz, Hcr, Hmod, Htk, Hclk, Happ. fold stamp t.
  pose proof (listing_blob_nonempty visible_not_older w (fd_ino d) en Hg) as Hne.
  apply Z.eqb_neq in Hne. rewrite Hne. cbn [orb].
  destruct (stamp =? 0); [done|].
  destruct (t <? stamp); [done|].
  by destruct (t - stamp >? _).
Qed.

Lemma built_listing_is_fresh_witness :
  exists en',
    entry (dir_tree_fill_on_dir_buf_cb world_root_only root_fill true) 1 = Some en'
    /\ fst (dir_tree_is_cache_expired
              (dir_tree_fill_on_dir_buf_cb world_root_only root_fill true) en')
       = false.
Proof.
  destruct (entry world_root_only 1) as [en|] eqn:Hen; [|vm_compute in Hen; discriminate].
  destruct (built_listing_is_fresh world_root_only root_fill en Hen) as (en' & H1 & H2).
  { intros b name j s. apply example_add_dirbuf_grows. }
  exists en'. split; [exact H1|]. rewrite H2. vm_compute. reflexivity.
Defined.

(** ** Refusals of rename, rmdir and unlink *)

(** X7.  [dir_tree_rename] renames files below 5 GiB only: when the source
    is a directory, or a file of [FIVEG] bytes or more, the rename is
    answered with failure at once, with no request to the pool and no change
    to the tree; a file of at most [FIVEG - 1] bytes is handed to the pool.
    The destination name plays no part in the decision. *)
Theorem rename_refuses_directories_and_5g (w : World) (parent : Z) (name : string)
    (newparent : Z) (newname : string) (req : Z) (pe npe en : DirEntry) (p : Z) :
  entry w parent = Some pe -> type pe = DET_dir ->
  entry w newparent = Some npe -> type npe = DET_dir ->
  child (dtree w) pe name = Some (p, en) ->
  let w' := dir_tree_rename w parent name newparent newname req in
  dtree w' = dtree w
  /\ (type en = DET_dir \/ FIVEG <= size en -> w' = emit (rename_cb req false) w)
  /\ (type en = DET_file -> size en < FIVEG ->
      exists rest,
        trace w'
        = trace w
          ++ client_pool_get_client
               (cb_on_rename_copy_con (mkRenameData parent name newparent newname req))
               (pool_ok w)
             :: rest).
Proof.
  intros Hpe Hty Hnpe Hnty Hc w'. subst w'. unfold dir_tree_rename.
  rewrite Hpe, Hty, Hnpe, Hnty, Hc. split; [|split].
  - repeat case_match; done.
  - intros [Hd|Hsz].
    + by rewrite Hd.
    + destruct (DirEntryType_eqb (type en) DET_dir); [done|].
      assert (H : (size en >=? FIVEG) = true) by lia. by rewrite H.
  - intros Hf Hsz. rewrite Hf. cbn [DirEntryType_eqb].
    assert (H : (size en >=? FIVEG) = false) by lia. rewrite H.
    destruct (pool_ok w); wsimpl.
    + by exists [].
    + rewrite <- app_assoc. by eexists.
Qed.

Lemma rename_refuses_directories_and_5g_witness :
  dtree (dir_tree_rename world_s5 2 "x" 3 "y" 9) = dtree world_s5
  /\ exists rest,
       trace (dir_tree_rename world_s5 2 "x" 3 "y" 9)
       = trace world_s5
         ++ client_pool_get_client (cb_on_rename_copy_con (mkRenameData 2 "x" 3 "y" 9))
              (pool_ok world_s5)
            :: rest.
Proof.
  eassert (Hpe : entry world_s5 2 = Some _) by (vm_compute; reflexivity).
  eassert (Hnpe : entry world_s5 3 = Some _) by (vm_compute; reflexivity).
  match type of Hpe with _ = Some ?pe =>
    eassert (Hc : child (dtree world_s5) pe "x" = Some (_, _)) by (vm_compute; reflexivity)
  end.
  destruct (rename_refuses_directories_and_5g world_s5 2 "x" 3 "y" 9 _ _ _ _
              Hpe eq_refl Hnpe eq_refl Hc) as (H1 & _ & H3).
  split; [exact H1|]. apply H3; [reflexivity|vm_compute; reflexivity].
Defined.
Lemma entries_removed_spec (w : World) (l : list (string * Z)) :
  entries_removed w l = true
  <-> forall nm v c, In (nm, v) l -> entry w v = Some c -> removed c = true.
Proof.
  unfold entries_removed. rewrite forallb_forall. split.
  - intros H nm v c Hin Hc. specialize (H (nm, v) Hin). cbn [snd] in H. by rewrite Hc in H.
  - intros H [nm v] Hin. cbn [snd]. destruct (entry w v) as [c|] eqn:Hc; [|done]. by eapply H.
Qed.

(** What [dir_tree_dir_remove] decides and does. *)
Lemma dir_remove_spec (w : World) (parent : Z) (name : string)
    (pe en : DirEntry) (p : Z) (l : list (string * Z)) :
  tree_ok (dtree w) ->
  entry w parent = Some pe -> type pe = DET_dir ->
  child (dtree w) pe name = Some (p, en) -> type en = DET_dir -> h_dir_tree en = Some l ->
  let r := dir_tree_dir_remove w parent name in
  (fst r = true
   <-> forall nm v c, In (nm, v) l -> entry w v = Some c -> removed c = true)
  /\ (fst r = false -> snd r = w)
  /\ (fst r = true ->
      entry (snd r) p = Some (set_age 0 (set_removed true en))
      /\ entry (snd r) parent = Some (reset_dir_cache pe)
      /\ forall q, q <> p -> q <> parent -> entry (snd r) q = entry w q).
Proof.
  intros Hok Hpe Hty Hc Hety Hl r. subst r. unfold dir_tree_dir_remove.
  destruct (tree_ok_child_ne _ _ _ _ _ _ Hok Hpe Hc) as (_ & _ & _ & Hlt).
  rewrite Hpe, Hty, Hc, Hety, Hl.
  pose proof (entries_removed_spec w l) as Hspec.
  apply child_Some in Hc as [_ Hen].
  destruct (entries_removed w l); cbn [fst snd].
  - split; [by rewrite <- Hspec|]. split; [done|]. intros _. wsimpl.
    set (t1 := modify p _ (dtree w)).
    assert (H1 : h_inodes t1 !! p = Some (set_age 0 (set_removed true en)))
      by exact (lookup_modify_eq _ _ (fun e => set_age 0 (set_removed true e)) en Hen).
    assert (H2 : h_inodes t1 !! parent = Some pe)
      by (unfold t1; rewrite lookup_modify_ne by lia; exact Hpe).
    unfold dir_tree_entry_modified. rewrite H2, Hty.
    split; [rewrite lookup_modify_ne by lia; exact H1|].
    split; [exact (lookup_modify_eq _ _ _ _ H2)|].
    intros q Hq1 Hq2. rewrite lookup_modify_ne by done.
    unfold t1. by rewrite lookup_modify_ne.
  - split; [|done]. split; [done|]. intros H. apply Hspec in H. done.
Qed.

(** X8.  [dir_tree_dir_remove] removes a directory exactly when every
    entry its children table points to is marked removed (a directory with a
    live child is refused, and nothing changes).  A successful rmdir is a
    tombstone, not a destruction: the directory keeps its inode, its place in
    the index and its children table; it is marked removed with age 0, the
    parent loses its listing cache, and no other entry is touched. *)
Theorem dir_remove_needs_removed_children (w : World) (parent : Z) (name : string)
    (pe en : DirEntry) (p : Z) (l : list (string * Z)) :
  tree_ok (dtree w) ->
  entry w parent = Some pe -> type pe = DET_dir ->
  child (dtree w) pe name = Some (p, en) -> type en = DET_dir -> h_dir_tree en = Some l ->
  let r := dir_tree_dir_remove w parent name in
  (fst r = true
   <-> forall nm v c, In (nm, v) l -> entry w v = Some c -> removed c = true)
  /\ (fst r = false -> snd r = w)
  /\ (fst r = true ->
      entry (snd r) p = Some (set_age 0 (set_removed true en))
      /\ entry (snd r) parent = Some (reset_dir_cache pe)
      /\ forall q, q <> p -> q <> parent -> entry (snd r) q = entry w q).
Proof. apply dir_remove_spec. Qed.


(** Direct forms, for the concrete processes. *)
Lemma tree_ok_update_entry (w : World) (ty : DirEntryType) (parent : Z)
    (entry_name : string) (sz mtime : Z) :
  tree_ok (dtree w) -> roomy (dtree w) ->
  tree_ok (dtree (snd (dir_tree_update_entry w ty parent entry_name sz mtime))).
Proof. intros Hok Hroom. by apply tree_step_update_entry. Qed.

Lemma tree_ok_dir_create (w : World) (parent : Z) (name : string) (md req : Z) :
  tree_ok (dtree w) -> roomy (dtree w) ->
  tree_ok (dtree (dir_tree_dir_create w parent name md req)).
Proof. intros Hok Hroom. by apply tree_step_dir_create. Qed.

Lemma tree_ok_file_create (w : World) (parent : Z) (name : string) (md req : Z) :
  tree_ok (dtree w) -> roomy (dtree w) ->
  tree_ok (dtree (dir_tree_file_create w parent name md req)).
Proof. intros Hok Hroom. by apply tree_step_file_create. Qed.

Lemma world_s5_tree_ok : tree_ok (dtree world_s5).
Proof.
  unfold world_s5. cbv zeta.
  apply tree_ok_update_entry; [|vm_compute; reflexivity].
  apply tree_ok_dir_create; [|vm_compute; reflexivity].
  apply tree_ok_dir_create; [|vm_compute; reflexivity].
  apply tree_ok_create.
Qed.

Lemma dir_remove_needs_removed_children_witness :
  fst (dir_tree_dir_remove world_s5 1 "b") = true.
Proof.
  eassert (Hpe : entry world_s5 1 = Some _) by (vm_compute; reflexivity).
  match type of Hpe with _ = Some ?pe =>
    eassert (Hc : child (dtree world_s5) pe "b" = Some (_, _)) by (vm_compute; reflexivity)
  end.
  destruct (dir_remove_needs_removed_children world_s5 1 "b" _ _ _ []
              world_s5_tree_ok Hpe eq_refl Hc eq_refl eq_refl) as (H1 & _).
  apply H1. intros nm v c [].
Defined.

(** X9.  mkdir after rmdir gives the directory back: the rmdir left the
    entry in the index and in the parent's table, so the mkdir of the same
    name finds it, reports the same inode, takes no inode number from
    [max_ino], clears the removed mark, and the directory still has the
    children table it had before the rmdir. *)
Theorem rmdir_then_mkdir_same_inode (w : World) (parent : Z) (name : string)
    (md req : Z) (pe en : DirEntry) (p : Z) (l : list (string * Z)) :
  tree_ok (dtree w) ->
  entry w parent = Some pe -> type pe = DET_dir ->
  child (dtree w) pe name = Some (p, en) -> type en = DET_dir -> h_dir_tree en = Some l ->
  fst (dir_tree_dir_remove w parent name) = true ->
  let w1 := snd (dir_tree_dir_remove w parent name) in
  let w2 := dir_tree_dir_create w1 parent name md req in
  trace w2 = trace w ++ [mkdir_cb req true (ino en) (dmode (dtree w)) (size en) (ctime en)]
  /\ max_ino (dtree w2) = max_ino (dtree w)
  /\ exists en2, entry w2 p = Some en2 /\ ino en2 = ino en /\ removed en2 = false
                 /\ type en2 = DET_dir /\ h_dir_tree en2 = Some l.
Proof.
  intros Hok Hpe Hty Hc Hety Hl Hrm w1 w2.
  destruct (dir_remove_spec w parent name pe en p l Hok Hpe Hty Hc Hety Hl)
    as (_ & _ & Hs).
  destruct (Hs Hrm) as (Hp1 & Hpe1 & _). fold w1 in Hp1, Hpe1.
  assert (Hfr : trace w1 = trace w /\ dmode (dtree w1) = dmode (dtree w)
                /\ max_ino (dtree w1) = max_ino (dtree w)).
  { subst w1. unfold dir_tree_dir_remove.
    repeat case_match; cbn [snd]; try done. wsimpl.
    by rewrite dmode_entry_modified, dmode_modify, max_ino_entry_modified, max_ino_modify. }
  destruct Hfr as (Htr & Hdm & Hmx).
  assert (Hc1 : child (dtree w1) (reset_dir_cache pe) name
                = Some (p, set_age 0 (set_removed true en))).
  { apply child_Some in Hc as [Hf _]. apply child_Some. by split. }
  destruct (proj1 (mkdir_existing_and_reported_mode w1 parent name md req)
              (reset_dir_cache pe) _ p Hpe1 Hty Hc1)
    as ((en2 & He2 & Hi2 & Ht2 & Htb2 & Hr2 & _) & Hm2 & Htr2).
  fold w2 in He2, Hm2, Htr2.
  split; [|split].
  - rewrite Htr2, Htr, Hdm. done.
  - by rewrite Hm2.
  - exists en2. repeat split; try done. rewrite Htb2. cbn. by rewrite Hl.
Qed.

(** ** unlink and rmdir check the type *)

(** X10.  unlink never removes a directory and rmdir never removes a
    file: [dir_tree_file_unlink] on a name that is a directory reports
    failure with no call to the cache manager or to the pool, and
    [dir_tree_dir_remove] on a name that is a file is refused; neither
    changes the tree. *)
Theorem unlink_and_rmdir_check_the_type (w : World) (parent : Z) (name : string)
    (req : Z) (pe en : DirEntry) (p : Z) :
  tree_ok (dtree w) ->
  entry w parent = Some pe -> type pe = DET_dir ->
  child (dtree w) pe name = Some (p, en) ->
  (type en = DET_dir ->
   dir_tree_file_unlink w parent name req = emit (file_remove_cb req false) w)
  /\ (type en = DET_file -> dir_tree_dir_remove w parent name = (false, w)).
Proof.
  intros Hok Hpe Hty Hc.
  destruct (tree_ok_child_ne _ _ _ _ _ _ Hok Hpe Hc) as (_ & _ & Hi & _).
  split; intros Hety.
  - unfold dir_tree_file_unlink, dir_tree_file_remove. rewrite Hpe, Hc, Hi.
    apply child_Some in Hc as [_ He]. unfold entry in *. by rewrite He, Hety.
  - unfold dir_tree_dir_remove. by rewrite Hpe, Hty, Hc, Hety.
Qed.

Lemma unlink_and_rmdir_check_the_type_witness :
  dir_tree_file_unlink world_s5 1 "a" 8 = emit (file_remove_cb 8 false) world_s5.
Proof.
  eassert (Hpe : entry world_s5 1 = Some _) by (vm_compute; reflexivity).
  match type of Hpe with _ = Some ?pe =>
    eassert (Hc : child (dtree world_s5) pe "a" = Some (_, _)) by (vm_compute; reflexivity)
  end.
  apply (proj1 (unlink_and_rmdir_check_the_type world_s5 1 "a" 8 _ _ _
                  world_s5_tree_ok Hpe eq_refl Hc)).
  reflexivity.
Defined.

Lemma rmdir_then_mkdir_same_inode_witness :
  exists en2,
    entry (dir_tree_dir_create (snd (dir_tree_dir_remove world_s5 1 "b")) 1 "b" 0 7) 3
    = Some en2
    /\ ino en2 = 3 /\ removed en2 = false.
Proof.
  eassert (Hpe : entry world_s5 1 = Some _) by (vm_compute; reflexivity).
  match type of Hpe with _ = Some ?pe =>
    eassert (Hc : child (dtree world_s5) pe "b" = Some (_, _)) by (vm_compute; reflexivity)
  end.
  assert (Hrm : fst (dir_tree_dir_remove world_s5 1 "b") = true) by (vm_compute; reflexivity).
  pose proof (rmdir_then_mkdir_same_inode world_s5 1 "b" 0 7 _ _ _ []
              world_s5_tree_ok Hpe eq_refl Hc eq_refl eq_refl Hrm) as H.
  cbv zeta in H.
  destruct H as (_ & _ & en2 & H1 & H2 & H3 & _).
  exists en2. split; [exact H1|]. split; [exact H2|exact H3].
Defined.

(** ** The HEAD response of a lookup *)

(** X11.  A successful HEAD whose Content-Type starts with
    "application/x-directory" turns the entry into a directory: the type
    becomes [DET_dir], a children table is there (the old one if there was
    one), the listing cache is dropped and the refresh guard cleared; the
    inode is kept.  The value of x-amz-meta-mode is narrowed to a signed
    32-bit integer before it is looked at: the mode is that integer when it
    is positive, and the directory default [dmode] when it is not or when the
    header is absent (so 4294967297 gives the mode 1, and 2147483648, which
    narrows to a negative number, gives [dmode]).  The size is the
    Content-Length, with a negative one read as 0, as the unsigned 64-bit
    field holds it (modulo 2^64, which changes no length that [strtoll] can
    return).  The lookup reports the entry with these attributes. *)
Theorem lookup_head_promotes_directory (w : World) (op_data : LookupOpData)
    (headers : Headers) (en : DirEntry) (ct : string) :
  entry w (lo_ino op_data) = Some en ->
  hd_content_type headers = Some ct ->
  String.prefix "application/x-directory" ct = true ->
  let w' := dir_tree_on_lookup_cb w op_data true headers in
  exists en',
    entry w' (lo_ino op_data) = Some en'
    /\ ino en' = ino en /\ type en' = DET_dir
    /\ h_dir_tree en' = Some (links en)
    /\ dir_cache en' = None /\ dir_cache_size en' = 0 /\ is_updating en' = false
    /\ content_type en' = Some ct
    /\ mode en'
       = match hd_meta_mode headers with
         | Some v => if to_gint32 v >? 0 then to_gint32 v else dmode (dtree w)
         | None => dmode (dtree w)
         end
    /\ size en'
       = match hd_content_length headers with
         | Some sz => wrap64 (if sz <? 0 then 0 else sz)
         | None => size en
         end
    /\ last (trace w')
       = Some (lookup_cb (lo_req op_data) true (ino en) (mode en') (size en') (ctime en')).
Proof.
  intros Hen Hct Hpre w'. subst w'.
  unfold dir_tree_on_lookup_cb, dir_tree_entry_update_xattrs, is_directory_content_type.
  rewrite Hct, Hpre. wsimpl. rewrite Hen. wsimpl. cbv zeta.
  destruct (hd_content_length headers) as [sz|];
    destruct (hd_meta_mode headers) as [v|];
    [destruct (to_gint32 v >? 0)| |destruct (to_gint32 v >? 0)|];
    destruct (hd_meta_date headers) as [[tm|]|]; wsimpl;
    rewrite ?dmode_modify;
    rewrite !lookup_modify, !decide_True by done; rewrite Hen; cbn [fmap option_fmap option_map];
    wsimpl; rewrite last_snoc;
    rewrite !lookup_modify, !decide_True by done; rewrite Hen;
    cbn [fmap option_fmap option_map];
    (eexists; split; [reflexivity|]);
    unfold links; cbn; by destruct (h_dir_tree en).
Qed.

Lemma lookup_head_promotes_directory_witness :
  exists en',
    entry
      (dir_tree_on_lookup_cb world_tombstone_m (mkLookupOpData 60 2 false "" 0) true
         (mkHeaders None (Some "application/x-directory"%string) None None None
            (Some 4294967297) None))
      2
    = Some en'
    /\ type en' = DET_dir /\ mode en' = 1.
Proof.
  eassert (Hen : entry world_tombstone_m 2 = Some _) by (vm_compute; reflexivity).
  pose proof (lookup_head_promotes_directory world_tombstone_m
                (mkLookupOpData 60 2 false "" 0)
                (mkHeaders None (Some "application/x-directory"%string) None None None
                   (Some 4294967297) None)
                _ "application/x-directory" Hen eq_refl eq_refl) as H.
  cbv zeta in H. destruct H as (en' & H1 & _ & H2 & _ & _ & _ & _ & _ & H3 & _).
  exists en'. split; [exact H1|]. split; [exact H2|exact H3].
Defined.

(** ** The entry made by [dir_tree_add_entry] *)

Lemma fmode_modify (t : DirTree) (p : Z) (f : DirEntry -> DirEntry) :
  fmode (modify p f t) = fmode t.
Proof. unfold modify. by destruct (h_inodes t !! p). Qed.

Lemma fmode_entry_modified (t : DirTree) (en : Z) :
  fmode (dir_tree_entry_modified t en) = fmode t.
Proof. unfold dir_tree_entry_modified. repeat case_match; by rewrite ?fmode_modify. Qed.

(** In a well-formed tree, [dir_tree_add_entry] under an existing parent
    makes exactly this entry, at the inode number [max_ino]. *)
Lemma add_entry_exact (w : World) (name : string) (md : Z) (ty : DirEntryType)
    (parent sz ct : Z) (pe : DirEntry) :
  tree_ok (dtree w) -> entry w parent = Some pe ->
  (forall p e, child (dtree w) pe name = Some (p, e) -> type e = ty) ->
  let i := max_ino (dtree w) in
  exists w',
    dir_tree_add_entry w name md ty parent sz ct = (Some i, w')
    /\ entry w' i
       = Some (mkDirEntry i parent name (path_under parent (fullpath pe) name) ty (age pe)
                 false false (wrap64 sz) md ct None 0 0 false
                 (match ty with DET_dir => g_hash_table_new_full | DET_file => None end)
                 false 0 (clock w (ticks w)) None None None 0)
    /\ ticks w' = S (ticks w) /\ clock w' = clock w /\ trace w' = trace w
    /\ fmode (dtree w') = fmode (dtree w).
Proof.
  intros Hok Hpe Hty i.
  assert (Hp0 : parent <> 0).
  { intros ->. destruct (ok_alloc _ Hok _ _ Hpe). lia. }
  assert (Hlt : parent < i) by (destruct (ok_alloc _ Hok _ _ Hpe); done).
  unfold dir_tree_add_entry.
  apply Z.eqb_neq in Hp0. rewrite Hp0. wsimpl. rewrite Hpe.
  rewrite bool_decide_eq_false_2 by done. cbn [negb andb].
  assert (Hclash :
    match child (dtree w) pe name with
    | Some (_, en) => negb (DirEntryType_eqb (type en) ty)
    | None => false
    end = false).
  { destruct (child (dtree w) pe name) as [[p e]|] eqn:Hc; [|done].
    rewrite (Hty p e eq_refl). by rewrite DirEntryType_eqb_refl. }
  rewrite Hclash. rewrite !max_ino_entry_modified. fold i.
  rewrite modify_mark_destroyed, entry_modified_mark_destroyed.
  eexists. split; [reflexivity|]. wsimpl.
  rewrite h_inodes_mark_destroyed, fmode_mark_destroyed.
  split; [|repeat split; rewrite fmode_entry_modified, fmode_modify; cbn;
           by rewrite fmode_entry_modified].
  set (en := mkDirEntry _ _ _ _ _ _ _ _ _ _ _ _ _ _ _ _ _ _ _ _ _ _ _).
  match goal with |- h_inodes (dir_tree_entry_modified ?t _) !! _ = _ =>
    assert (H4 : h_inodes t !! i = Some en) end.
  { rewrite lookup_modify_ne by lia. cbn. by rewrite lookup_insert_eq. }
  destruct (dir_tree_entry_modified_lookup _ parent _ _ H4) as [H|H];
    rewrite H; unfold en, path_under; by destruct ty.
Qed.

(** X12.  The lookup of a name that the directory does not hold probes
    the object that the new entry will name: the HEAD request sent by
    [dir_tree_on_lookup_not_found_con_cb] goes to "/" followed by the path
    that [dir_tree_add_entry] gives to the entry made when the HEAD
    succeeds.  That entry is a file at the inode number [max_ino], with the
    default file mode, the Content-Length as its size (0 when absent or
    negative) and the Last-Modified date as its ctime (the clock reading
    when absent or unreadable), and it is what the lookup reports.  (The
    size field is an unsigned 64-bit integer, so the length is stored modulo
    2^64, which changes no length below 2^64, hence none that [strtoll] can
    return.) *)
Theorem lookup_head_probes_the_new_entry_path (w : World) (op_data : LookupOpData)
    (headers : Headers) (pe : DirEntry) :
  tree_ok (dtree w) ->
  entry w (lo_parent_ino op_data) = Some pe -> type pe = DET_dir ->
  child (dtree w) pe (lo_name op_data) = None ->
  let w1 := dir_tree_on_lookup_not_found_con_cb w op_data in
  let w2 := dir_tree_on_lookup_not_found_cb w1 op_data true headers in
  let i := max_ino (dtree w) in
  exists e,
    entry w2 i = Some e /\ ino e = i
    /\ basename e = lo_name op_data /\ parent_ino e = lo_parent_ino op_data
    /\ type e = DET_file /\ removed e = false /\ mode e = fmode (dtree w)
    /\ size e
       = wrap64 match hd_content_length headers with
                | Some s => if s <? 0 then 0 else s
                | None => 0
                end
    /\ (match hd_content_length headers with Some s => s < 2 ^ 64 | None => True end ->
        size e
        = match hd_content_length headers with
          | Some s => if s <? 0 then 0 else s
          | None => 0
          end)
    /\ ctime e
       = match hd_last_modified headers with
         | Some (Some tm) => tm
         | _ => clock w (ticks w)
         end
    /\ In (http_connection_make_request ("/" ++ fullpath e) "HEAD"
             (cb_on_lookup_not_found op_data) (request_ok w))
          (trace w1)
    /\ last (trace w2)
       = Some (lookup_cb (lo_req op_data) true i (mode e) (size e) (ctime e)).
Proof.
  intros Hok Hpe Hty Hc w1 w2 i.
  assert (H1 : dtree w1 = dtree w /\ ticks w1 = ticks w /\ clock w1 = clock w
               /\ In (http_connection_make_request
                        ("/" ++ path_under (lo_parent_ino op_data) (fullpath pe)
                                  (lo_name op_data))
                        "HEAD" (cb_on_lookup_not_found op_data) (request_ok w))
                     (trace w1)).
  { subst w1. unfold dir_tree_on_lookup_not_found_con_cb. rewrite Hpe. wsimpl.
    fold (path_under (lo_parent_ino op_data) (fullpath pe) (lo_name op_data)).
    destruct (request_ok w); wsimpl; repeat split; rewrite ?in_app_iff; cbn; tauto. }
  destruct H1 as (Hd1 & Ht1 & Hc1 & Hreq).
  subst w2. unfold dir_tree_on_lookup_not_found_cb, dir_tree_update_entry. wsimpl.
  rewrite Hd1, Hpe, Hty, Hc.
  match goal with |- context [dir_tree_add_entry ?W ?n ?m ?t ?p ?s ?c] =>
    destruct (add_entry_exact W n m t p s c pe) as (w' & Hadd & He & Htk & Hclk & Htr & Hfm);
      [wsimpl; by rewrite Hd1|wsimpl; by rewrite Hd1|wsimpl; rewrite Hd1, Hc; done|]
  end.
  wsimpl. rewrite Hd1 in *. rewrite Hadd. fold i in He |- *.
  unfold dir_tree_entry_update_xattrs. wsimpl.
  rewrite !lookup_modify, !decide_True by done. rewrite He.
  cbn [fmap option_fmap option_map]. wsimpl. rewrite last_snoc.
  rewrite !lookup_modify, !decide_True by done. rewrite He.
  cbn [fmap option_fmap option_map].
  eexists. split; [reflexivity|]. cbn. rewrite Hc1, Ht1.
  repeat split; try done.
  unfold wrap64. destruct (hd_content_length headers) as [s|]; [|done].
  intros Hs. apply Z.mod_small. destruct (Z.ltb_spec s 0); lia.
Qed.

Lemma lookup_head_probes_the_new_entry_path_witness :
  exists e,
    entry
      (dir_tree_on_lookup_not_found_cb
         (dir_tree_on_lookup_not_found_con_cb world_root_only lookup_m) lookup_m true
         no_headers)
      2
    = Some e
    /\ basename e = "m"%string.
Proof.
  eassert (Hpe : entry world_root_only (lo_parent_ino lookup_m) = Some _)
    by (vm_compute; reflexivity).
  match type of Hpe with _ = Some ?pe =>
    assert (Hc : child (dtree world_root_only) pe (lo_name lookup_m) = None)
      by (vm_compute; reflexivity)
  end.
  pose proof (lookup_head_probes_the_new_entry_path world_root_only lookup_m no_headers _
                (tree_ok_create _ _) Hpe eq_refl Hc) as H.
  cbv zeta in H. destruct H as (e & H1 & _ & H2 & _).
  exists e. split; [exact H1|exact H2].
Defined.

(** ** Extended attributes *)

(** X13.  The attributes taken from a HEAD response are served from the
    entry afterwards: [dir_tree_on_getxattr_cb] answers with the header of
    the attribute asked for (the value the entry had when the header is
    absent) and stamps the entry with the clock reading [stamp]; a
    [dir_tree_getxattr] made at a reading [t] that is less than
    [dir_cache_max_time] after the stamp (or before it) is answered with the
    same values from the entry, with no request to the pool. *)
Theorem getxattr_refresh_then_cached (w : World) (xattr_data : XAttrData)
    (headers : Headers) (name : string) (sz req : Z) (e : DirEntry) (a : XAttrType) :
  entry w (xa_ino xattr_data) = Some e -> type e = DET_file ->
  xattr_of_name name = Some a ->
  let stamp := clock w (ticks w) in
  let t := clock w (S (ticks w)) in
  t < stamp \/ t - stamp < filesystem_dir_cache_max_time (app (dtree w)) ->
  let r := dir_tree_on_getxattr_cb w xattr_data true headers in
  fst r
  = [act http_connection_release;
     getxattr_cb (xa_req xattr_data) true (xa_ino xattr_data)
       (xattr_after headers e (xa_attr_type xattr_data)) (xa_size xattr_data)]
  /\ dir_tree_getxattr (snd r) (xa_ino xattr_data) name sz req
     = ([getxattr_cb req true (xa_ino xattr_data) (xattr_after headers e a) sz],
        set_ticks (S (S (ticks w))) (snd r)).
Proof.
  intros He Hty Hname stamp t Hfresh r. subst r.
  unfold dir_tree_on_getxattr_cb, dir_tree_entry_update_xattrs. cbn [negb].
  rewrite He. wsimpl.
  rewrite !lookup_modify, !decide_True by done. rewrite He.
  cbn [fmap option_fmap option_map fst snd]. split.
  - by destruct (xa_attr_type xattr_data).
  - unfold dir_tree_getxattr. wsimpl.
    rewrite !lookup_modify, !decide_True by done. rewrite He.
    cbn [fmap option_fmap option_map]. cbn [type set_xattr_time set_content_type
      set_version_id set_etag xattr_time]. rewrite Hty, Hname.
    rewrite !app_modify. fold stamp t.
    assert (Hc : (t >=? stamp) && (t - stamp >=? filesystem_dir_cache_max_time (app (dtree w)))
                 = false) by lia.
    rewrite Hc. by destruct a.
Qed.

Lemma getxattr_refresh_then_cached_witness :
  fst (dir_tree_getxattr
         (snd (dir_tree_on_getxattr_cb world_file_f (mkXAttrData 2 70 16 XATR_etag) true
                 (mkHeaders None None None (Some "abc"%string) None None None)))
         2 "user.md5" 16 71)
  = [getxattr_cb 71 true 2 (Some "abc"%string) 16].
Proof.
  eassert (He : entry world_file_f 2 = Some _) by (vm_compute; reflexivity).
  assert (Hfresh :
    clock world_file_f (S (ticks world_file_f)) < clock world_file_f (ticks world_file_f)
    \/ clock world_file_f (S (ticks world_file_f)) - clock world_file_f (ticks world_file_f)
       < filesystem_dir_cache_max_time (app (dtree world_file_f)))
    by (right; vm_compute; reflexivity).
  pose proof (getxattr_refresh_then_cached world_file_f (mkXAttrData 2 70 16 XATR_etag)
                (mkHeaders None None None (Some "abc"%string) None None None)
                "user.md5" 16 71 _ XATR_etag He eq_refl eq_refl Hfresh) as H.
  cbv zeta in H. destruct H as [_ H]. cbn [xa_ino] in H. rewrite H. reflexivity.
Defined.

(** X14.  What [dir_tree_getxattr] refuses, and the names it knows:
    attributes of directories and unknown attribute names are answered with
    failure before the clock is read or the pool is asked, and nothing
    changes; "user.md5" is another name of "user.etag"; the only other names
    are "user.version" and "user.content_type". *)
Theorem getxattr_names_and_refusals (w : World) (i : Z) (name : string) (sz req : Z) :
  (forall e, entry w i = Some e -> type e = DET_dir \/ xattr_of_name name = None ->
     dir_tree_getxattr w i name sz req = ([getxattr_cb req false i None 0], w))
  /\ dir_tree_getxattr w i "user.md5" sz req = dir_tree_getxattr w i "user.etag" sz req
  /\ (xattr_of_name name <> None
      <-> In name ["user.version"; "user.etag"; "user.md5"; "user.content_type"]%string).
Proof.
  split; [|split].
  - intros e He [Hty|Hn]; unfold dir_tree_getxattr; rewrite He.
    + by rewrite Hty.
    + rewrite Hn. by destruct (type e).
  - reflexivity.
  - unfold xattr_of_name. cbn [In].
    destruct (String.eqb_spec name "user.version"); [subst; split; [tauto|done]|].
    destruct (String.eqb_spec name "user.etag"); [subst; split; [tauto|done]|].
    destruct (String.eqb_spec name "user.md5"); [subst; split; [tauto|done]|].
    destruct (String.eqb_spec name "user.content_type"); [subst; split; [tauto|done]|].
    cbn. split; [done|]. intros [H|[H|[H|[H|[]]]]]; congruence.
Qed.

(** ** Writes *)

(** X15.  The size of a file follows its writes: when a buffer has been
    written, [dir_tree_on_buffer_written_cb] first passes the outcome on
    and then, on success, sets the size of the entry to the length the cache
    manager knows for the file or, when that is 0, to the end of the write,
    [off + count], also when the file was longer before.  A failed write
    changes nothing, and no other entry or attribute is touched. *)
Theorem written_buffer_sets_size (w : World) (op_data : FileWriteOpData) (success : bool)
    (count len : Z) (e : DirEntry) :
  entry w (fw_ino op_data) = Some e ->
  0 <= len < 2 ^ 63 -> 0 <= fw_off op_data -> 0 <= count ->
  fw_off op_data + count < 2 ^ 63 ->
  let r := dir_tree_on_buffer_written_cb w op_data success count len in
  fst r = [file_write_cb (fw_req op_data) success count]
  /\ entry (snd r) (fw_ino op_data)
     = Some (if success
             then set_size (if len =? 0 then fw_off op_data + count else len) e
             else e)
  /\ forall q, q <> fw_ino op_data -> entry (snd r) q = entry w q.
Proof.
  intros He Hlen Hoff Hcount Hend r. subst r.
  unfold dir_tree_on_buffer_written_cb. destruct success; [|done].
  rewrite He. cbn [fst snd]. wsimpl. cbv zeta.
  assert (Hl : wrap64 len = len) by (unfold wrap64; apply Z.mod_small; lia).
  assert (Hsz : (if wrap64 len =? 0 then wrap64 (fw_off op_data + count) else wrap64 len)
                = if len =? 0 then fw_off op_data + count else len).
  { rewrite Hl. unfold wrap64. destruct (len =? 0); [|done].
    rewrite Z.mod_small by lia. done. }
  rewrite Hsz. split; [done|]. split.
  - exact (lookup_modify_eq _ _ _ _ He).
  - intros q Hq. by rewrite lookup_modify_ne.
Qed.

Lemma written_buffer_sets_size_witness :
  exists e',
    entry (snd (dir_tree_on_buffer_written_cb world_s5 (mkFileWriteOpData 80 4 0) true 3 0)) 4
    = Some e'
    /\ size e' = 3.
Proof.
  eassert (He : entry world_s5 (fw_ino (mkFileWriteOpData 80 4 0)) = Some _)
    by (vm_compute; reflexivity).
  pose proof (written_buffer_sets_size world_s5 (mkFileWriteOpData 80 4 0) true 3 0 _ He)
    as H.
  cbv zeta in H. destruct H as (_ & H & _); [lia|cbn; lia|lia|cbn; lia|].
  eexists. split; [exact H|reflexivity].
Defined.

(** ** Symbolic links *)

(** X16.  A symbolic link made under a new name is a file entry with the
    link mode: [dir_tree_create_symlink] gives it the inode number
    [max_ino], the mode [S_IFLNK | 0777], size 0, marks it modified, and
    hands the upload of the link text to the file layer under the path of
    the new entry; when the upload completes, [dir_tree_on_symlink_cb]
    reports the outcome of the upload with the inode and the link mode. *)
Theorem symlink_makes_link_entry (w : World) (parent : Z) (fname link : string)
    (req : Z) (pe : DirEntry) (success : bool) :
  tree_ok (dtree w) ->
  entry w parent = Some pe -> type pe = DET_dir ->
  child (dtree w) pe fname = None ->
  let r := dir_tree_create_symlink w parent fname link req in
  let i := max_ino (dtree w) in
  exists e,
    entry (snd r) i = Some e
    /\ ino e = i /\ type e = DET_file /\ mode e = SYMLINK_MODE /\ size e = 0
    /\ is_modified e = true /\ removed e = false
    /\ fullpath e = path_under parent (fullpath pe) fname
    /\ fst r = [fileio_simple_upload (fullpath e) link SYMLINK_MODE (mkSymlinkData i req)]
    /\ dir_tree_on_symlink_cb (snd r) (mkSymlinkData i req) success
       = symlink_cb req success i SYMLINK_MODE 0 (ctime e).
Proof.
  intros Hok Hpe Hty Hc r i. subst r.
  unfold dir_tree_create_symlink. rewrite Hpe, Hty, Hc. wsimpl.
  match goal with |- context [dir_tree_add_entry ?W ?n ?m ?t ?p ?s ?c] =>
    destruct (add_entry_exact W n m t p s c pe) as (w' & Hadd & He & _);
      [exact Hok|exact Hpe|wsimpl; rewrite Hc; done|]
  end.
  wsimpl. rewrite Hadd. fold i in He |- *. wsimpl.
  rewrite (lookup_modify_eq _ _ _ _ He). cbn [fst snd]. wsimpl.
  eexists. split; [exact (lookup_modify_eq _ _ _ _ He)|].
  cbn. repeat split.
  unfold dir_tree_on_symlink_cb. wsimpl.
  by rewrite (lookup_modify_eq _ _ _ _ He).
Qed.

Lemma symlink_makes_link_entry_witness :
  exists e,
    entry (snd (dir_tree_create_symlink world_root_only 1 "l" "target" 90)) 2 = Some e
    /\ mode e = SYMLINK_MODE.
Proof.
  eassert (Hpe : entry world_root_only 1 = Some _) by (vm_compute; reflexivity).
  match type of Hpe with _ = Some ?pe =>
    assert (Hc : child (dtree world_root_only) pe "l" = None) by (vm_compute; reflexivity)
  end.
  pose proof (symlink_makes_link_entry world_root_only 1 "l" "target" 90 _ true
                (tree_ok_create _ _) Hpe eq_refl Hc) as H.
  cbv zeta in H. destruct H as (e & H1 & _ & _ & H2 & _).
  exists e. split; [exact H1|exact H2].
Defined.

(** ** Statistics *)

Lemma filter_length_Permutation {A : Type} (f : A -> bool) (l l' : list A) :
  Permutation l l' -> length (List.filter f l) = length (List.filter f l').
Proof.
  induction 1 as [|x l l' _ IH|x y l|l l' l'' _ IH1 _ IH2]; cbn.
  - done.
  - destruct (f x); cbn; by rewrite IH.
  - destruct (f x), (f y); cbn; done.
  - congruence.
Qed.

Lemma count_type_insert (ty : DirEntryType) (h : gmap Z DirEntry) (i : Z) (x : DirEntry) :
  h !! i = None ->
  count_type ty (<[i:=x]> h)
  = count_type ty h + (if DirEntryType_eqb (type x) ty then 1 else 0).
Proof.
  intros Hi. unfold count_type.
  rewrite (filter_length_Permutation _ _ _ (map_to_list_insert _ _ _ Hi)).
  cbn. destruct (DirEntryType_eqb (type x) ty); cbn [length]; lia.
Qed.

Lemma wrap32_succ (a : Z) : wrap32 (wrap32 a + 1) = wrap32 (a + 1).
Proof. unfold wrap32. by rewrite Zplus_mod_idemp_l. Qed.

(** X17.  The statistics count every entry once: [dir_tree_get_stats]
    returns the number of entries of the index, the number of those that
    are files and the number of those that are directories (tombstones
    included), each modulo 2^32; the first is the sum of the other two,
    modulo 2^32, and is what [dir_tree_get_inode_count] returns. *)
Theorem get_stats_counts_every_entry (t : DirTree) :
  dir_tree_get_stats t
  = (dir_tree_get_inode_count t, wrap32 (count_type DET_file (h_inodes t)),
     wrap32 (count_type DET_dir (h_inodes t)))
  /\ dir_tree_get_inode_count t
     = wrap32 (count_type DET_file (h_inodes t) + count_type DET_dir (h_inodes t)).
Proof.
  assert (Hfold :
    map_fold
      (fun (_ : Z) (en : DirEntry) '(file_num, dir_num) =>
         match type en with
         | DET_file => (wrap32 (file_num + 1), dir_num)
         | DET_dir => (file_num, wrap32 (dir_num + 1))
         end)
      (0, 0) (h_inodes t)
    = (wrap32 (count_type DET_file (h_inodes t)), wrap32 (count_type DET_dir (h_inodes t)))
    /\ Z.of_nat (base.size (h_inodes t))
       = count_type DET_file (h_inodes t) + count_type DET_dir (h_inodes t)).
  { apply (map_fold_weak_ind
             (fun (res : Z * Z) (m0 : gmap Z DirEntry) =>
                res = (wrap32 (count_type DET_file m0), wrap32 (count_type DET_dir m0))
                /\ Z.of_nat (base.size m0)
                   = count_type DET_file m0 + count_type DET_dir m0)).
    - unfold count_type. rewrite map_to_list_empty. by rewrite map_size_empty.
    - intros i x m0 [f d] Hi [[= -> ->] Hsz].
      rewrite !count_type_insert, map_size_insert_None by done.
      destruct (type x); cbn [DirEntryType_eqb]; rewrite ?wrap32_succ, ?Z.add_0_r;
        (split; [done|lia]). }
  destruct Hfold as [Hfold Hsz].
  unfold dir_tree_get_stats, dir_tree_get_inode_count. rewrite Hfold, Hsz. done.
Qed.

(** ** Inodes that are not there, and files used as directories *)

(** X18.  Every operation that is addressed by inode number answers an
    inode that is not in the index with failure, makes no other call (no
    request to the pool, to the file layer or to the cache manager), reads no
    clock and changes nothing. *)
Theorem missing_inode_fails_cleanly (w : World) (i : Z) :
  entry w i = None ->
  (forall req, dir_tree_getattr w i req = getattr_cb req false 0 0 0 0)
  /\ (forall req, dir_tree_setattr w i req = setattr_cb req false 0 0 0)
  /\ (forall fh fop req, dir_tree_file_open w i fh fop req = [file_open_cb req false fh])
  /\ (forall fh, dir_tree_file_release w i fh = [])
  /\ (forall sz off req fh,
        dir_tree_file_read w i sz off req fh = file_read_cb req false None 0)
  /\ (forall buf sz off req fh,
        dir_tree_file_write w i buf sz off req fh = ([file_write_cb req false 0], w))
  /\ (forall req, dir_tree_file_remove w i req = emit (file_remove_cb req false) w)
  /\ (forall name sz req,
        dir_tree_getxattr w i name sz req = ([getxattr_cb req false i None 0], w))
  /\ (forall req, dir_tree_readlink w i req = readlink_cb req false i None)
  /\ (forall fh, dir_tree_opendir w i fh = (false, fh, w))
  /\ (forall sz off cb req fi,
        dir_tree_fill_dir_buf w i sz off cb req fi
        = emit (readdir_cb cb req false sz off None 0) w)
  /\ (forall name req, dir_tree_lookup w i name req = emit (lookup_cb req false 0 0 0 0) w)
  /\ (forall name md req,
        dir_tree_file_create w i name md req = emit (file_create_cb req false 0 0 0) w)
  /\ (forall name md req,
        dir_tree_dir_create w i name md req = emit (mkdir_cb req false 0 0 0 0) w)
  /\ (forall name req,
        dir_tree_file_unlink w i name req = emit (file_remove_cb req false) w)
  /\ (forall name, dir_tree_dir_remove w i name = (false, w))
  /\ (forall fname link req,
        dir_tree_create_symlink w i fname link req = ([symlink_cb req false 0 0 0 0], w))
  /\ (forall name newparent newname req,
        dir_tree_rename w i name newparent newname req = emit (rename_cb req false) w)
  /\ (forall ty name sz mtime, dir_tree_update_entry w ty i name sz mtime = (None, w))
  /\ dir_tree_stop_update w i = w
  /\ dir_tree_set_entry_exist (dtree w) i = dtree w.
Proof.
  intros H.
  repeat split; intros;
    unfold dir_tree_getattr, dir_tree_setattr, dir_tree_file_open, dir_tree_file_release,
      dir_tree_file_read, dir_tree_file_write, dir_tree_file_remove, dir_tree_getxattr,
      dir_tree_readlink, dir_tree_opendir, dir_tree_fill_dir_buf, dir_tree_lookup,
      dir_tree_file_create, dir_tree_dir_create, dir_tree_file_unlink, dir_tree_dir_remove,
      dir_tree_create_symlink, dir_tree_rename, dir_tree_update_entry, dir_tree_stop_update,
      dir_tree_set_entry_exist;
    unfold entry in *; by rewrite H.
Qed.

Lemma missing_inode_fails_cleanly_witness :
  dir_tree_getattr world_root_only 5 1 = getattr_cb 1 false 0 0 0 0.
Proof.
  assert (H : entry world_root_only 5 = None) by (vm_compute; reflexivity).
  exact (proj1 (missing_inode_fails_cleanly world_root_only 5 H) 1).
Defined.

(** X19.  A file is refused as a parent by every operation that looks at
    the type of the parent: with a file as the parent, lookup, readdir,
    create, mkdir, symlink, rmdir, rename (as source or as destination
    directory) and the entry update of a listing answer with failure and
    change nothing, and the sweep does nothing.  The completion of a failed
    HEAD is the exception: [dir_tree_on_lookup_not_found_cb] looks the
    parent up but not at its type, so with a file as the parent it still
    calls [dir_tree_add_entry], which adds a tombstone whose parent is the
    file (when the file has no children table, and [dir_tree_add_entry]
    gives one to directories only, the tombstone is in the index only and
    the file entry is unchanged). *)
Theorem file_is_never_a_parent (w : World) (i : Z) (e : DirEntry) :
  entry w i = Some e -> type e = DET_file ->
  (forall sz off cb req fi,
     dir_tree_fill_dir_buf w i sz off cb req fi
     = emit (readdir_cb cb req false sz off None 0) w)
  /\ (forall name req, dir_tree_lookup w i name req = emit (lookup_cb req false 0 0 0 0) w)
  /\ (forall name md req,
        dir_tree_file_create w i name md req = emit (file_create_cb req false 0 0 0) w)
  /\ (forall name md req,
        dir_tree_dir_create w i name md req = emit (mkdir_cb req false 0 0 0 0) w)
  /\ (forall name, dir_tree_dir_remove w i name = (false, w))
  /\ (forall fname link req,
        dir_tree_create_symlink w i fname link req = ([symlink_cb req false 0 0 0 0], w))
  /\ (forall name newparent newname req,
        dir_tree_rename w i name newparent newname req = emit (rename_cb req false) w)
  /\ (forall parent name newname req,
        dir_tree_rename w parent name i newname req = emit (rename_cb req false) w)
  /\ (forall ty name sz mtime, dir_tree_update_entry w ty i name sz mtime = (None, w))
  /\ dir_tree_stop_update w i = w
  /\ (forall op_data headers,
        tree_ok (dtree w) -> h_dir_tree e = None -> lo_parent_ino op_data = i ->
        let w' := dir_tree_on_lookup_not_found_cb w op_data false headers in
        exists en,
          entry w' (max_ino (dtree w)) = Some en
          /\ entry w (max_ino (dtree w)) = None
          /\ parent_ino en = i /\ basename en = lo_name op_data
          /\ type en = DET_file /\ removed en = true
          /\ entry w' i = Some e).
Proof.
  intros H Hty.
  do 10 (split;
    [intros;
     unfold dir_tree_fill_dir_buf, dir_tree_lookup,
       dir_tree_file_create, dir_tree_dir_create, dir_tree_dir_remove,
       dir_tree_create_symlink, dir_tree_rename, dir_tree_update_entry,
       dir_tree_stop_update;
     unfold entry in *; rewrite ?H, ?Hty; try done;
     repeat case_match; simplify_eq; done|]).
  intros op_data headers Hok Hnone Hi w'. subst w' i.
  assert (Hlt : lo_parent_ino op_data < max_ino (dtree w))
    by (destruct (ok_alloc _ Hok _ _ H); done).
  assert (Hfree : entry w (max_ino (dtree w)) = None).
  { destruct (entry w (max_ino (dtree w))) as [e0|] eqn:He0; [|done].
    destruct (ok_alloc _ Hok _ _ He0). lia. }
  unfold dir_tree_on_lookup_not_found_cb. wsimpl. rewrite H. wsimpl.
  match goal with |- context [dir_tree_add_entry ?W ?n ?m ?t ?p ?s ?c] =>
    destruct (add_entry_exact W n m t p s c e) as (w' & Hadd & He & _);
      [exact Hok|exact H|wsimpl; unfold child; by rewrite Hnone|];
    pose proof (tree_step_add_entry _ _ _ _ _ _ _ _ _ Hadd) as [[_ Hext] _]
  end.
  wsimpl. rewrite Hadd. wsimpl.
  eexists. split; [exact (lookup_modify_eq _ _ _ _ He)|].
  split; [exact Hfree|]. repeat split.
  rewrite lookup_modify_ne by lia.
  revert Hadd. unfold dir_tree_add_entry.
  assert (Hp0 : (lo_parent_ino op_data =? 0) = false).
  { apply Z.eqb_neq. intros H0. rewrite H0 in H. destruct (ok_alloc _ Hok _ _ H). lia. }
  rewrite Hp0. wsimpl. rewrite H. rewrite bool_decide_eq_false_2 by done.
  cbn [negb andb]. unfold child at 1. rewrite Hnone. cbn [g_hash_table_lookup].
  intros [= _ <-]. wsimpl.
  set (t1 := dir_tree_entry_modified (dtree w) (lo_parent_ino op_data)).
  assert (H1 : h_inodes t1 !! lo_parent_ino op_data = Some e).
  { unfold t1, dir_tree_entry_modified. rewrite H, Hty.
    destruct (h_inodes (dtree w) !! parent_ino e) as [ge|] eqn:Hge; [|done].
    destruct (type ge); [|done]. rewrite lookup_modify_ne; [done|].
    destruct (ok_alloc _ Hok _ _ H). lia. }
  match goal with |- h_inodes (dir_tree_entry_modified (modify _ ?f ?t3) _) !! _ = _ =>
    assert (H3 : h_inodes (modify (lo_parent_ino op_data) f t3) !! lo_parent_ino op_data
                 = Some e)
  end.
  { erewrite lookup_modify_eq.
    2:{ cbn. rewrite lookup_insert_ne; [exact H1|]. unfold t1.
        rewrite max_ino_entry_modified. lia. }
    cbn. rewrite Hnone. cbn. f_equal. clear -Hnone. destruct e. cbn in Hnone.
    by subst. }
  unfold dir_tree_entry_modified at 1. rewrite H3, Hty.
  assert (Hpar : parent_ino e <> lo_parent_ino op_data)
    by (destruct (ok_alloc _ Hok _ _ H); lia).
  repeat case_match; try done; by rewrite lookup_modify_ne.
Qed.

Lemma file_is_never_a_parent_witness :
  dir_tree_lookup world_s5 4 "n" 1 = emit (lookup_cb 1 false 0 0 0 0) world_s5
  /\ exists en,
       entry
         (dir_tree_on_lookup_not_found_cb world_s5 (mkLookupOpData 61 0 true "n" 4) false
            no_headers) 5
       = Some en
       /\ parent_ino en = 4 /\ basename en = "n"%string
       /\ type en = DET_file /\ removed en = true.
Proof.
  eassert (H : entry world_s5 4 = Some _) by (vm_compute; reflexivity).
  pose proof (file_is_never_a_parent world_s5 4 _ H eq_refl)
    as (_ & Hlookup & _ & _ & _ & _ & _ & _ & _ & _ & Hhead).
  split; [exact (Hlookup "n"%string 1)|].
  destruct (Hhead (mkLookupOpData 61 0 true "n" 4) no_headers world_s5_tree_ok eq_refl eq_refl)
    as (en & H1 & _ & H2 & H3 & H4 & H5 & _).
  exists en. split; [exact H1|]. by repeat split.
Defined.

(** ** What a completed rename leaves in the tree *)

Lemma entry_modified_dir_exact (t : DirTree) (en : Z) (e : DirEntry) :
  h_inodes t !! en = Some e -> type e = DET_dir ->
  dir_tree_entry_modified t en = modify en reset_dir_cache t.
Proof. intros He Hty. unfold dir_tree_entry_modified. by rewrite He, Hty. Qed.

Lemma entry_modified_file_exact (t : DirTree) (en : Z) (e pe : DirEntry) :
  h_inodes t !! en = Some e -> type e = DET_file ->
  h_inodes t !! parent_ino e = Some pe -> type pe = DET_dir ->
  dir_tree_entry_modified t en = modify (parent_ino e) reset_dir_cache t.
Proof.
  intros He Hty Hpe Hpty. unfold dir_tree_entry_modified. by rewrite He, Hty, Hpe, Hpty.
Qed.

(** X20.  What a rename that went through leaves behind.  With the copy
    and the delete both successful (pool and connection willing), the source
    entry stays in the tree as a tombstone that keeps its age, its size and
    its inode; the destination entry, which had to exist, is marked present
    and touched, and keeps its own inode, size, mode and ctime: nothing of
    the source entry is carried over to it.  Both directories lose their
    listing caches, no other entry changes, and the calls made are the
    release of the copy connection, the request for a connection, the DELETE
    of the source path, the release, and the success report. *)
Theorem rename_leaves_tombstone_and_old_destination (w : World) (rdata : RenameData)
    (pe npe es ed : DirEntry) (ps pd : Z) :
  tree_ok (dtree w) -> pool_ok w = true -> request_ok w = true ->
  entry w (rd_parent_ino rdata) = Some pe -> type pe = DET_dir ->
  entry w (rd_newparent_ino rdata) = Some npe -> type npe = DET_dir ->
  child (dtree w) pe (rd_name rdata) = Some (ps, es) -> type es = DET_file ->
  child (dtree w) npe (rd_newname rdata) = Some (pd, ed) -> type ed = DET_file ->
  ps <> pd ->
  let w1 := dir_tree_on_rename_copy_cb w rdata true in
  let w2 := dir_tree_on_rename_delete_con_cb w1 rdata in
  let w3 := dir_tree_on_rename_delete_cb w2 rdata true in
  entry w3 ps = Some (set_removed true es)
  /\ entry w3 pd = Some (set_access_time (clock w (ticks w)) (set_removed false ed))
  /\ entry w3 (rd_parent_ino rdata) = Some (reset_dir_cache pe)
  /\ entry w3 (rd_newparent_ino rdata) = Some (reset_dir_cache npe)
  /\ (forall q, q <> ps -> q <> pd -> q <> rd_parent_ino rdata ->
        q <> rd_newparent_ino rdata -> entry w3 q = entry w q)
  /\ trace w3
     = trace w
       ++ [http_connection_release;
           client_pool_get_client (cb_on_rename_delete_con rdata) true;
           http_connection_acquire;
           http_connection_make_request ("/" ++ fullpath es) "DELETE"
             (cb_on_rename_delete rdata) true;
           http_connection_release;
           rename_cb (rd_req rdata) true].
Proof.
  intros Hok Hpool Hreq Hpe Hpty Hnpe Hnpty Hcs Hsty Hcd Hdty Hne w1 w2 w3.
  destruct (tree_ok_child_ne _ _ _ _ _ _ Hok Hpe Hcs) as (Hsp & _ & _ & Hlts).
  destruct (tree_ok_child_ne _ _ _ _ _ _ Hok Hnpe Hcd) as (Hdp & _ & _ & Hltd).
  pose proof (proj1 (child_Some _ _ _ _ _) Hcs) as [Hfs Hes].
  pose proof (proj1 (child_Some _ _ _ _ _) Hcd) as [Hfd Hed].
  unfold entry in *.
  assert (Hd1 : pd <> rd_parent_ino rdata) by (intros ->; congruence).
  assert (Hd2 : pd <> rd_newparent_ino rdata) by lia.
  assert (Hs1 : ps <> rd_parent_ino rdata) by lia.
  assert (Hs2 : ps <> rd_newparent_ino rdata) by (intros ->; congruence).
  (* the copy stage *)
  set (f := fun e : DirEntry => set_access_time (clock w (ticks w)) (set_removed false e)).
  set (t1 := modify (rd_newparent_ino rdata) reset_dir_cache (modify pd f (dtree w))).
  assert (Hw1 : w1 = emit (client_pool_get_client (cb_on_rename_delete_con rdata) true)
                      (set_dtree t1 (set_ticks (S (ticks w)) (emit http_connection_release w)))).
  { subst w1. unfold dir_tree_on_rename_copy_cb. wsimpl.
    rewrite Hnpe, Hnpty, Hcd. wsimpl. rewrite Hpool. unfold on_tree. wsimpl.
    rewrite (entry_modified_dir_exact _ _ npe); [done| |done].
    by rewrite lookup_modify_ne. }
  assert (H1s : h_inodes t1 !! ps = Some es).
  { unfold t1. by rewrite !lookup_modify_ne. }
  assert (H1d : h_inodes t1 !! pd = Some (f ed)).
  { unfold t1. rewrite lookup_modify_ne by done. exact (lookup_modify_eq _ _ f ed Hed). }
  assert (H1n : h_inodes t1 !! rd_newparent_ino rdata = Some (reset_dir_cache npe)).
  { unfold t1. apply lookup_modify_eq. by rewrite lookup_modify_ne. }
  assert (H1p : exists pe1, h_inodes t1 !! rd_parent_ino rdata = Some pe1
                  /\ type pe1 = DET_dir /\ h_dir_tree pe1 = h_dir_tree pe
                  /\ reset_dir_cache pe1 = reset_dir_cache pe).
  { destruct (decide (rd_parent_ino rdata = rd_newparent_ino rdata)) as [Heq|Hneq].
    - rewrite Heq in *. exists (reset_dir_cache npe). split; [done|].
      assert (pe = npe) by congruence. by subst.
    - exists pe. split; [|done]. unfold t1. by rewrite !lookup_modify_ne. }
  destruct H1p as (pe1 & H1p & Hp1ty & Hp1tb & Hp1r).
  assert (Hc1 : child t1 pe1 (rd_name rdata) = Some (ps, es)).
  { apply child_Some. split; [by rewrite Hp1tb|done]. }
  (* the connection for the delete *)
  assert (Hw2 : w2 = emit (http_connection_make_request ("/" ++ fullpath es) "DELETE"
                             (cb_on_rename_delete rdata) true)
                      (emit http_connection_acquire w1)).
  { subst w2. unfold dir_tree_on_rename_delete_con_cb. rewrite Hw1. wsimpl.
    rewrite H1p, Hp1ty, Hc1. wsimpl. by rewrite Hreq. }
  (* the delete stage *)
  set (t3 := modify (rd_newparent_ino rdata) reset_dir_cache
               (modify (rd_parent_ino rdata) reset_dir_cache
                  (modify ps (set_removed true) t1))).
  assert (Hw3 : w3 = emit (rename_cb (rd_req rdata) true)
                      (set_dtree t3 (emit http_connection_release w2))).
  { subst w3. unfold dir_tree_on_rename_delete_cb. rewrite Hw2, Hw1. wsimpl.
    rewrite H1p, Hp1ty, Hc1, H1n. cbn [type reset_dir_cache set_dir_cache_size
      set_dir_cache]. rewrite Hnpty. wsimpl. unfold on_tree. wsimpl.
    set (t2 := modify ps (set_removed true) t1).
    assert (H2s : h_inodes t2 !! ps = Some (set_removed true es))
      by exact (lookup_modify_eq _ _ _ _ H1s).
    assert (H2p : h_inodes t2 !! rd_parent_ino rdata = Some pe1)
      by (unfold t2; by rewrite lookup_modify_ne).
    rewrite (entry_modified_file_exact t2 ps (set_removed true es) pe1);
      [|done|done|cbn; by rewrite Hsp|done].
    cbn [parent_ino set_removed]. rewrite Hsp.
    assert (H3n : exists x, h_inodes (modify (rd_parent_ino rdata) reset_dir_cache t2)
                              !! rd_newparent_ino rdata = Some x /\ type x = DET_dir).
    { pose proof (proj_modify type reset_dir_cache t2 (rd_parent_ino rdata)
                    (rd_newparent_ino rdata) (fun e => eq_refl)) as H.
      unfold t2 in H at 2.
      rewrite (lookup_modify_ne t1 ps (rd_newparent_ino rdata) (set_removed true) Hs2) in H.
      rewrite H1n in H.
      apply proj_Some in H as (x & Hx & Htx). exists x. split; [done|].
      rewrite Htx. done. }
    destruct H3n as (x & Hx & Htx).
    by rewrite (entry_modified_dir_exact _ _ x Hx Htx). }
  rewrite Hw3, Hw2, Hw1. wsimpl. unfold t3.
  split; [|split; [|split; [|split; [|split]]]].
  - rewrite !lookup_modify_ne by done. exact (lookup_modify_eq _ _ _ _ H1s).
  - by rewrite !lookup_modify_ne.
  - destruct (decide (rd_parent_ino rdata = rd_newparent_ino rdata)) as [Heq|Hneq].
    + rewrite <- Heq. rewrite !lookup_modify, !decide_True by done.
      rewrite decide_False by done. rewrite H1p. cbn. f_equal.
      rewrite <- Hp1r. by destruct pe1.
    + rewrite lookup_modify_ne by done.
      rewrite lookup_modify, decide_True by done.
      rewrite lookup_modify_ne by done. rewrite H1p. cbn. by rewrite Hp1r.
  - rewrite lookup_modify, decide_True by done.
    destruct (decide (rd_parent_ino rdata = rd_newparent_ino rdata)) as [Heq|Hneq].
    + rewrite Heq. rewrite lookup_modify, decide_True by done.
      rewrite lookup_modify_ne by done. rewrite H1n. cbn. first [done | f_equal; by destruct npe].
    + rewrite !lookup_modify_ne by done. rewrite H1n. cbn. first [done | f_equal; by destruct npe].
  - intros q Hq1 Hq2 Hq3 Hq4. unfold t1. by rewrite !lookup_modify_ne.
  - rewrite <- !app_assoc. done.
Qed.

Lemma world_s5_y_tree_ok : tree_ok (dtree world_s5_y).
Proof.
  unfold world_s5_y. apply tree_ok_update_entry; [apply world_s5_tree_ok|].
  vm_compute. reflexivity.
Qed.

Lemma rename_leaves_tombstone_and_old_destination_witness :
  exists es,
    entry
      (dir_tree_on_rename_delete_cb
         (dir_tree_on_rename_delete_con_cb
            (dir_tree_on_rename_copy_cb world_s5_y rename_x_y true) rename_x_y)
         rename_x_y true)
      4
    = Some (set_removed true es).
Proof.
  eassert (Hpe : entry world_s5_y (rd_parent_ino rename_x_y) = Some _)
    by (vm_compute; reflexivity).
  eassert (Hnpe : entry world_s5_y (rd_newparent_ino rename_x_y) = Some _)
    by (vm_compute; reflexivity).
  match type of Hpe with _ = Some ?pe =>
    eassert (Hcs : child (dtree world_s5_y) pe (rd_name rename_x_y) = Some (_, _))
      by (vm_compute; reflexivity)
  end.
  match type of Hnpe with _ = Some ?npe =>
    eassert (Hcd : child (dtree world_s5_y) npe (rd_newname rename_x_y) = Some (_, _))
      by (vm_compute; reflexivity)
  end.
  assert (Hne : 4 <> 5) by lia.
  pose proof (rename_leaves_tombstone_and_old_destination world_s5_y rename_x_y _ _ _ _ _ _
                world_s5_y_tree_ok eq_refl eq_refl Hpe eq_refl Hnpe eq_refl
                Hcs eq_refl Hcd eq_refl Hne) as H.
  cbv zeta in H. destruct H as (H & _).
  eexists. exact H.
Defined.

(** ** The initial tree *)

(** X21.  The tree right after [dir_tree_create]: the index holds the
    root and nothing else; the root has the reserved inode number
    [FUSE_ROOT_ID], no parent, the name "/", the empty path, an empty
    children table and no listing cache; the next inode number is 2; the
    default modes are the configured ones with the type bits set, or
    [S_IFREG | 0644] and [S_IFDIR | 0755] when the configuration gives a
    negative value; no call is made. *)
Theorem dir_tree_create_makes_the_root (c : Conf) (w : World) :
  let w' := dir_tree_create c w in
  let dm :=
    if filesystem_dir_mode c <? 0 then DIR_DEFAULT_MODE
    else Z.lor (filesystem_dir_mode c) S_IFDIR in
  root (dtree w') = Some FUSE_ROOT_ID
  /\ entry w' FUSE_ROOT_ID
     = Some (mkDirEntry FUSE_ROOT_ID 0 "/" "" DET_dir 0 false false 0 dm
               (clock w (ticks w)) None 0 0 false (Some []) false 0
               (clock w (S (ticks w))) None None None 0)
  /\ (forall q, q <> FUSE_ROOT_ID -> entry w' q = None)
  /\ max_ino (dtree w') = 2
  /\ dmode (dtree w') = dm
  /\ fmode (dtree w')
     = (if filesystem_file_mode c <? 0 then FILE_DEFAULT_MODE
        else Z.lor (filesystem_file_mode c) S_IFREG)
  /\ app (dtree w') = c
  /\ trace w' = trace w.
Proof.
  unfold dir_tree_create, dir_tree_add_entry. wsimpl. cbn.
  repeat split; try apply lookup_insert_eq.
  intros q Hq. rewrite lookup_insert_ne by done. apply lookup_empty.
Qed.

(** ** Open-directory handles *)

(** X22.  opendir and releasedir are a round trip on the table of
    handles and never touch the tree: [dir_tree_opendir] on an inode of the
    index (a directory or not: the type is not looked at) gives a new handle
    with an empty buffer and leaves the other handles alone;
    [dir_tree_releasedir] of that handle gives back the table of handles as
    it was. *)
Theorem opendir_releasedir_round_trip (w : World) (i fh : Z) (e : DirEntry) :
  entry w i = Some e ->
  dir_ops w !! next_fh w = None -> next_fh w <> 0 ->
  let r := dir_tree_opendir w i fh in
  let w1 := snd r in
  let w2 := snd (dir_tree_releasedir w1 (snd (fst r))) in
  fst r = (true, next_fh w)
  /\ dop_of w1 (next_fh w) = Some (mkDirOpData None 0)
  /\ (forall h, h <> next_fh w -> dir_ops w1 !! h = dir_ops w !! h)
  /\ dtree w1 = dtree w /\ trace w1 = trace w
  /\ dir_ops w2 = dir_ops w /\ dtree w2 = dtree w /\ trace w2 = trace w.
Proof.
  intros He Hfree Hnz r w1 w2. subst w2 w1 r.
  unfold dir_tree_opendir. rewrite He. cbn [fst snd].
  unfold dir_tree_releasedir, dop_of. cbn [snd].
  apply Z.eqb_neq in Hnz. rewrite Hnz. wsimpl.
  repeat split.
  - apply lookup_insert_eq.
  - intros h Hh. by rewrite lookup_insert_ne.
  - rewrite delete_insert_eq. by apply delete_id.
Qed.

Lemma opendir_releasedir_round_trip_witness :
  fst (dir_tree_opendir world_root_only 1 0) = (true, 1).
Proof.
  eassert (He : entry world_root_only 1 = Some _) by (vm_compute; reflexivity).
  assert (Hfree : dir_ops world_root_only !! next_fh world_root_only = None)
    by (vm_compute; reflexivity).
  assert (Hnz : next_fh world_root_only <> 0) by (vm_compute; discriminate).
  pose proof (opendir_releasedir_round_trip world_root_only 1 0 _ He Hfree Hnz) as H.
  cbv zeta in H. destruct H as (H & _). exact H.
Defined.

(** ** A tombstone that is declared present again *)

(** X23.  [dir_tree_set_entry_exist] undoes the removed mark of an unlink
    but not its age: after the completion of a DELETE has tombstoned a file
    (removed, age 0), marking the entry present clears [removed] and leaves
    the age at 0, so a directory buffer built for a parent whose age is above
    0 still does not show the file; only a listing refresh or a create gives
    it the parent's age again.  Directories are not touched by
    [dir_tree_set_entry_exist]. *)
Theorem set_entry_exist_keeps_age_zero (w : World) (data : FileRemoveData)
    (success : bool) (e : DirEntry) :
  entry w (fr_ino data) = Some e -> type e = DET_file ->
  let w1 := dir_tree_file_remove_on_con_data_cb w data success in
  let t2 := dir_tree_set_entry_exist (dtree w1) (fr_ino data) in
  (exists e2,
     h_inodes t2 !! fr_ino data = Some e2 /\ removed e2 = false /\ age e2 = 0
     /\ ino e2 = ino e
     /\ forall d, 0 < age d -> visible_not_older d e2 = false)
  /\ (forall q d, h_inodes t2 !! q = Some d -> type d = DET_dir ->
        dir_tree_set_entry_exist t2 q = t2).
Proof.
  intros He Hty w1 t2.
  destruct (file_remove_completion w data success e He)
    as ((e1 & He1 & Hr1 & Ha1) & _ & Hsk & _).
  fold w1 in He1, Hsk.
  pose proof (Hsk (fr_ino data)) as Hs. rewrite He1, He in Hs. injection Hs as Hi _ Ht _ _.
  split.
  - exists (set_removed false e1). subst t2. unfold dir_tree_set_entry_exist.
    unfold entry in He1. rewrite He1, Ht, Hty.
    split; [exact (lookup_modify_eq _ _ _ _ He1)|]. cbn.
    repeat split; try done.
    intros d Hd. unfold visible_not_older. cbn. rewrite Ha1.
    apply andb_false_intro1. lia.
  - intros q d Hd Hdty. unfold dir_tree_set_entry_exist. by rewrite Hd, Hdty.
Qed.

Lemma set_entry_exist_keeps_age_zero_witness :
  exists e2,
    h_inodes
      (dir_tree_set_entry_exist
         (dtree (dir_tree_file_remove_on_con_data_cb world_delete_sent unlink_f true)) 2)
      !! 2
    = Some e2
    /\ removed e2 = false /\ age e2 = 0.
Proof.
  eassert (He : entry world_delete_sent (fr_ino unlink_f) = Some _)
    by (vm_compute; reflexivity).
  pose proof (set_entry_exist_keeps_age_zero world_delete_sent unlink_f true _ He eq_refl)
    as H.
  cbv zeta in H. destruct H as ((e2 & H1 & H2 & H3 & _) & _).
  exists e2. split; [exact H1|]. split; [exact H2|exact H3].
Defined.

(** ** Negative caching *)

(** The parent of the entry made by [dir_tree_add_entry]: it gets the link
    and loses its listing cache. *)
Lemma add_entry_parent_exact (w w' : World) (name : string) (md : Z) (ty : DirEntryType)
    (parent sz ct : Z) (pe : DirEntry) (o : option Z) :
  tree_ok (dtree w) -> entry w parent = Some pe -> type pe = DET_dir ->
  dir_tree_add_entry w name md ty parent sz ct = (o, w') -> o <> None ->
  entry w' parent
  = Some (reset_dir_cache
            (set_h_dir_tree (g_hash_table_insert (h_dir_tree pe) name (max_ino (dtree w)))
               pe))
  /\ forall q, q <> parent -> q <> max_ino (dtree w) -> entry w' q = entry w q.
Proof.
  intros Hok Hpe Hpty Hadd Ho.
  assert (Hp0 : parent <> 0).
  { intros ->. destruct (ok_alloc _ Hok _ _ Hpe). lia. }
  assert (Hlt : parent < max_ino (dtree w)) by (destruct (ok_alloc _ Hok _ _ Hpe); done).
  revert Hadd. unfold dir_tree_add_entry.
  apply Z.eqb_neq in Hp0. rewrite Hp0. wsimpl. rewrite Hpe.
  rewrite bool_decide_eq_false_2 by done. cbn [negb andb].
  destruct (match child (dtree w) pe name with
            | Some (_, en) => negb (DirEntryType_eqb (type en) ty)
            | None => false
            end); [intros [= <- _]; done|].
  intros [= _ <-]. wsimpl.
  rewrite modify_mark_destroyed, entry_modified_mark_destroyed, h_inodes_mark_destroyed.
  rewrite (entry_modified_dir_exact (dtree w) parent pe Hpe Hpty).
  rewrite !max_ino_modify.
  set (i := max_ino (dtree w)).
  set (en := mkDirEntry _ _ _ _ _ _ _ _ _ _ _ _ _ _ _ _ _ _ _ _ _ _ _).
  set (ins := fun pe0 : DirEntry => set_h_dir_tree _ pe0).
  set (t3 := set_h_inodes _ _).
  assert (H3p : h_inodes t3 !! parent = Some (reset_dir_cache pe)).
  { unfold t3. cbn. rewrite lookup_insert_ne by lia.
    exact (lookup_modify_eq _ _ _ _ Hpe). }
  assert (H4p : h_inodes (modify parent ins t3) !! parent = Some (ins (reset_dir_cache pe)))
    by exact (lookup_modify_eq _ _ ins _ H3p).
  rewrite (entry_modified_dir_exact _ parent _ H4p) by done.
  split.
  - rewrite (lookup_modify_eq _ _ _ _ H4p). unfold ins. cbn. by destruct pe.
  - intros q Hq1 Hq2. rewrite !lookup_modify_ne by done. unfold t3. cbn.
    rewrite lookup_insert_ne by done. by rewrite lookup_modify_ne.
Qed.

(** X24.  A failed HEAD for an unknown name leaves a tombstone: when the
    HEAD sent by a lookup of [name] under the directory [parent] fails,
    [dir_tree_on_lookup_not_found_cb] adds a file entry for the name at the
    inode number [max_ino], of size 0 and with the default file mode, marks
    it removed, links it under the directory (whose listing cache is
    dropped, its time stamp kept), releases the connection and reports
    not-found. *)
Theorem failed_head_leaves_tombstone (w : World) (op_data : LookupOpData)
    (headers : Headers) (pe : DirEntry) (l : list (string * Z)) :
  tree_ok (dtree w) ->
  entry w (lo_parent_ino op_data) = Some pe -> type pe = DET_dir ->
  h_dir_tree pe = Some l ->
  child (dtree w) pe (lo_name op_data) = None ->
  let w' := dir_tree_on_lookup_not_found_cb w op_data false headers in
  let i := max_ino (dtree w) in
  entry w' i
  = Some (mkDirEntry i (lo_parent_ino op_data) (lo_name op_data)
            (path_under (lo_parent_ino op_data) (fullpath pe) (lo_name op_data))
            DET_file (age pe) true false 0 (fmode (dtree w)) (clock w (S (ticks w)))
            None 0 0 false None false 0 (clock w (S (S (ticks w)))) None None None 0)
  /\ entry w' (lo_parent_ino op_data)
     = Some (reset_dir_cache
               (set_h_dir_tree (Some (children_replace (lo_name op_data) i l)) pe))
  /\ (forall q, q <> lo_parent_ino op_data -> q <> i -> entry w' q = entry w q)
  /\ trace w'
     = trace w ++ [http_connection_release; lookup_cb (lo_req op_data) false 0 0 0 0]
  /\ ticks w' = (3 + ticks w)%nat.
Proof.
  intros Hok Hpe Hpty Hl Hc w' i. subst w'.
  assert (Hlt : lo_parent_ino op_data < i) by (destruct (ok_alloc _ Hok _ _ Hpe); done).
  unfold dir_tree_on_lookup_not_found_cb. wsimpl. rewrite Hpe. wsimpl.
  match goal with |- context [dir_tree_add_entry ?W ?n ?m ?t ?p ?s ?c] =>
    destruct (add_entry_exact W n m t p s c pe) as (w' & Hadd & He & Htk & Hclk & Htr & Hfm);
      [exact Hok|exact Hpe|wsimpl; rewrite Hc; done|];
    destruct (add_entry_parent_exact W w' n m t p s c pe (Some i) Hok Hpe Hpty Hadd)
      as [Hp Hq]; [done|]
  end.
  wsimpl. rewrite Hadd. fold i in He, Hp, Hq |- *. wsimpl.
  rewrite Htr, Htk. rewrite Hl in Hp. cbn [g_hash_table_insert] in Hp.
  split; [|split; [|split; [|split]]].
  - rewrite (lookup_modify_eq _ _ _ _ He). done.
  - rewrite lookup_modify_ne by lia. exact Hp.
  - intros q Hq1 Hq2. rewrite lookup_modify_ne by done. by apply Hq.
  - by rewrite <- app_assoc.
  - done.
Qed.

Lemma failed_head_leaves_tombstone_witness :
  exists e, entry world_tombstone_m 2 = Some e /\ removed e = true.
Proof.
  eassert (Hpe : entry world_root_only (lo_parent_ino lookup_m) = Some _)
    by (vm_compute; reflexivity).
  match type of Hpe with _ = Some ?pe =>
    assert (Hc : child (dtree world_root_only) pe (lo_name lookup_m) = None)
      by (vm_compute; reflexivity)
  end.
  pose proof (failed_head_leaves_tombstone world_root_only lookup_m no_headers _ []
                (tree_ok_create _ _) Hpe eq_refl eq_refl Hc) as H.
  cbv zeta in H. destruct H as (H & _).
  eexists. split; [exact H|reflexivity].
Defined.

Lemma modify_modify (t : DirTree) (p : Z) (f g : DirEntry -> DirEntry) :
  modify p g (modify p f t) = modify p (fun e => g (f e)) t.
Proof.
  unfold modify at 2 3. destruct (h_inodes t !! p) as [e|] eqn:He.
  - unfold modify. cbn. rewrite lookup_insert_eq. unfold set_h_inodes. cbn.
    by rewrite insert_insert_eq.
  - unfold modify. by rewrite He.
Qed.

(** A listing built from the tree for a request without handle. *)
Lemma fill_on_dir_buf_cb_local (w : World) (d : DirTreeFillDirData) (en : DirEntry) :
  entry w (fd_ino d) = Some en -> dop_of w (fd_dop d) = None ->
  let blob := listing_blob_with visible_not_older w (fd_ino d) en in
  let cache := copy_buf blob (buf_size blob) in
  dir_tree_fill_on_dir_buf_cb w d true
  = emit
      (readdir_cb (fd_readdir_cb d) (fd_req d) true (fd_size d) (fd_off d) cache
         (buf_size blob))
      (set_dtree
         (modify (fd_ino d)
            (fun e =>
               set_dir_cache_created (clock w (ticks w))
                 (set_dir_cache cache
                    (set_dir_cache_size (buf_size blob)
                       (set_is_modified false (set_dir_cache_updating false e)))))
            (dtree w))
         (set_ticks (S (ticks w)) w)).
Proof.
  intros Hen Hdop blob cache. unfold dir_tree_fill_on_dir_buf_cb. rewrite Hen. wsimpl.
  set (clr := fun e : DirEntry => set_is_modified false (set_dir_cache_updating false e)).
  assert (H1 : h_inodes (modify (fd_ino d) clr (dtree w)) !! fd_ino d = Some (clr en))
    by exact (lookup_modify_eq _ _ clr en Hen).
  rewrite H1.
  set (w1 := on_tree (modify (fd_ino d) clr) w).
  assert (Hb : build_dirbuf w1 (fd_ino d) (clr en) = blob).
  { unfold build_dirbuf. cbn [age h_dir_tree clr set_is_modified set_dir_cache_updating].
    rewrite (add_children_view w w1).
    - unfold blob. by rewrite <- build_dirbuf_spec.
    - intros v. unfold w1. wsimpl. by rewrite proj_modify.
    - done. }
  rewrite Hb. fold cache.
  assert (Hd : dop_of
                 (on_tree
                    (modify (fd_ino d)
                       (fun e => set_dir_cache cache (set_dir_cache_size (buf_size blob) e)))
                    w1) (fd_dop d) = None) by exact Hdop.
  rewrite Hd. unfold w1, on_tree, emit, set_dtree, set_ticks, set_trace. cbn.
  by rewrite !modify_modify.
Qed.

(** X25.  Negative caching works without the network.  Take a directory
    whose listing cache has been dropped (as the insertion of a tombstone
    does) while its last listing is at most [dir_cache_max_time] old, and a
    name under it that is tombstoned and was touched less than
    [file_cache_max_time] ago.  A lookup of the name rebuilds the listing of
    the directory from the tree, retries once, and reports not-found: the
    only calls are the internal completion of the rebuilt listing and the
    report; no connection is asked for, and only the listing cache of the
    directory changes. *)
Theorem lookup_of_fresh_tombstone_needs_no_request (w : World) (parent : Z)
    (name : string) (req : Z) (pe c : DirEntry) (p : Z) :
  tree_ok (dtree w) ->
  entry w parent = Some pe -> type pe = DET_dir ->
  dir_cache_size pe = 0 -> dir_cache_created pe <> 0 -> dir_cache_updating pe = false ->
  child (dtree w) pe name = Some (p, c) -> removed c = true ->
  (forall b nm j s, (length b < length (rfuse_add_dirbuf w b nm j s))%nat) ->
  let k := ticks w in
  clock w k - dir_cache_created pe <= filesystem_dir_cache_max_time (app (dtree w)) ->
  clock w (S k) <> 0 ->
  (clock w (S (S k)) < clock w (S k)
   \/ clock w (S (S k)) - clock w (S k) <= filesystem_dir_cache_max_time (app (dtree w))) ->
  clock w (S (S (S k))) - access_time c < filesystem_file_cache_max_time (app (dtree w)) ->
  let blob := listing_blob_with visible_not_older w parent pe in
  exists wf,
    run_readdir_cb 1 (dir_tree_lookup w parent name req) = Some wf
    /\ trace wf
       = trace w
         ++ [readdir_cb
               (cb_dir_tree_on_lookup_read (mkLookupOpData req 0 true name parent)) req
               true (1024 * 1024 * 1) 0 (Some blob) (buf_size blob);
             lookup_cb req false 0 0 0 0]
    /\ forall q, q <> parent -> entry wf q = entry w q.
Proof.
  intros Hok Hpe Hpty Hsz Hcr Hupd Hc Hrm Hg k Hr1 Hr2 Hr3 Hr4 blob. subst k.
  destruct (tree_ok_child_ne _ _ _ _ _ _ Hok Hpe Hc) as (_ & _ & _ & Hlt).
  pose proof (ok_index _ Hok _ _ Hpe) as Hino. cbn in Hino.
  pose proof (proj1 (child_Some _ _ _ _ _) Hc) as [Hf Hcp].
  assert (Hn : buf_size blob <> 0) by (by apply listing_blob_nonempty).
  (* the first pass: the cache is empty, the listing is rebuilt from the tree *)
  set (op := mkLookupOpData req 0 true name parent).
  set (d := mkDirTreeFillDirData parent (1024 * 1024 * 1) 0
              (cb_dir_tree_on_lookup_read op) req 0).
  set (w0 := set_ticks (S (ticks w)) (on_tree (modify parent reset_dir_cache) w)).
  assert (Hexp : dir_tree_is_cache_expired w pe = (true, w)).
  { unfold dir_tree_is_cache_expired. by rewrite Hsz. }
  assert (H1 : dir_tree_lookup w parent name req = dir_tree_fill_on_dir_buf_cb w0 d true).
  { unfold dir_tree_lookup. rewrite Hpe, Hpty, Hexp. rewrite Hino.
    unfold dir_tree_fill_dir_buf. rewrite Hpe, Hpty. cbn [default from_option id].
    unfold dop_of at 1. cbn [Z.eqb]. rewrite Hexp. cbn [negb Z.gtb Z.compare].
    rewrite Hupd. apply Z.eqb_neq in Hcr. rewrite Hcr. wsimpl. rewrite app_modify.
    assert (Hs : (clock w (ticks w) - dir_cache_created pe
                  >? filesystem_dir_cache_max_time (app (dtree w))) = false)
      by (rewrite Z.gtb_ltb; apply Z.ltb_ge; lia).
    by rewrite Hs. }
  assert (H0p : entry w0 parent = Some (reset_dir_cache pe)).
  { unfold w0. wsimpl. exact (lookup_modify_eq _ _ _ _ Hpe). }
  assert (Hblob : listing_blob_with visible_not_older w0 parent (reset_dir_cache pe) = blob).
  { unfold blob. rewrite <- !build_dirbuf_spec. unfold build_dirbuf.
    cbn [age h_dir_tree reset_dir_cache set_dir_cache set_dir_cache_size].
    apply (add_children_view w w0); [|done].
    intros v. unfold w0. wsimpl. by rewrite proj_modify. }
  pose proof (fill_on_dir_buf_cb_local w0 d (reset_dir_cache pe) H0p eq_refl) as H2.
  cbv zeta in H2. cbn [fd_ino d] in H2. rewrite Hblob in H2.
  rewrite copy_buf_all in H2. apply Z.eqb_neq in Hn. rewrite Hn in H2.
  unfold w0 in H2 at 2 3 4. wsimpl. rewrite modify_modify in H2.
  set (fin := fun e : DirEntry => set_dir_cache_created _ _) in H2.
  set (w1 := dir_tree_lookup w parent name req).
  assert (Hw1 : w1 = emit (readdir_cb (cb_dir_tree_on_lookup_read op) req true
                             (1024 * 1024 * 1) 0 (Some blob) (buf_size blob))
                      (set_dtree (modify parent fin (dtree w)) (set_ticks (S (S (ticks w))) w))).
  { unfold w1. rewrite H1, H2. done. }
  (* the retry *)
  assert (Hpend : pending_lookup_read w1 = Some (op, true)).
  { unfold pending_lookup_read. rewrite Hw1. wsimpl. by rewrite last_snoc. }
  assert (H1p : entry w1 parent = Some (fin pe)).
  { rewrite Hw1. wsimpl. exact (lookup_modify_eq _ _ fin _ Hpe). }
  assert (H1c : child (dtree w1) (fin pe) name = Some (p, c)).
  { apply child_Some. split; [exact Hf|]. rewrite Hw1. wsimpl.
    by rewrite lookup_modify_ne by lia. }
  assert (Hexp1 : dir_tree_is_cache_expired w1 (fin pe)
                  = (false, set_ticks (S (S (S (ticks w)))) w1)).
  { unfold dir_tree_is_cache_expired. cbn [fin dir_cache_size dir_cache_created
      is_modified set_dir_cache_created set_dir_cache set_dir_cache_size set_is_modified].
    rewrite Hn. apply Z.eqb_neq in Hr2. rewrite Hr2. cbn [orb].
    rewrite Hw1. wsimpl. rewrite app_modify.
    destruct (clock w (S (S (ticks w))) <? clock w (S (ticks w))) eqn:Hreg; [done|].
    assert (Hs : (clock w (S (S (ticks w))) - clock w (S (ticks w))
                  >? filesystem_dir_cache_max_time (app (dtree w))) = false)
      by (rewrite Z.gtb_ltb; apply Z.ltb_ge; lia).
    by rewrite Hs. }
  destruct (lookup_recent_tombstone_not_found w1 _ parent name req (fin pe) c p
              H1p Hpty Hexp1 H1c Hrm) as [Htr Hdt].
  { rewrite Hw1. wsimpl. rewrite app_modify. exact Hr4. }
  exists (dir_tree_lookup w1 parent name req). split; [|split].
  - cbn [run_readdir_cb]. fold w1. rewrite Hpend.
    unfold dir_tree_on_lookup_read. cbn [negb lo_parent_ino lo_name lo_req op].
    unfold pending_lookup_read. rewrite Htr, last_snoc. done.
  - rewrite Htr, Hw1. wsimpl. by rewrite <- app_assoc.
  - intros q Hq. unfold entry. rewrite Hdt, Hw1. wsimpl. by rewrite lookup_modify_ne.
Qed.

Lemma lookup_of_fresh_tombstone_needs_no_request_witness :
  exists wf blob,
    run_readdir_cb 1 (dir_tree_lookup world_fresh_tombstone 1 "m" 51) = Some wf
    /\ trace wf
       = trace world_fresh_tombstone
         ++ [readdir_cb (cb_dir_tree_on_lookup_read (mkLookupOpData 51 0 true "m" 1)) 51
               true (1024 * 1024 * 1) 0 (Some blob) (buf_size blob);
             lookup_cb 51 false 0 0 0 0].
Proof.
  assert (Hok : tree_ok (dtree world_fresh_tombstone)).
  { apply tree_step_on_lookup_not_found_cb.
    - apply (tree_ok_le _ (dtree world_root_only)); [|apply tree_ok_create].
      apply tle_fill_on_dir_buf_cb, tree_le_refl.
    - unfold roomy. vm_compute. reflexivity. }
  eassert (Hpe : entry world_fresh_tombstone 1 = Some _) by (vm_compute; reflexivity).
  match type of Hpe with _ = Some ?pe =>
    eassert (Hc : child (dtree world_fresh_tombstone) pe "m" = Some (_, _))
      by (vm_compute; reflexivity)
  end.
  match type of Hc with child _ ?pe _ = _ =>
    assert (Hnz : dir_cache_created pe <> 0) by (vm_compute; discriminate)
  end.
  pose proof (lookup_of_fresh_tombstone_needs_no_request world_fresh_tombstone 1 "m" 51
                _ _ _ Hok Hpe eq_refl eq_refl Hnz eq_refl Hc eq_refl) as H.
  cbv zeta in H.
  destruct H as (wf & Hrun & Htr & _).
  - intros b nm j s. apply example_add_dirbuf_grows.
  - vm_compute. discriminate.
  - vm_compute. discriminate.
  - right. vm_compute. discriminate.
  - vm_compute. reflexivity.
  - exists wf. eexists. split; [exact Hrun|exact Htr].
Defined.

(** * The table of MIME types *)

Lemma ascii_eqb_false (a b : ascii) : a <> b -> (a =? b)%char = false.
Proof. apply Ascii.eqb_neq. Qed.

Lemma c_str_app (l rest : list ascii) :
  Forall (fun a => a <> NUL) l -> c_str (l ++ NUL :: rest) = l.
Proof.
  induction 1 as [|a l Ha _ IH]; [done|].
  cbn [c_str List.app]. by rewrite (ascii_eqb_false _ _ Ha), IH.
Qed.

Lemma c_str_all (l : list ascii) : Forall (fun a => a <> NUL) l -> c_str l = l.
Proof.
  induction 1 as [|a l Ha _ IH]; [done|].
  cbn [c_str List.app]. by rewrite (ascii_eqb_false _ _ Ha), IH.
Qed.

Lemma strchr_app (pre post : list ascii) (c : ascii) :
  Forall (fun a => a <> c /\ a <> NUL) pre ->
  strchr (pre ++ c :: post) c = Some (length pre).
Proof.
  induction 1 as [|a l [Ha Hn] _ IH]; cbn [strchr List.app].
  - by rewrite Ascii.eqb_refl.
  - by rewrite (ascii_eqb_false _ _ Ha), (ascii_eqb_false _ _ Hn), IH.
Qed.

Lemma strchr_None (l rest : list ascii) (c : ascii) :
  c <> NUL -> Forall (fun a => a <> c) l -> strchr (l ++ NUL :: rest) c = None.
Proof.
  intros Hc. induction 1 as [|a l Ha _ IH]; cbn [strchr List.app].
  - rewrite ascii_eqb_false by congruence. by rewrite Ascii.eqb_refl.
  - rewrite (ascii_eqb_false _ _ Ha), IH. by destruct (a =? NUL)%char.
Qed.

Lemma scan_app (f : ascii -> bool) (pre : list ascii) (x : ascii) (post : list ascii) :
  Forall (fun a => f a = true) pre -> f x = false ->
  scan f (pre ++ x :: post) = length pre.
Proof.
  intros Hpre Hx. induction Hpre as [|a l Ha _ IH]; cbn [scan List.app].
  - by rewrite Hx.
  - by rewrite Ha, IH.
Qed.

Lemma insert_app_mid (pre : list ascii) (x y : ascii) (post : list ascii) :
  <[length pre := y]> (pre ++ x :: post) = pre ++ y :: post.
Proof.
  rewrite insert_app_r_alt by lia. by rewrite Nat.sub_diag.
Qed.

Lemma drop_app_mid (pre post : list ascii) : drop (length pre) (pre ++ post) = post.
Proof. by rewrite drop_app_length. Qed.

Lemma peek_app_mid (pre : list ascii) (x : ascii) (post : list ascii) :
  peek (pre ++ x :: post) (length pre) = x.
Proof. unfold peek. by rewrite list_lookup_middle. Qed.

Lemma is_blank_cases (c : ascii) : is_blank c = true -> c = TAB \/ c = SPC.
Proof.
  unfold is_blank. intros [H|H]%orb_true_iff; apply Ascii.eqb_eq in H; auto.
Qed.

Lemma blank_no_eol_blank (c : ascii) : is_blank c = true -> blank_no_eol c = true.
Proof. by intros [-> | ->]%is_blank_cases. Qed.

Lemma blank_no_eol_other (c : ascii) : is_blank c = false -> blank_no_eol c = false.
Proof.
  unfold is_blank, blank_no_eol. intros ->. by rewrite andb_false_r.
Qed.

Lemma not_eol_cases (c : ascii) :
  not_eol c = true <-> c <> CR /\ c <> LF /\ c <> NUL.
Proof.
  unfold not_eol. rewrite !andb_true_iff, !negb_true_iff, !Ascii.eqb_neq. tauto.
Qed.

(** What the loop body does with a buffer that holds [pre], one byte, the
    extensions and the end of the line, once the first blank is found
    [p] bytes into it and the blanks end one byte before the extensions. *)
Lemma load_line_at (line pre : list ascii) (x : ascii) (e0 : ascii) (e' : list ascii)
    (z : ascii) (zs : list ascii) (p : nat) (alloc_ok : bool) :
  let e := e0 :: e' in
  negb (((peek line 0 =? "#") || (peek line 0 =? NUL) || (peek line 0 =? CR)
         || (peek line 0 =? LF))%char) = true ->
  match strchr line TAB with Some p => Some p | None => strchr line SPC end = Some p ->
  <[p := NUL]> line = pre ++ x :: e ++ z :: zs ->
  (S p + scan blank_no_eol (drop (S p) (<[p := NUL]> line)) = S (length pre))%nat ->
  Forall (fun c => not_eol c = true) e -> not_eol z = false ->
  mimetypes_load_line line alloc_ok
  = (pre ++ SPC :: e ++ NUL :: zs,
     if alloc_ok
     then step_append (mk_mimetype_t (c_str (pre ++ SPC :: e ++ NUL :: zs))
                         (SPC :: e ++ [SPC]))
     else step_continue).
Proof.
  intros e H0 Hp H1 Hscan He Hz.
  unfold mimetypes_load_line. apply negb_true_iff in H0. rewrite H0, Hp.
  cbv zeta. rewrite Hscan, H1.
  replace (pre ++ x :: e ++ z :: zs) with ((pre ++ [x]) ++ e0 :: e' ++ z :: zs)
    by (by rewrite <- app_assoc).
  replace (S (length pre)) with (length (pre ++ [x])) by (rewrite length_app; cbn; lia).
  rewrite peek_app_mid.
  pose proof (Forall_inv He) as He0. apply not_eol_cases in He0 as (Hcr & Hlf & Hnul).
  rewrite !ascii_eqb_false by done. cbn [orb].
  replace (Init.Nat.pred (length (pre ++ [x]))) with (length pre)
    by (rewrite length_app; cbn; lia).
  rewrite <- app_assoc. cbn [List.app]. rewrite insert_app_mid, drop_app_mid.
  assert (Hs : scan not_eol (SPC :: e0 :: e' ++ z :: zs) = S (length e)).
  { change (SPC :: e0 :: e' ++ z :: zs) with ((SPC :: e) ++ z :: zs).
    rewrite scan_app; [done| |done]. by constructor. }
  rewrite Hs.
  replace (length pre + S (length e) =? length pre)%nat with false
    by (symmetry; apply Nat.eqb_neq; lia).
  assert (H3 : <[(length pre + S (length e))%nat := NUL]> (pre ++ SPC :: e0 :: e' ++ z :: zs)
               = pre ++ SPC :: e ++ NUL :: zs).
  { replace (pre ++ SPC :: e0 :: e' ++ z :: zs) with ((pre ++ SPC :: e) ++ z :: zs)
      by (by rewrite <- app_assoc).
    replace (length pre + S (length e))%nat with (length (pre ++ SPC :: e))
      by (rewrite length_app; cbn; lia).
    rewrite insert_app_mid. by rewrite <- app_assoc. }
  rewrite H3, drop_app_mid.
  assert (H4 : c_str (SPC :: e ++ NUL :: zs) = SPC :: e).
  { change (SPC :: e ++ NUL :: zs) with ((SPC :: e) ++ NUL :: zs).
    apply c_str_app. constructor; [done|].
    eapply Forall_impl; [exact He|]. intros c Hc. cbn beta in Hc.
    apply not_eol_cases in Hc. tauto. }
  rewrite H4. by destruct alloc_ok.
Qed.

(** A well-formed line gives one entry; after a single blank the type of
    the entry runs on into the extensions. *)
Lemma load_line_wf (t0 : ascii) (ty' : list ascii)
    (s0 : ascii) (seps : list ascii) (e0 : ascii) (e' eol rest : list ascii) :
  let ty := t0 :: ty' in
  let e := e0 :: e' in
  ~ In t0 ["#"%char; CR; LF] ->
  Forall (fun c => is_blank c = false /\ c <> NUL) ty ->
  is_blank s0 = true -> Forall (fun c => is_blank c = true) seps ->
  s0 = TAB \/ ~ In TAB (seps ++ e ++ eol) ->
  is_blank e0 = false -> Forall (fun c => not_eol c = true) e ->
  Forall (fun c => c <> NUL) eol ->
  (forall c, head eol = Some c -> c = CR \/ c = LF) ->
  snd (mimetypes_load_line (ty ++ s0 :: seps ++ e ++ eol ++ NUL :: rest) true)
  = step_append
      (mk_mimetype_t (if decide (seps = []) then ty ++ SPC :: e else ty)
         (SPC :: e ++ [SPC])).
Proof.
  intros ty e Ht0 Hty Hs0 Hseps Htab He0 He Heol Hhd.
  set (line := ty ++ s0 :: seps ++ e ++ eol ++ NUL :: rest).
  assert (Hz : exists z zs, eol ++ NUL :: rest = z :: zs /\ not_eol z = false).
  { destruct eol as [|c eol'].
    - by exists NUL, rest.
    - exists c, (eol' ++ NUL :: rest). split; [done|].
      by destruct (Hhd c eq_refl) as [-> | ->]. }
  destruct Hz as (z & zs & Hzs & Hz).
  assert (Hnb : forall c, is_blank c = false -> c <> TAB /\ c <> SPC).
  { intros c Hc. split; intros ->; discriminate. }
  assert (Hp : match strchr line TAB with Some p => Some p | None => strchr line SPC end
               = Some (length ty)).
  { destruct (is_blank_cases _ Hs0) as [-> | ->].
    - unfold line. rewrite strchr_app; [done|].
      eapply Forall_impl; [exact Hty|]. intros c [Hc ?]. by destruct (Hnb c Hc).
    - destruct Htab as [|Htab]; [done|].
      assert (Hn : strchr line TAB = None).
      { unfold line.
        replace (ty ++ SPC :: seps ++ e ++ eol ++ NUL :: rest)
          with ((ty ++ SPC :: seps ++ e ++ eol) ++ NUL :: rest)
          by (rewrite <- app_assoc; cbn [List.app]; by rewrite <- !app_assoc).
        apply strchr_None; [done|].
        apply Forall_app. split.
        - eapply Forall_impl; [exact Hty|]. intros c [Hc ?]. by destruct (Hnb c Hc).
        - constructor; [done|]. apply Forall_forall. intros c Hc ->.
          by apply Htab, list_elem_of_In. }
      rewrite Hn. unfold line. rewrite strchr_app; [done|].
      eapply Forall_impl; [exact Hty|]. intros c [Hc ?]. by destruct (Hnb c Hc). }
  assert (H1 : <[length ty := NUL]> line = ty ++ NUL :: seps ++ e ++ z :: zs).
  { unfold line. by rewrite insert_app_mid, Hzs. }
  assert (Hscan : (S (length ty)
                   + scan blank_no_eol (drop (S (length ty)) (<[length ty := NUL]> line))
                   = S (length ty + length seps))%nat).
  { rewrite H1.
    replace (ty ++ NUL :: seps ++ e ++ z :: zs) with ((ty ++ [NUL]) ++ seps ++ e ++ z :: zs)
      by (by rewrite <- app_assoc).
    replace (S (length ty)) with (length (ty ++ [NUL])) at 2
      by (rewrite length_app; cbn; lia).
    rewrite drop_app_mid. unfold e. cbn [List.app]. rewrite scan_app; [lia| |].
    - eapply Forall_impl; [exact Hseps|]. intros c. apply blank_no_eol_blank.
    - by apply blank_no_eol_other. }
  assert (H0 : negb (((peek line 0 =? "#") || (peek line 0 =? NUL) || (peek line 0 =? CR)
                      || (peek line 0 =? LF))%char) = true).
  { change (peek line 0) with t0. cbn [In] in Ht0.
    pose proof (Forall_inv Hty) as [_ Hn].
    rewrite !ascii_eqb_false; [done|..]; intros ->; tauto. }
  destruct (decide (seps = [])) as [-> | Hne].
  - pose proof (load_line_at line ty NUL e0 e' z zs (length ty) true H0 Hp) as H.
    cbv zeta in H. rewrite H; [|exact H1| |exact He|exact Hz].
    + cbn [snd]. f_equal. f_equal.
      change (ty ++ SPC :: (e0 :: e') ++ NUL :: zs) with (ty ++ (SPC :: e) ++ NUL :: zs).
      rewrite app_assoc. apply c_str_app. apply Forall_app. split.
      * eapply Forall_impl; [exact Hty|]. by intros c [_ ?].
      * constructor; [done|]. eapply Forall_impl; [exact He|]. intros c Hc.
        cbn beta in Hc. apply not_eol_cases in Hc. tauto.
    + rewrite Hscan. cbn. lia.
  - destruct (exists_last Hne) as (seps0 & s & ->).
    assert (H1' : <[length ty := NUL]> line
                  = (ty ++ NUL :: seps0) ++ s :: e ++ z :: zs).
    { rewrite H1. rewrite <- !app_assoc. cbn [List.app]. by rewrite <- ?app_assoc. }
    pose proof (load_line_at line (ty ++ NUL :: seps0) s e0 e' z zs (length ty) true H0 Hp)
      as H.
    cbv zeta in H. rewrite H; [|exact H1'| |exact He|exact Hz].
    + cbn [snd]. f_equal. f_equal. rewrite <- app_assoc. cbn [List.app].
      apply c_str_app. eapply Forall_impl; [exact Hty|]. by intros c [_ ?].
    + rewrite Hscan, !length_app. cbn. lia.
Qed.

(** X26.  A line of /etc/mime.types made of a type, a run of blanks, the
    extensions and the end of the line gives one entry whose extensions are
    the text of the line between two blanks.  The type of the entry is the
    type of the line only when the run has two blanks or more: after a single
    blank, the blank written in front of the extensions takes the place of
    the terminator of the type, and the entry's type is the type, a blank and
    the extensions. *)
Theorem load_line_glues_type_after_single_blank (t0 : ascii) (ty' : list ascii)
    (s0 : ascii) (seps : list ascii) (e0 : ascii) (e' eol rest : list ascii) :
  let ty := t0 :: ty' in
  let e := e0 :: e' in
  ~ In t0 ["#"%char; CR; LF] ->
  Forall (fun c => is_blank c = false /\ c <> NUL) ty ->
  is_blank s0 = true -> Forall (fun c => is_blank c = true) seps ->
  s0 = TAB \/ ~ In TAB (seps ++ e ++ eol) ->
  is_blank e0 = false -> Forall (fun c => not_eol c = true) e ->
  Forall (fun c => c <> NUL) eol ->
  (forall c, head eol = Some c -> c = CR \/ c = LF) ->
  snd (mimetypes_load_line (ty ++ s0 :: seps ++ e ++ eol ++ NUL :: rest) true)
  = step_append
      (mk_mimetype_t (if decide (seps = []) then ty ++ SPC :: e else ty)
         (SPC :: e ++ [SPC])).
Proof. apply load_line_wf. Qed.

Lemma load_line_glues_type_after_single_blank_witness :
  snd (mimetypes_load_line
         (list_ascii_of_string "image/png" ++ TAB :: list_ascii_of_string "png" ++ [LF; NUL])
         true)
  = step_append
      (mk_mimetype_t (list_ascii_of_string "image/png png") (list_ascii_of_string " png "))
  /\ snd (mimetypes_load_line
            (list_ascii_of_string "text/html" ++ TAB :: TAB :: list_ascii_of_string "html htm"
               ++ [CR; LF; NUL])
            true)
     = step_append
         (mk_mimetype_t (list_ascii_of_string "text/html")
            (list_ascii_of_string " html htm ")).
Proof.
  split.
  - apply (load_line_glues_type_after_single_blank "i" (list_ascii_of_string "mage/png") TAB
             [] "p" (list_ascii_of_string "ng") [LF] []).
    + cbn. intros [H|[H|[H|[]]]]; discriminate.
    + repeat (constructor; [split; [reflexivity|discriminate]|]). constructor.
    + reflexivity.
    + constructor.
    + by left.
    + reflexivity.
    + repeat (constructor; [reflexivity|]). constructor.
    + repeat (constructor; [discriminate|]). constructor.
    + intros c [= <-]. by right.
  - apply (load_line_glues_type_after_single_blank "t" (list_ascii_of_string "ext/html") TAB
             [TAB] "h" (list_ascii_of_string "tml htm") [CR; LF] []).
    + cbn. intros [H|[H|[H|[]]]]; discriminate.
    + repeat (constructor; [split; [reflexivity|discriminate]|]). constructor.
    + reflexivity.
    + repeat (constructor; [reflexivity|]). constructor.
    + by left.
    + reflexivity.
    + repeat (constructor; [reflexivity|]). constructor.
    + repeat (constructor; [discriminate|]). constructor.
    + intros c [= <-]. by left.
Defined.

Lemma strchr_Some (l : list ascii) (c : ascii) (p : nat) :
  strchr l c = Some p -> l !! p = Some c.
Proof.
  revert p. induction l as [|a l IH]; intros p; cbn [strchr]; [done|].
  destruct (Ascii.eqb_spec a c) as [-> | _]; [by intros [= <-]|].
  destruct (a =? NUL)%char; [done|].
  destruct (strchr l c) as [q|]; [|done]. intros [= <-]. by apply IH.
Qed.

Lemma scan_take (f : ascii -> bool) (l : list ascii) :
  Forall (fun a => f a = true) (take (scan f l) l).
Proof.
  induction l as [|a l IH]; cbn [scan]; [constructor|].
  destruct (f a) eqn:Ha; cbn [take]; by constructor.
Qed.

Lemma scan_stop (f : ascii -> bool) (l : list ascii) (c : ascii) :
  l !! scan f l = Some c -> f c = false.
Proof.
  induction l as [|a l IH]; cbn [scan]; [done|].
  destruct (f a) eqn:Ha; [exact IH|]. by intros [= <-].
Qed.

Lemma c_str_insert_scan (f : ascii -> bool) (l : list ascii) :
  (forall a, f a = true -> a <> NUL) ->
  c_str (<[scan f l := NUL]> l) = take (scan f l) l.
Proof.
  intros Hf. induction l as [|a l IH]; cbn [scan]; [done|].
  destruct (f a) eqn:Ha.
  - cbn. rewrite (ascii_eqb_false _ _ (Hf a Ha)). f_equal. exact IH.
  - reflexivity.
Qed.

Lemma peek_Some (buf : list ascii) (p : nat) (c : ascii) :
  peek buf p = c -> c <> NUL -> buf !! p = Some c.
Proof.
  unfold peek. destruct (buf !! p) as [a|]; cbn; [by intros ->|]. by intros <-.
Qed.

(** The shape of what the loop body appends, for any buffer: the
    extensions are a blank, a byte that is no blank, further bytes, and a
    blank, with no end of line in between; and the loop body never ends the
    loop. *)
Lemma load_line_shape (line : list ascii) (alloc_ok : bool) :
  match snd (mimetypes_load_line line alloc_ok) with
  | step_continue => True
  | step_break => False
  | step_append mime =>
      exists e0 e',
        mime_exts mime = SPC :: e0 :: e' ++ [SPC]
        /\ is_blank e0 = false
        /\ Forall (fun c => not_eol c = true) (e0 :: e')
  end.
Proof.
  unfold mimetypes_load_line.
  destruct (_ || _ || _ || _); [done|].
  destruct (match strchr line TAB with Some p => Some p | None => strchr line SPC end)
    as [p|] eqn:Hp; [|done].
  cbv zeta.
  set (line1 := <[p := NUL]> line).
  set (q := (S p + scan blank_no_eol (drop (S p) line1))%nat).
  destruct ((peek line1 q =? CR) || (peek line1 q =? LF) || (peek line1 q =? NUL))%char
    eqn:Hc; [done|].
  apply orb_false_iff in Hc as [Hc Hnul]. apply orb_false_iff in Hc as [Hcr Hlf].
  apply Ascii.eqb_neq in Hcr, Hlf, Hnul.
  pose proof (peek_Some line1 q _ eq_refl Hnul) as Hq.
  set (c := peek line1 q) in *.
  assert (Hcb : is_blank c = false).
  { assert (Hs : blank_no_eol c = false).
    { apply (scan_stop blank_no_eol (drop (S p) line1)). by rewrite lookup_drop. }
    unfold blank_no_eol in Hs. unfold is_blank.
    rewrite (ascii_eqb_false _ _ Hnul), (ascii_eqb_false _ _ Hcr),
      (ascii_eqb_false _ _ Hlf) in Hs. cbn [negb orb andb] in Hs.
    by rewrite andb_true_r in Hs. }
  assert (Hce : not_eol c = true) by (by apply not_eol_cases).
  assert (Hpred : Init.Nat.pred q = (q - 1)%nat) by lia.
  assert (Hq1 : (1 <= q)%nat) by (unfold q; lia).
  rewrite Hpred. set (x := (q - 1)%nat).
  assert (Hx : (x < length line1)%nat).
  { apply lookup_lt_Some in Hq. unfold x. lia. }
  assert (Hd : drop x (<[x := SPC]> line1) = SPC :: c :: drop (S q) line1).
  { rewrite (drop_S (<[x := SPC]> line1) SPC x) by (by apply list_lookup_insert_eq).
    f_equal. rewrite drop_insert_lt by lia.
    replace (S x) with q by (unfold x; lia). by apply drop_S. }
  rewrite Hd. cbn [scan].
  assert (Hsp : not_eol SPC = true) by done.
  rewrite Hsp, Hce.
  set (n := scan not_eol (drop (S q) line1)).
  replace (x + S (S n) =? x)%nat with false by (symmetry; apply Nat.eqb_neq; lia).
  destruct alloc_ok; cbn [negb snd]; [|done].
  exists c, (take n (drop (S q) line1)). split; [|split; [done|]].
  - cbn [mime_exts]. rewrite drop_insert_ge by lia.
    replace (x + S (S n) - x)%nat with (scan not_eol (SPC :: c :: drop (S q) line1))
      by (cbn [scan]; rewrite Hsp, Hce; fold n; lia).
    rewrite Hd, (c_str_insert_scan not_eol).
    + cbn [scan]. rewrite Hsp, Hce. by cbn.
    + intros a Ha. apply not_eol_cases in Ha. tauto.
  - constructor; [done|]. apply scan_take.
Qed.

Lemma fgets_take_le (n : nat) (fil : list ascii) :
  (length (snd (fgets_take n fil)) <= length fil)%nat.
Proof.
  revert n. induction fil as [|c fil IH]; intros [|n]; cbn [fgets_take snd length]; try lia.
  destruct (c =? LF)%char; cbn [snd]; [lia|].
  specialize (IH n). destruct (fgets_take n fil) as [l r]. cbn [snd] in *. lia.
Qed.

Lemma fgets_shorter (line : list ascii) (n : nat) (fil line1 fil1 : list ascii) :
  fgets line (S (S n)) fil = Some (line1, fil1) -> (length fil1 < length fil)%nat.
Proof.
  unfold fgets. destruct fil as [|c fil]; [done|].
  replace (S (S n) - 1)%nat with (S n) by lia. cbn [fgets_take].
  destruct (c =? LF)%char.
  - intros [= _ <-]. cbn. lia.
  - pose proof (fgets_take_le n fil) as H. destruct (fgets_take n fil) as [l r].
    intros [= _ <-]. cbn in *. lia.
Qed.

Lemma load_loop_appends (allocs : nat -> bool) (fuel : nat) (line fil : list ascii)
    (k : nat) (tbl : list mimetype_t) :
  (length fil < fuel)%nat ->
  exists new,
    mimetypes_load_loop fuel line fil allocs k tbl = Some (tbl ++ new)
    /\ Forall entry_shape new.
Proof.
  revert line fil k tbl. induction fuel as [|fuel IH]; intros line fil k tbl Hf; [lia|].
  cbn [mimetypes_load_loop].
  destruct (fgets line 4096 fil) as [[line1 fil1]|] eqn:Hg.
  - apply fgets_shorter in Hg.
    pose proof (load_line_shape line1 (allocs k)) as Hs.
    destruct (mimetypes_load_line line1 (allocs k)) as [line2 [| |mime]]; cbn [snd] in Hs.
    + apply IH. lia.
    + done.
    + destruct (IH line2 fil1 (S k) (tbl ++ [mime])) as (new & -> & Hnew); [lia|].
      exists (mime :: new). split; [by rewrite <- app_assoc|]. by constructor.
  - exists []. by rewrite app_nil_r.
Qed.

(** X27.  The loop body of [mimetypes_load] never ends the loop: the
    test "This is bad" that leads to its [break] compares the end of the
    extensions with their start, and the start holds the blank that has just
    been written there, so the scan for the end of the line always moves on.
    A line stops the reading of the file in no case; it is skipped or gives
    an entry. *)
Theorem load_line_never_breaks (line : list ascii) (alloc_ok : bool) :
  snd (mimetypes_load_line line alloc_ok) <> step_break.
Proof.
  pose proof (load_line_shape line alloc_ok) as H. intros Hb. by rewrite Hb in H.
Qed.

(** X28.  [mimetypes_load] ends on every file and only appends: the
    entries that the table had (from earlier calls) stay in place, and the
    value returned is the number of entries of the whole table, not of those
    just read.  When the line buffer cannot be allocated or the file cannot
    be opened, it returns -1 and leaves the table alone.  Every entry appended
    has extensions that start with a blank followed by a byte that is no
    blank, and end with a blank, with no end of line in between. *)
Theorem mimetypes_load_appends (line_ok : bool) (file : option (list ascii))
    (allocs : nat -> bool) (tbl : list mimetype_t) :
  exists new,
    mimetypes_load line_ok file allocs tbl
    = Some (if line_ok && bool_decide (is_Some file)
            then Z.of_nat (length (tbl ++ new)) else -1,
            tbl ++ new)
    /\ (line_ok = false \/ file = None -> new = [])
    /\ Forall entry_shape new.
Proof.
  unfold mimetypes_load. destruct line_ok; cbn [negb andb].
  - destruct file as [fil|].
    + destruct (load_loop_appends allocs (S (length fil)) (repeat NUL 4096) fil 0 tbl)
        as (new & -> & Hnew); [lia|].
      exists new. split; [done|]. split; [|done]. by intros [|].
    + exists []. rewrite app_nil_r. by split.
  - exists []. rewrite app_nil_r. by split.
Qed.

Lemma strrchr_None (x : list ascii) (c : ascii) :
  Forall (fun a => a <> c) x -> strrchr x c = None.
Proof.
  induction 1 as [|a x Ha _ IH]; cbn [strrchr]; [done|].
  rewrite IH, (ascii_eqb_false _ _ Ha). by destruct (a =? NUL)%char.
Qed.

Lemma strrchr_app (base x : list ascii) (c : ascii) :
  c <> NUL -> Forall (fun a => a <> NUL) base -> Forall (fun a => a <> c) x ->
  strrchr (base ++ c :: x) c = Some (length base).
Proof.
  intros Hc Hb Hx. induction Hb as [|a base Ha _ IH]; cbn [strrchr List.app length].
  - by rewrite (ascii_eqb_false _ _ Hc), (strrchr_None _ _ Hx), Ascii.eqb_refl.
  - by rewrite (ascii_eqb_false _ _ Ha), IH.
Qed.

Lemma has_prefix_word (x t rest : list ascii) :
  SPC ∉ x -> SPC ∉ t ->
  has_prefix (x ++ [SPC]) (t ++ SPC :: rest) = bool_decide (x = t).
Proof.
  revert t. induction x as [|b x IH]; intros [|a t] Hx Ht; cbn [has_prefix List.app].
  - by rewrite Ascii.eqb_refl.
  - rewrite ascii_eqb_false; [done|]. intros <-. apply Ht. by left.
  - rewrite ascii_eqb_false; [done|]. intros ->. apply Hx. by left.
  - apply not_elem_of_cons in Hx as [_ Hx]. apply not_elem_of_cons in Ht as [_ Ht].
    rewrite (IH t Hx Ht). destruct (Ascii.eqb_spec b a) as [-> | Hne]; cbn [andb].
    + apply bool_decide_ext. split; [by intros ->|by intros [= ->]].
    + symmetry. apply bool_decide_eq_false. by intros [= ? _].
Qed.

Lemma strstr_words (x : list ascii) (words : list (list ascii)) (u : list ascii) :
  SPC ∉ x -> Forall (fun t => SPC ∉ t) words -> SPC ∉ u ->
  strstr (u ++ SPC :: concat (map (fun t => t ++ [SPC]) words)) (SPC :: x ++ [SPC])
  = bool_decide (x ∈ words).
Proof.
  intros Hx Hw. revert u. induction Hw as [|t words Ht _ IHw]; intros u Hu.
  - induction u as [|a u IHu]; cbn [strstr List.app concat map has_prefix].
    + rewrite Ascii.eqb_refl. cbn [andb]. by destruct x.
    + apply not_elem_of_cons in Hu as [Ha Hu].
      rewrite (ascii_eqb_false SPC a) by done. cbn [andb orb]. by apply IHu.
  - induction u as [|a u IHu]; cbn [strstr List.app has_prefix].
    + rewrite Ascii.eqb_refl. cbn [andb concat map]. rewrite <- app_assoc. cbn [List.app].
      rewrite (has_prefix_word x t _ Hx Ht), (IHw t Ht).
      destruct (decide (x = t)) as [-> | Hne].
      * rewrite bool_decide_eq_true_2 by done. symmetry. apply bool_decide_eq_true_2.
        by left.
      * rewrite (bool_decide_eq_false_2 _ Hne). cbn [orb]. apply bool_decide_ext.
        rewrite elem_of_cons. tauto.
    + apply not_elem_of_cons in Hu as [Ha Hu].
      rewrite (ascii_eqb_false SPC a) by done. cbn [andb orb]. by apply IHu.
Qed.

(** X29.  [mimetypes_find] looks at the text after the last dot of the
    name only, and matches it as a whole word: for a table whose entries
    list their extensions as words between single blanks, the type returned
    is that of the first entry that has the extension among its words, and
    "application/octet-stream" when no entry has it. *)
Theorem mimetypes_find_first_listed (tbl : list (list ascii * list (list ascii)))
    (base x : list ascii) :
  Forall (fun c => c <> NUL) base ->
  Forall (fun c => c <> NUL /\ c <> "."%char /\ c <> SPC) x ->
  Forall (fun en => Forall (fun t => SPC ∉ t) (snd en)) tbl ->
  mimetypes_find (map (fun en => mk_mimetype_t (fst en) (exts_of_words (snd en))) tbl) true
    (base ++ "."%char :: x)
  = match List.find (fun en => bool_decide (x ∈ snd en)) tbl with
    | Some en => fst en
    | None => octet_stream
    end.
Proof.
  intros Hb Hx Htbl. unfold mimetypes_find.
  rewrite strrchr_app; [|done|done|by eapply Forall_impl; [exact Hx|]; intros c (_ & ? & _)].
  cbn [negb].
  replace (drop (S (length base)) (base ++ "."%char :: x)) with x.
  2:{ replace (base ++ "."%char :: x) with ((base ++ ["."%char]) ++ x)
        by (by rewrite <- app_assoc).
      replace (S (length base)) with (length (base ++ ["."%char]))
        by (rewrite length_app; cbn; lia).
      by rewrite drop_app_mid. }
  rewrite c_str_all by (by eapply Forall_impl; [exact Hx|]; intros c (? & _)).
  assert (Hsx : SPC ∉ x).
  { intros Hin. rewrite Forall_forall in Hx. destruct (Hx _ Hin) as (_ & _ & H). done. }
  induction Htbl as [|[ty words] tbl Hw _ IH]; cbn [map List.find fst snd mime_exts]; [done|].
  unfold exts_of_words at 1.
  pose proof (strstr_words x words [] Hsx Hw (not_elem_of_nil _)) as Hs.
  cbn [List.app] in Hs. rewrite Hs.
  destruct (bool_decide (x ∈ words)); [done|]. exact IH.
Qed.

Lemma mimetypes_find_first_listed_witness :
  mimetypes_find
    [mk_mimetype_t (list_ascii_of_string "text/html") (list_ascii_of_string " html htm ");
     mk_mimetype_t (list_ascii_of_string "image/png") (list_ascii_of_string " png ")]
    true (list_ascii_of_string "archive.tar.htm")
  = list_ascii_of_string "text/html".
Proof.
  apply (mimetypes_find_first_listed
           [(list_ascii_of_string "text/html",
             [list_ascii_of_string "html"; list_ascii_of_string "htm"]);
            (list_ascii_of_string "image/png", [list_ascii_of_string "png"])]
           (list_ascii_of_string "archive.tar") (list_ascii_of_string "htm")).
  - repeat (constructor; [discriminate|]). constructor.
  - repeat (constructor; [repeat split; discriminate|]). constructor.
  - repeat constructor; cbn; intros H; repeat (apply elem_of_cons in H as [H|H]; [discriminate|]);
      by apply elem_of_nil in H.
Defined.

Lemma fgets_take_line (txt rest : list ascii) (n : nat) :
  Forall (fun c => c <> LF) txt -> (length txt < n)%nat ->
  fgets_take n (txt ++ LF :: rest) = (txt ++ [LF], rest).
Proof.
  intros Htxt. revert n. induction Htxt as [|c txt Hc _ IH]; intros [|n] Hn;
    cbn [length] in Hn; try lia; cbn [fgets_take List.app].
  - by rewrite Ascii.eqb_refl.
  - rewrite (ascii_eqb_false _ _ Hc), IH by lia. done.
Qed.

Lemma load_loop_wf (lines : list MimeLine) (fuel : nat) (buf : list ascii) (k : nat)
    (tbl : list mimetype_t) :
  Forall line_wf lines -> (length lines < fuel)%nat ->
  mimetypes_load_loop fuel buf (concat (map line_text lines)) (fun _ => true) k tbl
  = Some (tbl ++ map entry_of_line lines).
Proof.
  intros Hwf. revert fuel buf k tbl.
  induction Hwf as [|l lines Hl _ IH]; intros [|fuel] buf k tbl Hf; cbn [length] in Hf;
    try lia.
  - cbn. by rewrite app_nil_r.
  - destruct Hl as ((t0 & ty' & Hty0 & Ht0) & Hty & (s0 & seps & Hbl & Htab) & Hblanks
                    & (e0 & e' & Hex & He0) & He & Hlen).
    cbn [mimetypes_load_loop map concat].
    set (rest := concat (map line_text lines)).
    set (txt := ml_type l ++ ml_blanks l ++ ml_exts l).
    assert (Htxt : line_text l ++ rest = txt ++ LF :: rest).
    { unfold line_text, txt. rewrite <- !app_assoc. done. }
    assert (Hnl : Forall (fun c => c <> LF) txt).
    { unfold txt. rewrite !Forall_app. split; [|split].
      - eapply Forall_impl; [exact Hty|]. by intros c (_ & _ & ?).
      - eapply Forall_impl; [exact Hblanks|]. intros c Hc ->. done.
      - eapply Forall_impl; [exact He|]. intros c Hc. cbn beta in Hc.
        apply not_eol_cases in Hc. tauto. }
    assert (Hlt : (length txt < 4095)%nat).
    { unfold line_text in Hlen. unfold txt. rewrite !length_app in *. cbn in Hlen. lia. }
    assert (Hg : fgets buf 4096 (line_text l ++ rest)
                 = Some ((txt ++ [LF]) ++ NUL :: drop (S (length (txt ++ [LF]))) buf, rest)).
    { unfold fgets. rewrite Htxt.
      replace (4096 - 1)%nat with 4095%nat by lia.
      rewrite (fgets_take_line txt rest 4095 Hnl Hlt).
      destruct txt as [|c txt'] eqn:Ht; [|done].
      unfold txt in Ht. rewrite Hty0 in Ht. done. }
    rewrite Hg.
    set (g := drop (S (length (txt ++ [LF]))) buf).
    assert (Hline : (txt ++ [LF]) ++ NUL :: g
                    = (t0 :: ty') ++ s0 :: seps ++ (e0 :: e') ++ [LF] ++ NUL :: g).
    { unfold txt. rewrite Hty0, Hbl, Hex. rewrite <- !app_assoc. cbn [List.app].
      by rewrite <- ?app_assoc. }
    rewrite Hline.
    pose proof (load_line_wf t0 ty' s0 seps e0 e' [LF] g) as H. cbv zeta in H.
    rewrite Hbl in Hblanks. rewrite Hty0 in Hty. rewrite Hex in He.
    specialize (H Ht0).
    destruct (mimetypes_load_line ((t0 :: ty') ++ s0 :: seps ++ (e0 :: e') ++ [LF] ++ NUL :: g)
                true) as [line2 st].
    cbn [snd] in H. rewrite H.
    + rewrite IH by lia. rewrite <- app_assoc. do 2 f_equal.
      unfold entry_of_line. rewrite Hbl, Hty0, Hex. cbn [length].
      destruct seps; by repeat case_decide.
    + eapply Forall_impl; [exact Hty|]. by intros c (? & ? & _).
    + by apply Forall_inv in Hblanks.
    + by apply Forall_inv_tail in Hblanks.
    + destruct Htab as [|Htab]; [by left|right].
      rewrite Hex in Htab. intros Hin. apply Htab.
      rewrite !in_app_iff in Hin. rewrite in_app_iff.
      destruct Hin as [|[|[|[]]]]; [by left|by right|done].
    + exact He0.
    + exact He.
    + by repeat constructor.
    + intros c [= <-]. by right.
Qed.

(** X30.  A file of well-formed lines is read line by line.  When every
    line is a type without blanks, a run of blanks (starting with a tab, or
    in a line without tabs) and extensions, ends with a newline and has at
    most 4095 bytes with it, [mimetypes_load] appends one entry per line, in
    the order of the file, and returns the number of entries of the table.
    The extensions of an entry are those of its line between two blanks; its
    type is that of the line, except after a single blank, where it is the
    type, a blank and the extensions. *)
Theorem mimetypes_load_reads_well_formed_file (lines : list MimeLine)
    (tbl : list mimetype_t) :
  Forall line_wf lines ->
  mimetypes_load true (Some (concat (map line_text lines))) (fun _ => true) tbl
  = Some (Z.of_nat (length tbl + length lines), tbl ++ map entry_of_line lines).
Proof.
  intros Hwf. unfold mimetypes_load. cbn [negb].
  rewrite (load_loop_wf lines _ _ 0 tbl Hwf).
  - by rewrite length_app, length_map.
  - assert (H : (length lines <= length (concat (map line_text lines)))%nat).
    { clear tbl. induction Hwf as [|l lines Hl _ IH]; [done|].
      cbn [map concat length]. rewrite length_app. unfold line_text at 1.
      destruct Hl as ((t0 & ty' & -> & _) & _). cbn [List.app length]. lia. }
    lia.
Qed.

Lemma example_mime_lines_wf : Forall line_wf example_mime_lines.
Proof.
  constructor; [|constructor; [|constructor]];
    (unfold line_wf; cbn [ml_type ml_blanks ml_exts];
     split; [eexists _, _; split; [reflexivity|cbn; intros [H|[H|[H|[]]]]; discriminate]|];
     split; [repeat (constructor; [repeat split; (reflexivity || discriminate)|]);
             constructor|];
     split; [eexists _, _; split; [reflexivity|by left]|];
     split; [repeat (constructor; [reflexivity|]); constructor|];
     split; [eexists _, _; split; reflexivity|];
     split; [repeat (constructor; [reflexivity|]); constructor|];
     cbn; lia).
Qed.

Lemma mimetypes_load_reads_well_formed_file_witness :
  exists tbl,
    mimetypes_load true (Some (concat (map line_text example_mime_lines))) (fun _ => true) []
    = Some (2, tbl)
    /\ mimetypes_find tbl true (list_ascii_of_string "index.html")
       = list_ascii_of_string "text/html"
    /\ mimetypes_find tbl true (list_ascii_of_string "logo.png")
       = list_ascii_of_string "image/png png".
Proof.
  eexists. split.
  - exact (mimetypes_load_reads_well_formed_file example_mime_lines []
             example_mime_lines_wf).
  - split; reflexivity.
Defined.
